(** * UAE Visa Services back end: validation, persistence and submission handlers

    A shallow embedding of the Express application under [backend/]:
    - [config/database.js]: the SQLite schema and the three query helpers;
    - [middleware/errorHandler.js]: [AppError], [catchAsync],
      [handleValidationErrors] and the final error middleware;
    - [middleware/errorHandler.js] again, for uploads: [handleMulterError];
    - [utils/emailService.js]: [sendEmail] and [sendBulkEmails];
    - [routes/visa.js], [routes/contact.js], [routes/feedback.js],
      [routes/newsletter.js]: the request handlers, and the upload filter
      of the visa routes;
    - [routes/health.js]: [formatUptime];
    - [utils/validation.js]: the patterns, the cross-field rules and the
      sanitizers [stripHtml] and [normalizePhone];
    and of the telephone helpers of the front end ([js/main.js],
    [js/forms.js]), which prepare what the routes validate.

    Strings are sequences of 8-bit characters.  Third-party code whose
    behaviour the handlers take as given (validator.js' e-mail and ISO-8601
    tests, moment's date parsing, the clock and the random sources) is
    gathered in the record [environment]; the mail transport is part of the
    [world] a handler runs in. *)

From Stdlib Require Import ZArith List String Ascii Bool Lia.
From Stdlib Require Import DecimalString DecimalZ DecimalPos.
Import ListNotations.
Local Open Scope string_scope.
Local Open Scope Z_scope.

(** ** JavaScript string primitives used by the handlers *)

Module Js.

Definition chars (s : string) : list ascii := list_ascii_of_string s.
Definition str (l : list ascii) : string := string_of_list_ascii l.

Definition code (c : ascii) : Z := Z.of_N (N_of_ascii c).

Definition between (lo hi : Z) (c : ascii) : bool :=
  (lo <=? code c) && (code c <=? hi).

Definition is_digit : ascii -> bool := between 48 57.
Definition is_upper : ascii -> bool := between 65 90.
Definition is_lower : ascii -> bool := between 97 122.

(** The class [\s] restricted to 8-bit characters: tab, line feed, vertical
    tab, form feed, carriage return, space and no-break space. *)
Definition is_space (c : ascii) : bool :=
  between 9 13 c || (code c =? 32) || (code c =? 160).

Definition length (s : string) : Z := Z.of_nat (String.length s).

Fixpoint drop_while (p : ascii -> bool) (l : list ascii) : list ascii :=
  match l with
  | [] => []
  | c :: l' => if p c then drop_while p l' else l
  end.

(** validator.js' [trim] sanitizer without a character set: leading and
    trailing white space is removed. *)
Definition trim (s : string) : string :=
  str (rev (drop_while is_space (rev (drop_while is_space (chars s))))).

Definition upper_char (c : ascii) : ascii :=
  if is_lower c then ascii_of_N (N_of_ascii c - 32) else c.

Definition lower_char (c : ascii) : ascii :=
  if is_upper c then ascii_of_N (N_of_ascii c + 32) else c.

Definition toUpperCase (s : string) : string := str (map upper_char (chars s)).
Definition toLowerCase (s : string) : string := str (map lower_char (chars s)).

(** [s.substr(start, len)] for non-negative arguments. *)
Definition substr (start len : nat) (s : string) : string :=
  String.substring start len s.

(** A string is truthy when it is not empty. *)
Definition truthy (s : string) : bool := negb (s =? "")%string.

(** [String(n)] / template interpolation of an integer. *)
Definition number_toString (z : Z) : string :=
  NilZero.string_of_int (Z.to_int z).

(** The integer denoted by a string of the form [[-+]?[0-9]+]; [None] for
    every other string. *)
Definition parse_int (s : string) : option Z :=
  match s with
  | String "+" s' => option_map Z.of_uint (NilZero.uint_of_string s')
  | _ => option_map Z.of_int (NilZero.int_of_string s)
  end.

(** [Number(s)] on a query parameter that is an integer literal.  A string
    with a fraction or an exponent, to which JavaScript gives a value too,
    is not followed: it is answered [None] here like a string that is no
    number at all, and what is stated of the listings is stated for pages
    and limits that are integer literals. *)
Definition Number (s : string) : option Z := parse_int s.

(** The double nearest to an integer, ties to the even significand; [None]
    is an infinity.  Integers of magnitude below [2 ^ 53] are doubles. *)
Definition double_of_Z (z : Z) : option Z :=
  let a := Z.abs z in
  if a <? 2 ^ 53 then Some z
  else
    let s := Z.log2 a - 52 in
    let q := a / 2 ^ s in
    let r := a mod 2 ^ s in
    let m := if 2 * r <? 2 ^ s then q
             else if 2 ^ s <? 2 * r then q + 1
             else if Z.even q then q else q + 1 in
    if 2 ^ 1024 <=? m * 2 ^ s then None else Some (Z.sgn z * (m * 2 ^ s)).

(** The value of a character as a digit, up to radix 36. *)
Definition digit_value (c : ascii) : option Z :=
  if is_digit c then Some (code c - 48)
  else if is_lower c then Some (code c - 87)
  else if is_upper c then Some (code c - 55)
  else None.

Definition radix_digit (radix : Z) (c : ascii) : bool :=
  match digit_value c with
  | Some v => v <? radix
  | None => false
  end.

Fixpoint take_while (p : ascii -> bool) (l : list ascii) : list ascii :=
  match l with
  | [] => []
  | c :: l' => if p c then c :: take_while p l' else []
  end.

Definition digits_value (radix : Z) (l : list ascii) : Z :=
  fold_left
    (fun acc c => radix * acc + match digit_value c with Some v => v | None => 0 end)
    l 0.

(** [parseInt(s)] without a radix: white space is skipped, a sign is read,
    then [0x] or [0X] (which makes the radix 16), then the longest run of
    digits; what follows is ignored.  [None] is returned where JavaScript
    returns NaN (no digit) or an infinity (a run of digits beyond the
    doubles): the code that calls [parseInt] treats the two alike. *)
Definition parseInt (s : string) : option Z :=
  let l := drop_while is_space (chars s) in
  let signed :=
    match l with
    | "-"%char :: l' => (-1, l')
    | "+"%char :: l' => (1, l')
    | _ => (1, l)
    end in
  let prefixed :=
    match snd signed with
    | "0"%char :: "x"%char :: l' => (16, l')
    | "0"%char :: "X"%char :: l' => (16, l')
    | _ => (10, snd signed)
    end in
  match take_while (radix_digit (fst prefixed)) (snd prefixed) with
  | [] => None
  | digits => double_of_Z (fst signed * digits_value (fst prefixed) digits)
  end.

(** [Math.ceil(total / limit)]; [None] is a result that is not finite. *)
Definition ceil_div (total : Z) (limit : option Z) : option Z :=
  match limit with
  | Some l => if l =? 0 then None else Some (- ((- total) / l))
  | None => None
  end.

(** [arr.join(sep)] *)
Definition join (sep : string) (l : list string) : string := String.concat sep l.

Definition includes (x : string) (l : list string) : bool :=
  existsb (String.eqb x) l.

End Js.

(** ** JSON values, as passed to [res.json] *)

#[local] Unset Elimination Schemes.
Inductive json : Type :=
| JNull
| JBool (b : bool)
| JNum (z : Z)
| JStr (s : string)
| JArr (items : list json)
| JObj (fields : list (string * json)).
#[local] Set Elimination Schemes.

(** Property lookup on an association list; [None] is [undefined]. *)
Fixpoint assoc {A : Type} (k : string) (l : list (string * A)) : option A :=
  match l with
  | [] => None
  | (k', v) :: l' => if (k =? k')%string then Some v else assoc k l'
  end.

Definition jget (k : string) (j : json) : option json :=
  match j with
  | JObj fields => assoc k fields
  | _ => None
  end.

(** Assignment [o[k] = v]: the first binding of [k] is replaced, a new key is
    added at the end. *)
Fixpoint assign {A : Type} (k : string) (v : A) (l : list (string * A))
  : list (string * A) :=
  match l with
  | [] => [(k, v)]
  | (k', v') :: l' =>
      if (k =? k')%string then (k, v) :: l' else (k', v') :: assign k v l'
  end.

(** ** The persistence gateway: [config/database.js]

    The store is SQLite.  A statement is kept as its syntax tree; it fails,
    as SQLite's statement preparation does, when it names a column its table
    does not have, and a write fails when it breaks a NOT NULL, UNIQUE or
    CHECK constraint of the schema of [createTables]. *)

Module Sql.

Inductive value : Type :=
| VNull
| VInt (z : Z)
| VText (s : string).

(** A result row: the object node-sqlite3 hands back, keyed by column. *)
Definition row : Type := list (string * value).

Inductive table : Type :=
| visa_applications
| contact_messages
| feedback
| newsletter_subscriptions
| application_status_log.

Definition table_name (t : table) : string :=
  match t with
  | visa_applications => "visa_applications"
  | contact_messages => "contact_messages"
  | feedback => "feedback"
  | newsletter_subscriptions => "newsletter_subscriptions"
  | application_status_log => "application_status_log"
  end.

Inductive affinity : Type := INTEGER | TEXT | BOOLEAN | DATETIME.

Inductive default : Type :=
| NoDefault
| DefaultText (s : string)
| DefaultBool (b : bool)
| CurrentTimestamp
| AutoIncrement.

Record column : Type := Column {
  col_name : string;
  col_type : affinity;
  col_not_null : bool;
  col_unique : bool;
  col_default : default
}.

Definition primary_key : column := Column "id" INTEGER false true AutoIncrement.
Definition nullable (n : string) (a : affinity) := Column n a false false NoDefault.
Definition not_null (n : string) (a : affinity) := Column n a true false NoDefault.
Definition unique_not_null (n : string) (a : affinity) := Column n a true true NoDefault.
Definition unique (n : string) (a : affinity) := Column n a false true NoDefault.
Definition with_default (n : string) (a : affinity) (d : default) :=
  Column n a false false d.

(** The five [CREATE TABLE IF NOT EXISTS] statements of [createTables]. *)
Definition schema (t : table) : list column :=
  match t with
  | visa_applications =>
      [ primary_key;
        unique_not_null "application_id" TEXT;
        not_null "full_name" TEXT;
        not_null "email" TEXT;
        not_null "phone" TEXT;
        not_null "nationality" TEXT;
        not_null "passport_number" TEXT;
        not_null "visa_type" TEXT;
        not_null "purpose_of_visit" TEXT;
        not_null "duration_of_stay" INTEGER;
        not_null "arrival_date" TEXT;
        not_null "departure_date" TEXT;
        nullable "accommodation_details" TEXT;
        nullable "sponsor_information" TEXT;
        nullable "previous_uae_visit" TEXT;
        nullable "criminal_record" TEXT;
        nullable "medical_conditions" TEXT;
        nullable "emergency_contact_name" TEXT;
        nullable "emergency_contact_phone" TEXT;
        nullable "emergency_contact_relationship" TEXT;
        nullable "passport_copy_path" TEXT;
        nullable "photo_path" TEXT;
        nullable "cv_path" TEXT;
        nullable "additional_documents_path" TEXT;
        with_default "status" TEXT (DefaultText "pending");
        with_default "created_at" DATETIME CurrentTimestamp;
        with_default "updated_at" DATETIME CurrentTimestamp ]
  | contact_messages =>
      [ primary_key;
        unique_not_null "message_id" TEXT;
        not_null "full_name" TEXT;
        not_null "email" TEXT;
        nullable "phone" TEXT;
        not_null "inquiry_type" TEXT;
        not_null "subject" TEXT;
        not_null "message" TEXT;
        with_default "preferred_contact" TEXT (DefaultText "email");
        with_default "urgency_level" TEXT (DefaultText "medium");
        with_default "newsletter_subscription" BOOLEAN (DefaultBool false);
        with_default "status" TEXT (DefaultText "new");
        with_default "created_at" DATETIME CurrentTimestamp;
        with_default "updated_at" DATETIME CurrentTimestamp ]
  | feedback =>
      [ primary_key;
        unique_not_null "feedback_id" TEXT;
        not_null "full_name" TEXT;
        not_null "email" TEXT;
        nullable "phone" TEXT;
        nullable "visa_type" TEXT;
        not_null "service_rating" INTEGER;
        not_null "would_recommend" TEXT;
        not_null "feedback_title" TEXT;
        not_null "feedback_message" TEXT;
        nullable "aspects_impressed" TEXT;
        with_default "allow_public_display" BOOLEAN (DefaultBool false);
        with_default "allow_contact" BOOLEAN (DefaultBool false);
        with_default "status" TEXT (DefaultText "pending");
        with_default "is_featured" BOOLEAN (DefaultBool false);
        with_default "created_at" DATETIME CurrentTimestamp;
        with_default "updated_at" DATETIME CurrentTimestamp ]
  | newsletter_subscriptions =>
      [ primary_key;
        unique_not_null "email" TEXT;
        nullable "full_name" TEXT;
        with_default "subscription_date" DATETIME CurrentTimestamp;
        with_default "is_active" BOOLEAN (DefaultBool true);
        unique "unsubscribe_token" TEXT;
        with_default "created_at" DATETIME CurrentTimestamp;
        with_default "updated_at" DATETIME CurrentTimestamp ]
  | application_status_log =>
      [ primary_key;
        not_null "application_id" TEXT;
        nullable "old_status" TEXT;
        not_null "new_status" TEXT;
        nullable "notes" TEXT;
        with_default "changed_by" TEXT (DefaultText "system");
        with_default "created_at" DATETIME CurrentTimestamp ]
  end.

Definition column_names (t : table) : list string := map col_name (schema t).

Definition has_column (t : table) (c : string) : bool :=
  Js.includes c (column_names t).

Definition find_column (t : table) (c : string) : option column :=
  find (fun k => (col_name k =? c)%string) (schema t).

(** *** Values *)

(** Column affinity applied to a bound value: a numeric column turns text
    that spells an integer into that integer, a TEXT column turns an integer
    into its decimal text. *)
Definition apply_affinity (a : affinity) (v : value) : value :=
  match a, v with
  | TEXT, VInt z => VText (Js.number_toString z)
  | TEXT, _ => v
  | _, VText s => match Js.parse_int s with Some z => VInt z | None => v end
  | _, _ => v
  end.

(** The SQL test [a = b]: never true when a side is NULL. *)
Definition eq_value (a b : value) : bool :=
  match a, b with
  | VInt x, VInt y => x =? y
  | VText x, VText y => (x =? y)%string
  | _, _ => false
  end.

(** The order of ORDER BY: NULL, then integers, then text (bytewise). *)
Definition compare_value (a b : value) : comparison :=
  match a, b with
  | VNull, VNull => Eq
  | VNull, _ => Lt
  | _, VNull => Gt
  | VInt x, VInt y => x ?= y
  | VInt _, VText _ => Lt
  | VText _, VInt _ => Gt
  | VText x, VText y => String.compare x y
  end.

Definition get (c : string) (r : row) : value :=
  match assoc c r with Some v => v | None => VNull end.

(** *** The store *)

Record table_state : Type := TableState {
  rows : list row;
  last_rowid : Z
}.

Record database : Type := Database {
  visa_applications_table : table_state;
  contact_messages_table : table_state;
  feedback_table : table_state;
  newsletter_subscriptions_table : table_state;
  application_status_log_table : table_state
}.

Definition empty_table : table_state := TableState [] 0.

Definition empty_database : database :=
  Database empty_table empty_table empty_table empty_table empty_table.

Definition select_table (t : table) (d : database) : table_state :=
  match t with
  | visa_applications => visa_applications_table d
  | contact_messages => contact_messages_table d
  | feedback => feedback_table d
  | newsletter_subscriptions => newsletter_subscriptions_table d
  | application_status_log => application_status_log_table d
  end.

Definition replace_table (t : table) (s : table_state) (d : database) : database :=
  match t with
  | visa_applications =>
      Database s (contact_messages_table d) (feedback_table d)
        (newsletter_subscriptions_table d) (application_status_log_table d)
  | contact_messages =>
      Database (visa_applications_table d) s (feedback_table d)
        (newsletter_subscriptions_table d) (application_status_log_table d)
  | feedback =>
      Database (visa_applications_table d) (contact_messages_table d) s
        (newsletter_subscriptions_table d) (application_status_log_table d)
  | newsletter_subscriptions =>
      Database (visa_applications_table d) (contact_messages_table d)
        (feedback_table d) s (application_status_log_table d)
  | application_status_log =>
      Database (visa_applications_table d) (contact_messages_table d)
        (feedback_table d) (newsletter_subscriptions_table d) s
  end.

Definition table_rows (t : table) (d : database) : list row :=
  rows (select_table t d).

(** *** Statements *)

Inductive projection : Type :=
| Star                                        (* SELECT * *)
| Columns (cols : list (string * string))     (* column AS key *)
| CountStar (key : string).                   (* COUNT( * ) AS key *)

Inductive direction : Type := ASC | DESC.

(** A condition [column = value]; a WHERE clause is their conjunction. *)
Definition condition : Type := (string * value)%type.

Record select : Type := Select {
  sel_what : projection;
  sel_from : table;
  sel_where : list condition;
  sel_order_by : option (string * direction);
  (** [LIMIT ? OFFSET ?]; a bound number that is NaN is [None]. *)
  sel_limit : option (option Z * option Z)
}.

Inductive statement : Type :=
| Insert (into : table) (assignments : list (string * value))
| Update (target : table) (set : list (string * value)) (where_ : list condition).

Inductive outcome (A : Type) : Type :=
| Done (a : A)
| Failed (code message : string).
Arguments Done {A} a.
Arguments Failed {A} code message.

Definition no_such_column {A : Type} (c : string) : outcome A :=
  Failed "SQLITE_ERROR" ("no such column: " ++ c).

(** The first name of [cs] that is not a column of [t]. *)
Definition unknown_column (t : table) (cs : list string) : option string :=
  find (fun c => negb (has_column t c)) cs.

Definition holds (t : table) (conds : list condition) (r : row) : bool :=
  forallb
    (fun cv : condition =>
       let (c, v) := cv in
       match find_column t c with
       | Some k => eq_value (get c r) (apply_affinity (col_type k) v)
       | None => false
       end)
    conds.

(** *** Reading *)

Definition project (what : projection) (r : row) : row :=
  match what with
  | Columns cols => map (fun ck : string * string => (snd ck, get (fst ck) r)) cols
  | _ => r
  end.

Definition projected_columns (what : projection) : list string :=
  match what with
  | Columns cols => map fst cols
  | _ => []
  end.

Definition precedes (c : string) (dir : direction) (a b : row) : bool :=
  match dir, compare_value (get c a) (get c b) with
  | ASC, Gt => false
  | DESC, Lt => false
  | _, _ => true
  end.

Fixpoint insert_by (le : row -> row -> bool) (r : row) (l : list row) : list row :=
  match l with
  | [] => [r]
  | x :: l' => if le r x then r :: l else x :: insert_by le r l'
  end.

(** Rows that compare equal keep their table order. *)
Definition order_rows (o : option (string * direction)) (l : list row) : list row :=
  match o with
  | None => l
  | Some (c, dir) => fold_right (insert_by (precedes c dir)) [] l
  end.

(** [LIMIT n OFFSET m]: a negative [n] is no limit, a negative [m] is 0. *)
Definition window {A : Type} (n m : Z) (l : list A) : list A :=
  let rest := skipn (Z.to_nat m) l in
  if n <? 0 then rest else firstn (Z.to_nat n) rest.

Definition exec_select (q : select) (d : database) : outcome (list row) :=
  let t := sel_from q in
  let named :=
    (projected_columns (sel_what q) ++ map fst (sel_where q)
       ++ match sel_order_by q with Some (c, _) => [c] | None => [] end)%list in
  match unknown_column t named with
  | Some c => no_such_column c
  | None =>
      let matching := filter (holds t (sel_where q)) (table_rows t d) in
      let result :=
        match sel_what q with
        | CountStar key => [[(key, VInt (Z.of_nat (List.length matching)))]]
        | what => map (project what) (order_rows (sel_order_by q) matching)
        end in
      match sel_limit q with
      | None => Done result
      | Some (Some n, Some m) => Done (window n m result)
      | Some _ => Failed "SQLITE_MISMATCH" "datatype mismatch"
      end
  end.

(** *** Writing *)

Definition default_value (now : string) (last : Z) (k : column) : value :=
  match col_default k with
  | NoDefault => VNull
  | DefaultText s => VText s
  | DefaultBool b => VInt (if b then 1 else 0)
  | CurrentTimestamp => VText now
  | AutoIncrement => VInt (last + 1)
  end.

Definition new_row (now : string) (last : Z) (t : table)
    (assignments : list (string * value)) : row :=
  map (fun k =>
         (col_name k,
          apply_affinity (col_type k)
            match assoc (col_name k) assignments with
            | Some v => v
            | None => default_value now last k
            end))
      (schema t).

Definition is_null (v : value) : bool :=
  match v with VNull => true | _ => false end.

Definition constraint_failed {A : Type} (kind : string) (t : table) (k : column)
  : outcome A :=
  Failed "SQLITE_CONSTRAINT"
    (kind ++ " constraint failed: " ++ table_name t ++ "." ++ col_name k).

Definition check_failed {A : Type} (t : table) : outcome A :=
  Failed "SQLITE_CONSTRAINT" ("CHECK constraint failed: " ++ table_name t).

Definition null_violation (t : table) (r : row) : option column :=
  find (fun k => col_not_null k && is_null (get (col_name k) r)) (schema t).

(** [CHECK (service_rating >= 1 AND service_rating <= 5)] on [feedback]. *)
Definition check_holds (t : table) (r : row) : bool :=
  match t with
  | feedback =>
      match get "service_rating" r with
      | VNull => true
      | VInt z => (1 <=? z) && (z <=? 5)
      | VText _ => false
      end
  | _ => true
  end.

Definition occurrences (c : string) (v : value) (l : list row) : nat :=
  List.length (filter (fun r => eq_value (get c r) v) l).

Definition unique_violation (t : table) (r : row) (others : list row) : option column :=
  find (fun k => col_unique k
                 && negb (Nat.eqb (occurrences (col_name k) (get (col_name k) r) others) 0))
       (schema t).

Record run_result : Type := RunResult { lastID : Z; changes : Z }.

Definition exec_insert (now : string) (t : table)
    (assignments : list (string * value)) (d : database)
  : outcome (run_result * database) :=
  match unknown_column t (map fst assignments) with
  | Some c =>
      Failed "SQLITE_ERROR"
        ("table " ++ table_name t ++ " has no column named " ++ c)
  | None =>
      let s := select_table t d in
      let r := new_row now (last_rowid s) t assignments in
      match null_violation t r with
      | Some k => constraint_failed "NOT NULL" t k
      | None =>
          if negb (check_holds t r) then
            check_failed t
          else
            match unique_violation t r (rows s) with
            | Some k => constraint_failed "UNIQUE" t k
            | None =>
                let id := match get "id" r with
                          | VInt i => Z.max i (last_rowid s)
                          | _ => last_rowid s
                          end in
                Done (RunResult id 1,
                      replace_table t (TableState (rows s ++ [r])%list id) d)
            end
      end
  end.

Definition apply_set (t : table) (set : list (string * value)) (r : row) : row :=
  fold_left
    (fun acc cv =>
       match find_column t (fst cv) with
       | Some k => assign (fst cv) (apply_affinity (col_type k) (snd cv)) acc
       | None => acc
       end)
    set r.

Fixpoint first_some {A B : Type} (f : A -> option B) (l : list A) : option B :=
  match l with
  | [] => None
  | x :: l' => match f x with Some y => Some y | None => first_some f l' end
  end.

Definition exec_update (t : table) (set : list (string * value))
    (where_ : list condition) (d : database)
  : outcome (run_result * database) :=
  match unknown_column t (map fst set ++ map fst where_)%list with
  | Some c => no_such_column c
  | None =>
      let s := select_table t d in
      let rows' :=
        map (fun r => if holds t where_ r then apply_set t set r else r) (rows s) in
      let updated := map (apply_set t set) (filter (holds t where_) (rows s)) in
      match updated with
      | [] => Done (RunResult (last_rowid s) 0, d)
      | first :: _ =>
          match first_some (null_violation t) updated with
          | Some k => constraint_failed "NOT NULL" t k
          | None =>
              if negb (forallb (check_holds t) updated) then
                check_failed t
              else
                match
                  find (fun k =>
                          col_unique k
                          && Js.includes (col_name k) (map fst set)
                          && (1 <? occurrences (col_name k)
                                     (get (col_name k) first) rows')%nat)
                       (schema t)
                with
                | Some k => constraint_failed "UNIQUE" t k
                | None =>
                    Done (RunResult (last_rowid s) (Z.of_nat (List.length updated)),
                          replace_table t (TableState rows' (last_rowid s)) d)
                end
          end
      end
  end.

Definition exec (now : string) (st : statement) (d : database)
  : outcome (run_result * database) :=
  match st with
  | Insert t assignments => exec_insert now t assignments d
  | Update t set where_ => exec_update t set where_ d
  end.

End Sql.

(** ** The environment of a request *)

Record mail : Type := Mail {
  mail_to : string;
  mail_subject : string;
  mail_template : string;
  mail_data : list (string * json)
}.

Record environment : Type := Environment {
  (** validator.js *)
  isEmail : string -> bool;
  normalizeEmail : string -> string;
  isISO8601 : string -> bool;
  (** [moment(value)]: the local calendar day, counted in days, of a valid
      date; [None] for an invalid one. *)
  moment_day : string -> option Z;
  (** [moment()], as a calendar day. *)
  today : Z;
  (** [moment(a).diff(moment(b), 'days')]; [None] is NaN. *)
  moment_diff_days : string -> string -> option Z;
  (** [moment(value).format('MMMM DD, YYYY')] *)
  format_date : string -> string;
  (** [moment().format('MMMM DD, YYYY [at] HH:mm')] *)
  formatted_now : string;
  (** [Date.now()] *)
  Date_now : Z;
  (** [new Date().toISOString()] *)
  toISOString_now : string;
  (** [Math.random().toString(36)] *)
  Math_random_base36 : string;
  (** [crypto.randomBytes(32).toString('hex')] *)
  randomBytes_hex : string;
  (** SQLite's CURRENT_TIMESTAMP *)
  CURRENT_TIMESTAMP : string;
  (** [process.env] *)
  NODE_ENV : option string;
  EMAIL_TO : option string;
  FRONTEND_URL : option string
}.

(** [a || b] on an optional string. *)
Definition or_else (a : option string) (b : string) : string :=
  match a with
  | Some s => if Js.truthy s then s else b
  | None => b
  end.

(** ** State and errors threaded through a handler *)

Inductive error : Type :=
| AppError (message : string) (statusCode : Z) (code : option string)
| SqliteError (code message : string)
| ReferenceError (message : string)
| TypeError (message : string)
| TransportError (message : string).

Record world : Type := World {
  store : Sql.database;
  console : list string;      (* console.log / console.error lines *)
  error_log : list string;    (* logs/error.log *)
  outbox : list mail;         (* messages handed to the transport *)
  attempts : nat;             (* calls of transporter.sendMail so far *)
  (** The mail transport: whether the [n]-th call of [transporter.sendMail],
      made for this message, delivers. *)
  transport : nat -> mail -> bool
}.

Inductive result (A : Type) : Type :=
| Return (a : A)
| Throw (e : error).
Arguments Return {A} a.
Arguments Throw {A} e.

Definition M (A : Type) : Type := world -> result A * world.

Definition ret {A : Type} (a : A) : M A := fun w => (Return a, w).
Definition throw {A : Type} (e : error) : M A := fun w => (Throw e, w).

Definition bind {A B : Type} (m : M A) (k : A -> M B) : M B :=
  fun w =>
    match m w with
    | (Return a, w') => k a w'
    | (Throw e, w') => (Throw e, w')
    end.

(** [try { m } catch (e) { h e }]: what [m] did before it threw stays done. *)
Definition try_catch {A : Type} (m : M A) (h : error -> M A) : M A :=
  fun w =>
    match m w with
    | (Return a, w') => (Return a, w')
    | (Throw e, w') => h e w'
    end.

Declare Scope handler_scope.
Delimit Scope handler_scope with handler.
Notation "x <- m ;; k" := (bind m (fun x => k))
  (at level 61, m at next level, right associativity) : handler_scope.
Notation "m ;; k" := (bind m (fun _ => k))
  (at level 61, right associativity) : handler_scope.
Local Open Scope handler_scope.

Definition console_error (line : string) : M unit :=
  fun w => (Return tt,
            World (store w) (console w ++ [line]) (error_log w) (outbox w) (attempts w) (transport w)).

(** *** [runQuery], [getRow], [getRows] of [config/database.js] *)

Module Database.

Definition runQuery (env : environment) (st : Sql.statement) : M Sql.run_result :=
  fun w =>
    match Sql.exec (CURRENT_TIMESTAMP env) st (store w) with
    | Sql.Done (r, d) =>
        (Return r, World d (console w) (error_log w) (outbox w) (attempts w) (transport w))
    | Sql.Failed c msg => (Throw (SqliteError c msg), w)
    end.

Definition getRows (q : Sql.select) : M (list Sql.row) :=
  fun w =>
    match Sql.exec_select q (store w) with
    | Sql.Done l => (Return l, w)
    | Sql.Failed c msg => (Throw (SqliteError c msg), w)
    end.

(** [database.get]: the first row of the result, or [undefined]. *)
Definition getRow (q : Sql.select) : M (option Sql.row) :=
  l <- getRows q ;; ret (hd_error l).

End Database.

(** *** [sendEmail] of [utils/emailService.js] *)

(** [createTransporter()]: each of its two branches calls
    [nodemailer.createTransporter].  nodemailer has [createTransport] and no
    function of that name, so the call throws. *)
Definition createTransporter (env : environment) : M unit :=
  throw (TypeError "nodemailer.createTransporter is not a function").

(** [transporter.sendMail(mailOptions)] *)
Definition sendMail (m : mail) : M unit :=
  fun w =>
    let n := attempts w in
    if transport w n m then
      (Return tt,
       World (store w) (console w) (error_log w) (outbox w ++ [m]) (S n) (transport w))
    else
      (Throw (TransportError "sendMail failed"),
       World (store w) (console w) (error_log w) (outbox w) (S n) (transport w)).

(** [sendEmail]: whatever goes wrong between [createTransporter()] and
    [transporter.sendMail] is caught, logged and thrown again.  The
    rendering of the template, between the two, reaches nothing of the
    state kept here. *)
Definition sendEmail (env : environment) (m : mail) : M unit :=
  try_catch
    (createTransporter env ;;
     sendMail m ;;
     console_error "Email sent successfully:")
    (fun error => console_error "Email sending failed:" ;; throw error).

(** ** Requests and responses *)

(** A body member: a string, or an array of strings ([preferences]). *)
Inductive field_value : Type :=
| Str (s : string)
| Arr (items : list string).

Record request : Type := Request {
  params : list (string * string);       (* req.params *)
  query : list (string * string);        (* req.query *)
  body : list (string * field_value);    (* req.body *)
  files : list (string * list string)    (* req.files: stored file names *)
}.

Record response : Type := Response {
  statusCode : Z;
  payload : json
}.

Definition json_of_field (v : field_value) : json :=
  match v with
  | Str s => JStr s
  | Arr l => JArr (map JStr l)
  end.

(** [JSON.stringify] leaves out a member whose value is [undefined]. *)
Definition member {A : Type} (k : string) (f : A -> json) (v : option A)
  : list (string * json) :=
  match v with
  | Some a => [(k, f a)]
  | None => []
  end.

Definition json_or_null {A : Type} (f : A -> json) (v : option A) : json :=
  match v with
  | Some a => f a
  | None => JNull
  end.

(** An entry of express-validator's [validationResult(req).array()]. *)
Record validation_error : Type := ValidationError {
  path : string;
  msg : string;
  value : option field_value
}.

(** ** [middleware/errorHandler.js] *)

Module ErrorHandler.

(** [err.statusCode || 500] *)
Definition status_code (e : error) : Z :=
  match e with
  | AppError _ c _ => if c =? 0 then 500 else c
  | _ => 500
  end.

(** [this.status] of [AppError]; [err.status || 'error'] otherwise. *)
Definition status (e : error) : string :=
  match e with
  | AppError _ c _ =>
      if (Js.substr 0 1 (Js.number_toString c) =? "4")%string then "fail" else "error"
  | _ => "error"
  end.

Definition message (e : error) : string :=
  match e with
  | AppError m _ _ | ReferenceError m | TypeError m | TransportError m => m
  | SqliteError c m => c ++ ": " ++ m
  end.

(** The member [code: err.code] of an error body: [null] for an [AppError]
    built without a code, absent for an error that has no such property. *)
Definition code_member (e : error) : list (string * json) :=
  match e with
  | AppError _ _ c => [("code", json_or_null JStr c)]
  | SqliteError c _ => [("code", JStr c)]
  | _ => []
  end.

Definition isOperational (e : error) : bool :=
  match e with
  | AppError _ _ _ => true
  | _ => false
  end.

(** [logError]: appended to logs/error.log in production, printed
    otherwise. *)
Definition logError (env : environment) (e : error) (w : world) : world :=
  if match NODE_ENV env with Some m => (m =? "production")%string | None => false end
  then World (store w) (console w) (error_log w ++ [message e]) (outbox w) (attempts w) (transport w)
  else World (store w) (console w ++ ["Error Details: " ++ message e]) (error_log w)
             (outbox w) (attempts w) (transport w).

(** [sendErrorDev]; the members [error], [stack], [path] and [method] of its
    body are renderings of the exception and of the request line and are
    left out. *)
Definition sendErrorDev (env : environment) (e : error) : response :=
  Response (status_code e)
    (JObj ([("status", JStr (status e)); ("message", JStr (message e))]
           ++ code_member e
           ++ [("timestamp", JStr (toISOString_now env))])%list).

Definition sendErrorProd (env : environment) (e : error) : response :=
  if isOperational e then
    Response (status_code e)
      (JObj ([("status", JStr (status e)); ("message", JStr (message e))]
             ++ code_member e
             ++ [("timestamp", JStr (toISOString_now env))])%list)
  else
    Response 500
      (JObj [("status", JStr "error");
             ("message", JStr "Something went wrong! Please try again later.");
             ("code", JStr "INTERNAL_SERVER_ERROR");
             ("timestamp", JStr (toISOString_now env))]).

(** The error middleware mounted last in [server.js].  None of the errors a
    handler raises carries one of the names the production branch rewrites. *)
Definition errorHandler (env : environment) (e : error) (w : world)
  : response * world :=
  (if match NODE_ENV env with
      | Some m => (m =? "development")%string
      | None => false
      end
   then sendErrorDev env e
   else sendErrorProd env e,
   logError env e w).

(** [catchAsync(fn)]: a rejection of [fn] is passed to [next], hence to
    [errorHandler]. *)
Definition catchAsync (env : environment) (fn : M response) (w : world)
  : response * world :=
  match fn w with
  | (Return r, w') => (r, w')
  | (Throw e, w') => errorHandler env e w'
  end.

Definition error_entry (e : validation_error) : json :=
  JObj ([("field", JStr (path e)); ("message", JStr (msg e))]
        ++ member "value" json_of_field (value e))%list.

(** [handleValidationErrors]: [None] stands for the call of [next()]. *)
Definition handleValidationErrors (env : environment)
    (errors : list validation_error) : option response :=
  match errors with
  | [] => None
  | _ =>
      Some (Response 400
              (JObj [("status", JStr "fail");
                     ("message", JStr "Validation failed");
                     ("code", JStr "VALIDATION_ERROR");
                     ("errors", JArr (map error_entry errors));
                     ("timestamp", JStr (toISOString_now env))]))
  end.

End ErrorHandler.

(** ** [middleware/errorHandler.js]: upload errors

    A [MulterError] reaches [errorHandler] when an upload breaks a limit of
    the multer configuration.  It has [name], [code] and [message] of its
    own and no [statusCode]. *)

Module Upload.

Record multer_error : Type := MulterError {
  multer_code : string;
  multer_message : string
}.

Definition handleMulterError (err : multer_error) : error :=
  if (multer_code err =? "LIMIT_FILE_SIZE")%string then
    AppError "File too large. Maximum size allowed is 5MB." 400 (Some "FILE_TOO_LARGE")
  else if (multer_code err =? "LIMIT_FILE_COUNT")%string then
    AppError "Too many files. Maximum 5 files allowed." 400 (Some "TOO_MANY_FILES")
  else if (multer_code err =? "LIMIT_UNEXPECTED_FILE")%string then
    AppError "Unexpected file field." 400 (Some "UNEXPECTED_FILE")
  else
    AppError "File upload error." 400 (Some "UPLOAD_ERROR").

(** [logError] on it. *)
Definition logError (env : environment) (err : multer_error) (w : world) : world :=
  if match NODE_ENV env with Some m => (m =? "production")%string | None => false end
  then World (store w) (console w) (error_log w ++ [multer_message err]) (outbox w)
             (attempts w) (transport w)
  else World (store w) (console w ++ ["Error Details: " ++ multer_message err])
             (error_log w) (outbox w) (attempts w) (transport w).

(** [errorHandler] on it: [err.statusCode || 500] and [err.status ||
    'error'] in development; outside development the copy keeps the name
    ['MulterError'], is none of the cases tested before it and is replaced
    by [handleMulterError].  The body of [sendErrorDev] is rendered as in
    [ErrorHandler.sendErrorDev]. *)
Definition errorHandler (env : environment) (err : multer_error) (w : world)
  : response * world :=
  (if match NODE_ENV env with
      | Some m => (m =? "development")%string
      | None => false
      end
   then Response 500
          (JObj [ ("status", JStr "error");
                  ("message", JStr (multer_message err));
                  ("code", JStr (multer_code err));
                  ("timestamp", JStr (toISOString_now env)) ])
   else ErrorHandler.sendErrorProd env (handleMulterError err),
   logError env err w).

End Upload.

(** ** [utils/emailService.js]: [sendBulkEmails] *)

Module EmailService.

(** What [sendBulkEmails] returns: the recipients of [results], and the
    message and recipient of each entry of [errors].  The [messageId] of a
    result is the transport's receipt and is left out. *)
Definition report : Type := (list string * list (string * string))%type.

(** The [for ... of] loop, with [results] and [errors] as they stand.  The
    pause of 100 ms after each message changes nothing. *)
Fixpoint deliver (env : environment) (emails : list mail)
    (results : list string) (errors : list (string * string)) : M report :=
  match emails with
  | [] => ret (results, errors)
  | emailOptions :: rest =>
      pushed <-
        try_catch
          (sendEmail env emailOptions ;;
           ret (results ++ [mail_to emailOptions], errors)%list)
          (fun error =>
             ret (results,
                  errors ++ [(ErrorHandler.message error, mail_to emailOptions)])%list) ;;
      deliver env rest (fst pushed) (snd pushed)
  end.

Definition sendBulkEmails (env : environment) (emails : list mail) : M report :=
  deliver env emails [] [].

End EmailService.

(** ** express-validator: validation chains

    A chain names a body field and lists validators and sanitizers.  Every
    validator of every chain runs (nothing bails out); each failure adds one
    entry to the result.  A sanitizer rewrites the field in [req.body].
    [withMessage] belongs to the validator before it; without it the message
    is ['Invalid value'], or what a custom validator threw. *)

Module Validator.

Inductive validator : Type :=
| IsLength (min : Z) (max : option Z)
| Matches (pattern : string -> bool)
| IsEmail
| IsIn (values : list string)
| IsInt (min max : Z)
| IsISO8601
| NotEmpty
| IsArray
| Custom (check : environment -> list (string * field_value)
                  -> option field_value -> option string).

Inductive sanitizer : Type :=
| Trim
| NormalizeEmail.

Inductive item : Type :=
| Validate (v : validator) (message : option string)
| Sanitize (s : sanitizer).

Record chain : Type := Chain {
  field : string;
  wildcard : bool;          (* body('field.*') *)
  optional : bool;          (* .optional() *)
  items : list item
}.

(** The strings a standard validator or sanitizer sees: [toString] of the
    value, or of each element of an array. *)
Definition strings_of (v : option field_value) : list string :=
  match v with
  | None => [""]
  | Some (Str s) => [s]
  | Some (Arr l) => l
  end.

Definition test (env : environment) (v : validator) (s : string) : bool :=
  match v with
  | IsLength min max =>
      (min <=? Js.length s)
      && match max with Some m => Js.length s <=? m | None => true end
  | Matches pattern => pattern s
  | IsEmail => isEmail env s
  | IsIn values => Js.includes s values
  | IsInt min max =>
      match Js.parse_int s with
      | Some z => (min <=? z) && (z <=? max)
      | None => false
      end
  | IsISO8601 => isISO8601 env s
  | NotEmpty => negb (s =? "")%string
  | IsArray | Custom _ => true
  end.

Definition default_message : string := "Invalid value".

(** The value an entry of a standard validator carries: the value it was
    applied to, which for an array is the element that failed. *)
Definition reported (current : option field_value) (element : string)
  : option field_value :=
  match current with
  | Some (Arr _) => Some (Str element)
  | _ => current
  end.

(** The entries one validator adds for the field at [path].  A standard
    validator is applied to the value, or to each element of an array, and
    adds an entry for each one it refuses; [isArray] and a custom validator
    are applied to the value as it is. *)
Definition validate_item (env : environment) (body : list (string * field_value))
    (path : string) (v : validator) (message : option string)
    (current : option field_value) : list validation_error :=
  match v with
  | Custom check =>
      match check env body current with
      | Some thrown =>
          [ValidationError path
             (match message with Some m => m | None => thrown end) current]
      | None => []
      end
  | IsArray =>
      match current with
      | Some (Arr _) => []
      | _ => [ValidationError path
                (match message with Some m => m | None => default_message end)
                current]
      end
  | _ =>
      map (fun s =>
             ValidationError path
               (match message with Some m => m | None => default_message end)
               (reported current s))
          (filter (fun s => negb (test env v s)) (strings_of current))
  end.

Definition sanitize_string (env : environment) (s : sanitizer) (x : string) : string :=
  match s with
  | Trim => Js.trim x
  | NormalizeEmail => normalizeEmail env x
  end.

Definition sanitize (env : environment) (s : sanitizer) (v : option field_value)
  : field_value :=
  match v with
  | Some (Arr l) => Arr (map (sanitize_string env s) l)
  | Some (Str x) => Str (sanitize_string env s x)
  | None => Str (sanitize_string env s "")
  end.

(** The items of a chain, in order, on the field [name] whose entries are
    reported under [path]. *)
Fixpoint run_items (env : environment) (name path : string) (l : list item)
    (body : list (string * field_value)) (current : option field_value)
  : list validation_error * list (string * field_value) :=
  match l with
  | [] => ([], body)
  | Validate v message :: l' =>
      let errors := validate_item env body path v message current in
      let (rest, body') := run_items env name path l' body current in
      ((errors ++ rest)%list, body')
  | Sanitize s :: l' =>
      let v' := sanitize env s current in
      run_items env name path l' (assign name v' body) (Some v')
  end.

(** The instances of a wildcard chain are the elements of the array found
    at the field; anything else has none.  No wildcard chain of the
    application has a sanitizer: the body is left as found. *)
Fixpoint run_elements (env : environment) (name : string) (l : list item)
    (body : list (string * field_value)) (index : Z) (elements : list string)
  : list validation_error :=
  match elements with
  | [] => []
  | x :: rest =>
      (fst (run_items env name (name ++ "[" ++ Js.number_toString index ++ "]")
              l body (Some (Str x)))
       ++ run_elements env name l body (index + 1) rest)%list
  end.

Definition run_chain (env : environment) (c : chain)
    (body : list (string * field_value))
  : list validation_error * list (string * field_value) :=
  if wildcard c then
    match assoc (field c) body with
    | Some (Arr l) => (run_elements env (field c) (items c) body 0 l, body)
    | _ => ([], body)
    end
  else
    match assoc (field c) body, optional c with
    | None, true => ([], body)
    | current, _ => run_items env (field c) (field c) (items c) body current
    end.

(** The chains of a route run one after the other on the same request. *)
Fixpoint run_chains (env : environment) (chains : list chain)
    (body : list (string * field_value))
  : list validation_error * list (string * field_value) :=
  match chains with
  | [] => ([], body)
  | c :: rest =>
      let (errors, body') := run_chain env c body in
      let (more, body'') := run_chains env rest body' in
      ((errors ++ more)%list, body'')
  end.

(** Chain builders, named after the calls that make them in the routes. *)
Definition body_ (name : string) (l : list item) : chain := Chain name false false l.
Definition body_optional (name : string) (l : list item) : chain := Chain name false true l.
Definition body_each_optional (name : string) (l : list item) : chain :=
  Chain name true true l.
Definition check (v : validator) (m : string) : item := Validate v (Some m).
Definition custom (f : environment -> list (string * field_value)
                       -> option field_value -> option string) : item :=
  Validate (Custom f) None.
Definition trim : item := Sanitize Trim.
Definition normalizeEmail_ : item := Sanitize NormalizeEmail.

End Validator.

(** ** The regular expressions of the routes *)

Module Patterns.

Definition all (p : ascii -> bool) (s : string) : bool := forallb p (Js.chars s).

Definition some_all (p : ascii -> bool) (s : string) : bool :=
  negb (s =? "")%string && all p s.

Definition is_letter (c : ascii) : bool := Js.is_upper c || Js.is_lower c.

(** [/^[a-zA-Z\s'-]+$/] *)
Definition name : string -> bool :=
  some_all (fun c => is_letter c || Js.is_space c
                     || Ascii.eqb c "'" || Ascii.eqb c "-").

Definition is_upper_alnum (c : ascii) : bool := Js.is_upper c || Js.is_digit c.

(** [/^[A-Z0-9]+$/] *)
Definition passport : string -> bool := some_all is_upper_alnum.

(** [/^[+]?[1-9]\d{1,14}$/] *)
Definition phone (s : string) : bool :=
  let l := match Js.chars s with
           | c :: l' => if Ascii.eqb c "+" then l' else c :: l'
           | [] => []
           end in
  match l with
  | c :: digits =>
      Js.between 49 57 c && forallb Js.is_digit digits
      && (1 <=? List.length digits)%nat && (List.length digits <=? 14)%nat
  | [] => false
  end.

Fixpoint strip_prefix (p l : list ascii) : option (list ascii) :=
  match p, l with
  | [], _ => Some l
  | a :: p', b :: l' => if Ascii.eqb a b then strip_prefix p' l' else None
  | _ :: _, [] => None
  end.

Fixpoint span (p : ascii -> bool) (l : list ascii) : list ascii * list ascii :=
  match l with
  | c :: l' =>
      if p c then let (yes, rest) := span p l' in (c :: yes, rest) else ([], l)
  | [] => ([], [])
  end.

Definition is_nil {A : Type} (l : list A) : bool :=
  match l with [] => true | _ => false end.

(** [/^PREFIX-\d+-[A-Z0-9]+$/]: the shape of the identifiers. *)
Definition identifier (prefix s : string) : bool :=
  match strip_prefix (Js.chars (prefix ++ "-")) (Js.chars s) with
  | None => false
  | Some rest =>
      let (digits, rest') := span Js.is_digit rest in
      negb (is_nil digits)
      && match rest' with
         | dash :: suffix =>
             Ascii.eqb dash "-" && negb (is_nil suffix) && forallb is_upper_alnum suffix
         | [] => false
         end
  end.

Definition applicationId : string -> bool := identifier "UAE".
Definition contactId : string -> bool := identifier "CONTACT".
Definition feedbackId : string -> bool := identifier "FB".
Definition subscriptionId : string -> bool := identifier "NL".

End Patterns.

(** ** A route: chains, [handleValidationErrors], handler under [catchAsync] *)

Definition with_body (req : request) (b : list (string * field_value)) : request :=
  Request (params req) (query req) b (files req).

Definition route (env : environment) (chains : list Validator.chain)
    (handler : environment -> request -> M response)
    (req : request) (w : world) : response * world :=
  let (errors, body') := Validator.run_chains env chains (body req) in
  match ErrorHandler.handleValidationErrors env errors with
  | Some r => (r, w)
  | None => ErrorHandler.catchAsync env (handler env (with_body req body')) w
  end.

(** A route without chains. *)
Definition plain_route (env : environment)
    (handler : environment -> request -> M response)
    (req : request) (w : world) : response * world :=
  ErrorHandler.catchAsync env (handler env req) w.

(** [req.body.name] *)
Definition field_of (req : request) (name : string) : option field_value :=
  assoc name (body req).

(** A body member as the text [String(v)] gives; [None] for [undefined]. *)
Definition text_of (v : option field_value) : option string :=
  match v with
  | Some (Str s) => Some s
  | Some (Arr l) => Some (Js.join "," l)
  | None => None
  end.

(** A body member bound to a [?] of a statement; [undefined] binds NULL. *)
Definition bound (v : option field_value) : Sql.value :=
  match text_of v with
  | Some s => Sql.VText s
  | None => Sql.VNull
  end.

(** A column of a fetched row as a string; falsy values give [None]. *)
Definition truthy_text (v : Sql.value) : option string :=
  match v with
  | Sql.VText s => if Js.truthy s then Some s else None
  | Sql.VInt z => if z =? 0 then None else Some (Js.number_toString z)
  | Sql.VNull => None
  end.

(** [notes || null], bound to a [?]: an array is truthy, the empty one
    too, and is bound as its text. *)
Definition bound_or_null (v : option field_value) : Sql.value :=
  match v with
  | Some (Str s) => if Js.truthy s then Sql.VText s else Sql.VNull
  | Some (Arr l) => Sql.VText (Js.join "," l)
  | None => Sql.VNull
  end.

(** [v || fallback] *)
Definition text_or (v : option field_value) (fallback : string) : string :=
  or_else (text_of v) fallback.

(** A route parameter bound to a [?], and interpolated in a template. *)
Definition bound_param (v : option string) : Sql.value :=
  match v with
  | Some s => Sql.VText s
  | None => Sql.VNull
  end.

Definition interpolate (v : option string) : string :=
  match v with
  | Some s => s
  | None => "undefined"
  end.

Definition json_of_value (v : Sql.value) : json :=
  match v with
  | Sql.VNull => JNull
  | Sql.VInt z => JNum z
  | Sql.VText s => JStr s
  end.

Definition json_of_row (r : Sql.row) : json :=
  JObj (map (fun cv : string * Sql.value => (fst cv, json_of_value (snd cv))) r).

Definition json_of_number (n : option Z) : json := json_or_null JNum n.

(** The identifiers: [`PREFIX-${Date.now()}-${Math.random().toString(36)
    .substr(2, n).toUpperCase()}`]. *)
Definition fresh_identifier (env : environment) (prefix : string) (n : nat) : string :=
  prefix ++ "-" ++ Js.number_toString (Date_now env) ++ "-"
    ++ Js.toUpperCase (Js.substr 2 n (Math_random_base36 env)).

Definition admin_address (env : environment) : string :=
  or_else (EMAIL_TO env) "admin@uaevisaservices.com".

Definition frontend_url (env : environment) : string :=
  or_else (FRONTEND_URL env) "http://localhost:3000".

(** ** Pagination shared by the list handlers *)

(** [const { page = 1, limit = 20 } = req.query] and what is computed from
    them: [(page - 1) * limit], [parseInt(limit)], [parseInt(offset)],
    [parseInt(page)]. *)
Record paging : Type := Paging {
  page_number : option Z;      (* parseInt(page) *)
  per_page : option Z;         (* parseInt(limit) *)
  offset : option Z;           (* parseInt((page - 1) * limit) *)
  limit_number : option Z      (* limit, as the divisor of total / limit *)
}.

Definition paging_of (req : request) (default_limit : Z) : paging :=
  let page := match assoc "page" (query req) with
              | Some s => Js.Number s
              | None => Some 1
              end in
  let limit := match assoc "limit" (query req) with
               | Some s => Js.Number s
               | None => Some default_limit
               end in
  Paging
    (match assoc "page" (query req) with Some s => Js.parseInt s | None => Some 1 end)
    (match assoc "limit" (query req) with
     | Some s => Js.parseInt s
     | None => Some default_limit
     end)
    (match page, limit with Some p, Some l => Some ((p - 1) * l) | _, _ => None end)
    limit.

Definition pagination (p : paging) (total : Sql.value) : json :=
  JObj [ ("current_page", json_of_number (page_number p));
         ("per_page", json_of_number (per_page p));
         ("total", json_of_value total);
         ("total_pages",
          json_of_number
            match total with
            | Sql.VInt n => Js.ceil_div n (limit_number p)
            | _ => None
            end) ].

(** The filter [name = ?] added when the query parameter is truthy. *)
Definition filter_on (req : request) (column parameter : string) : list Sql.condition :=
  match assoc parameter (query req) with
  | Some s => if Js.truthy s then [(column, Sql.VText s)] else []
  | None => []
  end.

(** ** [routes/visa.js] *)

Module Visa.

Import Validator.

(** [moment(value)] as a calendar day; [moment(undefined)] is now. *)
Definition day_of (env : environment) (v : option field_value) : option Z :=
  match text_of v with
  | Some s => moment_day env s
  | None => Some (today env)
  end.

(** [a.isBefore(b, 'day')] and [a.isSameOrBefore(b, 'day')]: false when a
    side is not a valid date. *)
Definition isBefore (a b : option Z) : bool :=
  match a, b with Some x, Some y => x <? y | _, _ => false end.

Definition isSameOrBefore (a b : option Z) : bool :=
  match a, b with Some x, Some y => x <=? y | _, _ => false end.

Definition arrival_not_past (env : environment) (_ : list (string * field_value))
    (v : option field_value) : option string :=
  if isBefore (day_of env v) (Some (today env))
  then Some "Arrival date cannot be in the past" else None.

Definition departure_after_arrival (env : environment)
    (b : list (string * field_value)) (v : option field_value) : option string :=
  if isSameOrBefore (day_of env v) (day_of env (assoc "arrival_date" b))
  then Some "Departure date must be after arrival date" else None.

Definition visaValidationRules : list chain :=
  [ body_ "full_name"
      [ trim;
        check (IsLength 2 (Some 100)) "Full name must be between 2 and 100 characters";
        check (Matches Patterns.name)
          "Full name can only contain letters, spaces, hyphens, and apostrophes" ];
    body_ "email"
      [ check IsEmail "Please provide a valid email address"; normalizeEmail_ ];
    body_ "phone"
      [ trim; check (Matches Patterns.phone) "Please provide a valid phone number" ];
    body_ "nationality"
      [ trim;
        check (IsLength 2 (Some 50)) "Nationality must be between 2 and 50 characters" ];
    body_ "passport_number"
      [ trim;
        check (IsLength 6 (Some 20))
          "Passport number must be between 6 and 20 characters";
        check (Matches Patterns.passport)
          "Passport number can only contain uppercase letters and numbers" ];
    body_ "visa_type"
      [ check (IsIn ["tourist"; "business"; "transit"; "work"; "student";
                     "family"; "medical"])
          "Please select a valid visa type" ];
    body_ "purpose_of_visit"
      [ trim;
        check (IsLength 10 (Some 500))
          "Purpose of visit must be between 10 and 500 characters" ];
    body_ "duration_of_stay"
      [ check (IsInt 1 365) "Duration of stay must be between 1 and 365 days" ];
    body_ "arrival_date"
      [ check IsISO8601 "Please provide a valid arrival date";
        custom arrival_not_past ];
    body_ "departure_date"
      [ check IsISO8601 "Please provide a valid departure date";
        custom departure_after_arrival ];
    body_optional "accommodation_details"
      [ trim;
        check (IsLength 0 (Some 500))
          "Accommodation details cannot exceed 500 characters" ];
    body_optional "sponsor_information"
      [ trim;
        check (IsLength 0 (Some 500))
          "Sponsor information cannot exceed 500 characters" ];
    body_ "previous_uae_visit"
      [ check (IsIn ["yes"; "no"]) "Please specify if you have visited UAE before" ];
    body_ "criminal_record"
      [ check (IsIn ["yes"; "no"]) "Please specify if you have any criminal record" ];
    body_optional "medical_conditions"
      [ trim;
        check (IsLength 0 (Some 500)) "Medical conditions cannot exceed 500 characters" ];
    body_ "emergency_contact_name"
      [ trim;
        check (IsLength 2 (Some 100))
          "Emergency contact name must be between 2 and 100 characters" ];
    body_ "emergency_contact_phone"
      [ trim;
        check (Matches Patterns.phone)
          "Please provide a valid emergency contact phone number" ];
    body_ "emergency_contact_relationship"
      [ trim;
        check (IsLength 2 (Some 50))
          "Emergency contact relationship must be between 2 and 50 characters" ] ].

(** [req.files.name[0].filename] *)
Definition first_file (req : request) (name : string) : M Sql.value :=
  match assoc name (files req) with
  | Some (f :: _) => ret (Sql.VText f)
  | Some [] => throw (TypeError "Cannot read properties of undefined (reading 'filename')")
  | None => ret Sql.VNull
  end.

Definition next_steps : json :=
  JArr [ JStr "Your application is being reviewed";
         JStr "You will receive email updates on the progress";
         JStr "Additional documents may be requested if needed";
         JStr "Final decision will be communicated via email" ].

(** [router.post('/application', ...)], after multer has stored the accepted
    uploads in [req.files]. *)
Definition submit_application (env : environment) (req : request) : M response :=
  let f := field_of req in
  match assoc "passport_copy" (files req), assoc "photo" (files req) with
  | Some _, Some _ =>
      let applicationId := fresh_identifier env "UAE" 9 in
      passport_copy_path <- first_file req "passport_copy" ;;
      photo_path <- first_file req "photo" ;;
      cv_path <- first_file req "cv" ;;
      let additional_documents_path :=
        match assoc "additional_documents" (files req) with
        | Some l => Sql.VText (Js.join "," l)
        | None => Sql.VNull
        end in
      Database.runQuery env
        (Sql.Insert Sql.visa_applications
           [ ("application_id", Sql.VText applicationId);
             ("full_name", bound (f "full_name"));
             ("email", bound (f "email"));
             ("phone", bound (f "phone"));
             ("nationality", bound (f "nationality"));
             ("passport_number", bound (f "passport_number"));
             ("visa_type", bound (f "visa_type"));
             ("purpose_of_visit", bound (f "purpose_of_visit"));
             ("duration_of_stay", bound (f "duration_of_stay"));
             ("arrival_date", bound (f "arrival_date"));
             ("departure_date", bound (f "departure_date"));
             ("accommodation_details", bound (f "accommodation_details"));
             ("sponsor_information", bound (f "sponsor_information"));
             ("previous_uae_visit", bound (f "previous_uae_visit"));
             ("criminal_record", bound (f "criminal_record"));
             ("medical_conditions", bound (f "medical_conditions"));
             ("emergency_contact_name", bound (f "emergency_contact_name"));
             ("emergency_contact_phone", bound (f "emergency_contact_phone"));
             ("emergency_contact_relationship",
              bound (f "emergency_contact_relationship"));
             ("passport_copy_path", passport_copy_path);
             ("photo_path", photo_path);
             ("cv_path", cv_path);
             ("additional_documents_path", additional_documents_path);
             ("status", Sql.VText "pending");
             ("created_at", Sql.VText (CURRENT_TIMESTAMP env));
             ("updated_at", Sql.VText (CURRENT_TIMESTAMP env)) ]) ;;
      Database.runQuery env
        (Sql.Insert Sql.application_status_log
           [ ("application_id", Sql.VText applicationId);
             ("old_status", Sql.VNull);
             ("new_status", Sql.VText "pending");
             ("notes", Sql.VText "Application submitted");
             ("created_at", Sql.VText (CURRENT_TIMESTAMP env)) ]) ;;
      try_catch
        (sendEmail env
           (Mail (text_or (f "email") "")
              ("UAE Visa Application Confirmation - " ++ applicationId)
              "visa-application-confirmation"
              (member "full_name" json_of_field (f "full_name")
               ++ [ ("application_id", JStr applicationId) ]
               ++ member "visa_type" json_of_field (f "visa_type")
               ++ [ ("arrival_date",
                     JStr (format_date env (text_or (f "arrival_date") "")));
                    ("departure_date",
                     JStr (format_date env (text_or (f "departure_date") ""))) ]
               ++ member "duration_of_stay" json_of_field (f "duration_of_stay"))%list) ;;
         sendEmail env
           (Mail (admin_address env)
              ("New Visa Application - " ++ applicationId)
              "new-visa-application-admin"
              ([ ("application_id", JStr applicationId) ]
               ++ member "full_name" json_of_field (f "full_name")
               ++ member "email" json_of_field (f "email")
               ++ member "phone" json_of_field (f "phone")
               ++ member "nationality" json_of_field (f "nationality")
               ++ member "visa_type" json_of_field (f "visa_type")
               ++ [ ("arrival_date",
                     JStr (format_date env (text_or (f "arrival_date") ""))) ]
               ++ member "purpose_of_visit" json_of_field (f "purpose_of_visit"))%list))
        (fun _ => console_error "Email sending failed:") ;;
      ret (Response 201
             (JObj [ ("status", JStr "success");
                     ("message", JStr "Visa application submitted successfully");
                     ("data",
                      JObj [ ("application_id", JStr applicationId);
                             ("status", JStr "pending");
                             ("submitted_at", JStr (toISOString_now env));
                             ("estimated_processing_time", JStr "5-7 business days");
                             ("next_steps", next_steps) ]) ]))
  | _, _ =>
      throw (AppError "Passport copy and photo are required" 400
               (Some "MISSING_REQUIRED_FILES"))
  end.

Definition post_application (env : environment) : request -> world -> response * world :=
  route env visaValidationRules submit_application.

(** The stage before them: [upload.fields([...])], the first middleware of
    the route.  multer is third-party code and what it decides is taken as
    given: either it stores the files, fills [req.files] and [req.body] and
    calls [next()], or it stops at a file that [fileFilter] refuses or at a
    limit of its own and calls [next(err)], and the error middleware
    answers.  The files multer has stored are on disk from then on,
    whatever the later stages answer; the disk is not part of the [world]. *)
Inductive upload_stage : Type :=
| Stored                              (* next() *)
| Refused (e : error)                 (* next(e), [e] from [fileFilter] *)
| Exceeded (err : Upload.multer_error).

Definition application_route (env : environment) (upload : upload_stage)
  : request -> world -> response * world :=
  match upload with
  | Stored => post_application env
  | Refused e => fun _ => ErrorHandler.errorHandler env e
  | Exceeded err => fun _ => Upload.errorHandler env err
  end.

(** [router.get('/applications', ...)] *)
Definition list_applications (env : environment) (req : request) : M response :=
  let p := paging_of req 20 in
  let conditions :=
    (filter_on req "status" "status" ++ filter_on req "visa_type" "visa_type")%list in
  applications <-
    Database.getRows
      (Sql.Select
         (Sql.Columns [ ("application_id", "application_id");
                        ("full_name", "full_name");
                        ("email", "email");
                        ("nationality", "nationality");
                        ("visa_type", "visa_type");
                        ("status", "status");
                        ("created_at", "created_at");
                        ("arrival_date", "arrival_date") ])
         Sql.visa_applications conditions
         (Some ("created_at", Sql.DESC))
         (Some (per_page p, offset p))) ;;
  totalResult <-
    Database.getRow
      (Sql.Select (Sql.CountStar "total") Sql.visa_applications conditions None None) ;;
  match totalResult with
  | Some r =>
      ret (Response 200
             (JObj [ ("status", JStr "success");
                     ("data",
                      JObj [ ("applications", JArr (map json_of_row applications));
                             ("pagination", pagination p (Sql.get "total" r)) ]) ]))
  | None => throw (TypeError "Cannot read properties of undefined (reading 'total')")
  end.

Definition get_applications (env : environment) : request -> world -> response * world :=
  plain_route env list_applications.

(** [fileFilter] of the multer configuration.  [allowedTypes] is an object
    literal: a field name that is a member of [Object.prototype] finds that
    member, which is truthy and has no [includes]. *)
Definition allowedTypes : list (string * list string) :=
  [ ("passport_copy", ["image/jpeg"; "image/png"; "image/jpg"; "application/pdf"]);
    ("photo", ["image/jpeg"; "image/png"; "image/jpg"]);
    ("cv",
     ["application/pdf"; "application/msword";
      "application/vnd.openxmlformats-officedocument.wordprocessingml.document"]);
    ("additional_documents",
     ["image/jpeg"; "image/png"; "image/jpg"; "application/pdf";
      "application/msword";
      "application/vnd.openxmlformats-officedocument.wordprocessingml.document"]) ].

Definition object_prototype_members : list string :=
  [ "constructor"; "__defineGetter__"; "__defineSetter__"; "hasOwnProperty";
    "__lookupGetter__"; "__lookupSetter__"; "isPrototypeOf";
    "propertyIsEnumerable"; "toString"; "valueOf"; "__proto__";
    "toLocaleString" ].

(** What [fileFilter] does with a file: [cb(null, true)], [cb(error, false)],
    or an exception. *)
Inductive verdict : Type :=
| Accepted
| Rejected (e : error)
| Thrown (e : error).

Definition fileFilter (fieldname mimetype : string) : verdict :=
  match assoc fieldname allowedTypes with
  | Some types =>
      if Js.includes mimetype types then Accepted
      else Rejected
             (AppError ("Invalid file type for " ++ fieldname ++ ". Allowed types: "
                          ++ Js.join ", " types) 400 None)
  | None =>
      if Js.includes fieldname object_prototype_members then
        Thrown (TypeError "allowedTypes[file.fieldname].includes is not a function")
      else
        Rejected
          (AppError ("Invalid file type for " ++ fieldname
                       ++ ". Allowed types: undefined") 400 None)
  end.

Definition status_descriptions : json :=
  JObj [ ("pending", JStr "Application received and under initial review");
         ("reviewing", JStr "Application is being processed by our team");
         ("approved", JStr "Application approved - visa will be issued");
         ("rejected", JStr "Application rejected - see notes for details");
         ("additional_info_required",
          JStr "Additional information or documents needed") ].

(** An entry of [status_history]. *)
Definition history_entry (log : Sql.row) : json :=
  JObj [ ("from", json_of_value (Sql.get "old_status" log));
         ("to", json_of_value (Sql.get "new_status" log));
         ("notes", json_of_value (Sql.get "notes" log));
         ("timestamp", json_of_value (Sql.get "created_at" log)) ].

(** [router.get('/status/:applicationId', ...)] *)
Definition read_status (env : environment) (req : request) : M response :=
  let applicationId := assoc "applicationId" (params req) in
  application <-
    Database.getRow
      (Sql.Select
         (Sql.Columns [ ("application_id", "application_id");
                        ("full_name", "full_name");
                        ("email", "email");
                        ("visa_type", "visa_type");
                        ("status", "status");
                        ("created_at", "created_at");
                        ("updated_at", "updated_at");
                        ("arrival_date", "arrival_date");
                        ("departure_date", "departure_date") ])
         Sql.visa_applications
         [("application_id", bound_param applicationId)] None None) ;;
  match application with
  | None => throw (AppError "Application not found" 404 (Some "APPLICATION_NOT_FOUND"))
  | Some a =>
      statusHistory <-
        Database.getRows
          (Sql.Select
             (Sql.Columns [ ("old_status", "old_status");
                            ("new_status", "new_status");
                            ("notes", "notes");
                            ("created_at", "created_at") ])
             Sql.application_status_log
             [("application_id", bound_param applicationId)]
             (Some ("created_at", Sql.ASC)) None) ;;
      ret (Response 200
             (JObj [ ("status", JStr "success");
                     ("data",
                      JObj [ ("application",
                              JObj [ ("id", json_of_value (Sql.get "application_id" a));
                                     ("applicant_name",
                                      json_of_value (Sql.get "full_name" a));
                                     ("email", json_of_value (Sql.get "email" a));
                                     ("visa_type",
                                      json_of_value (Sql.get "visa_type" a));
                                     ("current_status",
                                      json_of_value (Sql.get "status" a));
                                     ("submitted_at",
                                      json_of_value (Sql.get "created_at" a));
                                     ("last_updated",
                                      json_of_value (Sql.get "updated_at" a));
                                     ("travel_dates",
                                      JObj [ ("arrival",
                                              json_of_value (Sql.get "arrival_date" a));
                                             ("departure",
                                              json_of_value
                                                (Sql.get "departure_date" a)) ]) ]);
                             ("status_history", JArr (map history_entry statusHistory));
                             ("status_descriptions", status_descriptions) ]) ]))
  end.

Definition get_status (env : environment) : request -> world -> response * world :=
  plain_route env read_status.

End Visa.

(** ** [routes/contact.js] *)

Module Contact.

Import Validator.

(** The module requires only [runQuery] and [getRows] from
    [../config/database] (line 3): [getRow] is not bound in it, and the
    call [getRow(...)] throws a ReferenceError. *)
Definition getRow (q : Sql.select) : M (option Sql.row) :=
  throw (ReferenceError "getRow is not defined").

Definition contactValidationRules : list chain :=
  [ body_ "name"
      [ trim;
        check (IsLength 2 (Some 100)) "Name must be between 2 and 100 characters";
        check (Matches Patterns.name)
          "Name can only contain letters, spaces, hyphens, and apostrophes" ];
    body_ "email"
      [ check IsEmail "Please provide a valid email address"; normalizeEmail_ ];
    body_optional "phone"
      [ trim; check (Matches Patterns.phone) "Please provide a valid phone number" ];
    body_ "subject"
      [ trim;
        check (IsLength 5 (Some 200)) "Subject must be between 5 and 200 characters" ];
    body_ "message"
      [ trim;
        check (IsLength 10 (Some 2000))
          "Message must be between 10 and 2000 characters" ];
    body_optional "inquiry_type"
      [ check (IsIn ["general"; "visa_inquiry"; "application_status";
                     "technical_support"; "complaint"; "suggestion"])
          "Please select a valid inquiry type" ];
    body_optional "preferred_contact_method"
      [ check (IsIn ["email"; "phone"; "both"]) "Please select a valid contact method" ] ].

(** A destructuring default: [const { name = fallback } = req.body]. *)
Definition defaulted (v : option field_value) (fallback : string) : field_value :=
  match v with
  | Some x => x
  | None => Str fallback
  end.

Definition next_steps : json :=
  JArr [ JStr "Your message has been received and assigned a reference number";
         JStr "Our team will review your inquiry";
         JStr "You will receive a response within 24-48 hours";
         JStr "For urgent matters, please call our hotline" ].

(** [router.post('/', ...)] *)
Definition submit_message (env : environment) (req : request) : M response :=
  let f := field_of req in
  let inquiry_type := defaulted (f "inquiry_type") "general" in
  let preferred_contact_method := defaulted (f "preferred_contact_method") "email" in
  let contactId := fresh_identifier env "CONTACT" 6 in
  Database.runQuery env
    (Sql.Insert Sql.contact_messages
       [ ("message_id", Sql.VText contactId);
         ("full_name", bound (f "name"));
         ("email", bound (f "email"));
         ("phone", bound (f "phone"));
         ("subject", bound (f "subject"));
         ("message", bound (f "message"));
         ("inquiry_type", bound (Some inquiry_type));
         ("preferred_contact", bound (Some preferred_contact_method));
         ("status", Sql.VText "new");
         ("created_at", Sql.VText (CURRENT_TIMESTAMP env));
         ("updated_at", Sql.VText (CURRENT_TIMESTAMP env)) ]) ;;
  try_catch
    (sendEmail env
       (Mail (text_or (f "email") "")
          ("Contact Form Confirmation - " ++ contactId)
          "contact-confirmation"
          (member "name" json_of_field (f "name")
           ++ [ ("message_id", JStr contactId) ]
           ++ member "subject" json_of_field (f "subject")
           ++ member "message" json_of_field (f "message")
           ++ [ ("inquiry_type", json_of_field inquiry_type);
                ("submitted_at", JStr (formatted_now env)) ])%list) ;;
     sendEmail env
       (Mail (admin_address env)
          ("New Contact Form Submission - " ++ contactId)
          "new-contact-admin"
          ([ ("message_id", JStr contactId) ]
           ++ member "name" json_of_field (f "name")
           ++ member "email" json_of_field (f "email")
           ++ [ ("phone", JStr (text_or (f "phone") "Not provided")) ]
           ++ member "subject" json_of_field (f "subject")
           ++ member "message" json_of_field (f "message")
           ++ [ ("inquiry_type", json_of_field inquiry_type);
                ("preferred_contact_method", json_of_field preferred_contact_method);
                ("submitted_at", JStr (formatted_now env)) ])%list))
    (fun _ => console_error "Email sending failed:") ;;
  ret (Response 201
         (JObj [ ("status", JStr "success");
                 ("message", JStr "Your message has been sent successfully");
                 ("data",
                  JObj [ ("message_id", JStr contactId);
                         ("status", JStr "received");
                         ("submitted_at", JStr (toISOString_now env));
                         ("estimated_response_time", JStr "24-48 hours");
                         ("next_steps", next_steps) ]) ])).

Definition post_message (env : environment) : request -> world -> response * world :=
  route env contactValidationRules submit_message.

(** [router.get('/messages', ...)] *)
Definition list_messages (env : environment) (req : request) : M response :=
  let p := paging_of req 20 in
  let conditions :=
    (filter_on req "status" "status"
     ++ filter_on req "inquiry_type" "inquiry_type")%list in
  messages <-
    Database.getRows
      (Sql.Select
         (Sql.Columns [ ("message_id", "message_id");
                        ("full_name", "name");
                        ("email", "email");
                        ("phone", "phone");
                        ("subject", "subject");
                        ("inquiry_type", "inquiry_type");
                        ("status", "status");
                        ("created_at", "created_at");
                        ("updated_at", "updated_at") ])
         Sql.contact_messages conditions
         (Some ("created_at", Sql.DESC))
         (Some (per_page p, offset p))) ;;
  totalResult <-
    getRow
      (Sql.Select (Sql.CountStar "total") Sql.contact_messages conditions None None) ;;
  match totalResult with
  | Some r =>
      ret (Response 200
             (JObj [ ("status", JStr "success");
                     ("data",
                      JObj [ ("messages", JArr (map json_of_row messages));
                             ("pagination", pagination p (Sql.get "total" r)) ]) ]))
  | None => throw (TypeError "Cannot read properties of undefined (reading 'total')")
  end.

Definition get_messages (env : environment) : request -> world -> response * world :=
  plain_route env list_messages.

Definition statuses : list string := ["new"; "in_progress"; "resolved"; "closed"].

Definition statusValidationRules : list chain :=
  [ body_ "status" [ check (IsIn statuses) "Invalid status" ];
    body_optional "notes"
      [ trim; check (IsLength 0 (Some 1000)) "Notes cannot exceed 1000 characters" ] ].

(** [router.patch('/messages/:contactId/status', ...)] *)
Definition update_status (env : environment) (req : request) : M response :=
  let contactId := assoc "contactId" (params req) in
  let status := field_of req "status" in
  let notes := field_of req "notes" in
  existingMessage <-
    getRow
      (Sql.Select Sql.Star Sql.contact_messages
         [("message_id", bound_param contactId)] None None) ;;
  match existingMessage with
  | None => throw (AppError "Contact message not found" 404 (Some "MESSAGE_NOT_FOUND"))
  | Some existing =>
      Database.runQuery env
        (Sql.Update Sql.contact_messages
           [ ("status", bound status);
             ("admin_notes", bound_or_null notes);
             ("updated_at", Sql.VText (CURRENT_TIMESTAMP env)) ]
           [ ("message_id", bound_param contactId) ]) ;;
      match text_of status, truthy_text (Sql.get "email" existing) with
      | Some "resolved", Some email =>
          try_catch
            (sendEmail env
               (Mail email
                  ("Your Inquiry Has Been Resolved - " ++ interpolate contactId)
                  "contact-resolved"
                  (member "name" json_of_value (assoc "name" existing)
                   ++ member "message_id" JStr contactId
                   ++ member "subject" json_of_value (assoc "subject" existing)
                   ++ [ ("resolution_notes",
                         JStr (text_or notes "Your inquiry has been resolved."));
                        ("resolved_at", JStr (formatted_now env)) ])%list))
            (fun _ => console_error "Status update email failed:")
      | _, _ => ret tt
      end ;;
      ret (Response 200
             (JObj [ ("status", JStr "success");
                     ("message", JStr "Contact message status updated successfully");
                     ("data",
                      JObj (member "message_id" JStr contactId
                            ++ member "new_status" json_of_field status
                            ++ [ ("updated_at", JStr (toISOString_now env)) ])%list) ]))
  end.

Definition patch_status (env : environment) : request -> world -> response * world :=
  route env statusValidationRules update_status.

End Contact.

(** ** [routes/feedback.js] *)

Module Feedback.

Import Validator.

Definition feedbackValidationRules : list chain :=
  [ body_ "name"
      [ trim;
        check (IsLength 2 (Some 100)) "Name must be between 2 and 100 characters";
        check (Matches Patterns.name)
          "Name can only contain letters, spaces, hyphens, and apostrophes" ];
    body_ "email"
      [ check IsEmail "Please provide a valid email address"; normalizeEmail_ ];
    body_optional "service_used"
      [ check (IsIn ["visa_application"; "document_verification"; "consultation";
                     "status_inquiry"; "other"])
          "Please select a valid service type" ];
    body_ "rating" [ check (IsInt 1 5) "Rating must be between 1 and 5" ];
    body_ "feedback_type"
      [ check (IsIn ["compliment"; "complaint"; "suggestion"; "general"])
          "Please select a valid feedback type" ];
    body_ "subject"
      [ trim;
        check (IsLength 5 (Some 200)) "Subject must be between 5 and 200 characters" ];
    body_ "message"
      [ trim;
        check (IsLength 10 (Some 2000))
          "Message must be between 10 and 2000 characters" ];
    body_ "would_recommend"
      [ check (IsIn ["yes"; "no"; "maybe"])
          "Please specify if you would recommend our services" ];
    body_optional "application_id"
      [ trim;
        check (Matches Patterns.applicationId)
          "Please provide a valid application ID if applicable" ] ].

Definition next_steps : json :=
  JArr [ JStr "Your feedback has been received and assigned a reference number";
         JStr "Our team will review your feedback";
         JStr "If a response is required, we will contact you within 48 hours";
         JStr "Your feedback helps us improve our services" ].

(** [router.post('/', ...)] *)
Definition submit_feedback (env : environment) (req : request) : M response :=
  let f := field_of req in
  let feedbackId := fresh_identifier env "FB" 6 in
  Database.runQuery env
    (Sql.Insert Sql.feedback
       [ ("feedback_id", Sql.VText feedbackId);
         ("full_name", bound (f "name"));
         ("email", bound (f "email"));
         ("service_rating", bound (f "rating"));
         ("would_recommend", bound (f "would_recommend"));
         ("feedback_title", bound (f "subject"));
         ("feedback_message", bound (f "message"));
         ("status", Sql.VText "pending");
         ("created_at", Sql.VText (CURRENT_TIMESTAMP env));
         ("updated_at", Sql.VText (CURRENT_TIMESTAMP env)) ]) ;;
  try_catch
    (sendEmail env
       (Mail (text_or (f "email") "")
          ("Feedback Confirmation - " ++ feedbackId)
          "feedback-confirmation"
          (member "name" json_of_field (f "name")
           ++ [ ("feedback_id", JStr feedbackId) ]
           ++ member "subject" json_of_field (f "subject")
           ++ member "rating" json_of_field (f "rating")
           ++ member "feedback_type" json_of_field (f "feedback_type")
           ++ [ ("submitted_at", JStr (formatted_now env)) ])%list) ;;
     sendEmail env
       (Mail (admin_address env)
          ("New Feedback Received - " ++ feedbackId ++ " ("
             ++ Js.toUpperCase (text_or (f "feedback_type") "") ++ ")")
          "new-feedback-admin"
          ([ ("feedback_id", JStr feedbackId) ]
           ++ member "name" json_of_field (f "name")
           ++ member "email" json_of_field (f "email")
           ++ [ ("service_used", JStr (text_or (f "service_used") "Not specified")) ]
           ++ member "rating" json_of_field (f "rating")
           ++ member "feedback_type" json_of_field (f "feedback_type")
           ++ member "subject" json_of_field (f "subject")
           ++ member "message" json_of_field (f "message")
           ++ member "would_recommend" json_of_field (f "would_recommend")
           ++ [ ("application_id", JStr (text_or (f "application_id") "Not provided"));
                ("submitted_at", JStr (formatted_now env)) ])%list))
    (fun _ => console_error "Email sending failed:") ;;
  ret (Response 201
         (JObj [ ("status", JStr "success");
                 ("message",
                  JStr "Thank you for your feedback! We appreciate your input.");
                 ("data",
                  JObj [ ("feedback_id", JStr feedbackId);
                         ("status", JStr "received");
                         ("submitted_at", JStr (toISOString_now env));
                         ("next_steps", next_steps) ]) ])).

Definition post_feedback (env : environment) : request -> world -> response * world :=
  route env feedbackValidationRules submit_feedback.

(** [router.get('/', ...)] *)
Definition list_feedback (env : environment) (req : request) : M response :=
  let p := paging_of req 20 in
  let q := fun name => assoc name (query req) in
  let conditions :=
    (filter_on req "feedback_type" "feedback_type"
     ++ match q "rating" with
        | Some s =>
            if Js.truthy s
            then [("rating", match Js.parseInt s with
                             | Some z => Sql.VInt z
                             | None => Sql.VNull
                             end)]
            else []
        | None => []
        end
     ++ filter_on req "status" "status"
     ++ filter_on req "service_used" "service_used")%list in
  let sort_by := match q "sort_by" with Some s => s | None => "created_at" end in
  let sort_order := match q "sort_order" with Some s => s | None => "desc" end in
  let sortColumn :=
    if Js.includes sort_by ["created_at"; "rating"; "feedback_type"; "name"]
    then sort_by else "created_at" in
  let sortDirection :=
    if Js.includes (Js.toLowerCase sort_order) ["asc"; "desc"]
    then Js.toUpperCase sort_order else "DESC" in
  feedback <-
    Database.getRows
      (Sql.Select
         (Sql.Columns [ ("feedback_id", "feedback_id");
                        ("name", "name");
                        ("email", "email");
                        ("service_used", "service_used");
                        ("rating", "rating");
                        ("feedback_type", "feedback_type");
                        ("subject", "subject");
                        ("would_recommend", "would_recommend");
                        ("status", "status");
                        ("created_at", "created_at");
                        ("updated_at", "updated_at") ])
         Sql.feedback conditions
         (Some (sortColumn,
                if (sortDirection =? "ASC")%string then Sql.ASC else Sql.DESC))
         (Some (per_page p, offset p))) ;;
  totalResult <-
    Database.getRow
      (Sql.Select (Sql.CountStar "total") Sql.feedback conditions None None) ;;
  match totalResult with
  | Some r =>
      ret (Response 200
             (JObj [ ("status", JStr "success");
                     ("data",
                      JObj [ ("feedback", JArr (map json_of_row feedback));
                             ("pagination", pagination p (Sql.get "total" r));
                             ("filters",
                              JObj (member "feedback_type" JStr (q "feedback_type")
                                    ++ member "rating" JStr (q "rating")
                                    ++ member "status" JStr (q "status")
                                    ++ member "service_used" JStr (q "service_used"))%list);
                             ("sorting",
                              JObj [ ("sort_by", JStr sortColumn);
                                     ("sort_order", JStr sortDirection) ]) ]) ]))
  | None => throw (TypeError "Cannot read properties of undefined (reading 'total')")
  end.

Definition get_feedback_list (env : environment) : request -> world -> response * world :=
  plain_route env list_feedback.

(** [router.get('/:feedbackId', ...)] *)
Definition read_feedback (env : environment) (req : request) : M response :=
  let feedbackId := assoc "feedbackId" (params req) in
  feedback <-
    Database.getRow
      (Sql.Select Sql.Star Sql.feedback
         [("feedback_id", bound_param feedbackId)] None None) ;;
  match feedback with
  | None => throw (AppError "Feedback not found" 404 (Some "FEEDBACK_NOT_FOUND"))
  | Some r =>
      ret (Response 200
             (JObj [ ("status", JStr "success");
                     ("data", JObj [ ("feedback", json_of_row r) ]) ]))
  end.

Definition get_feedback (env : environment) : request -> world -> response * world :=
  plain_route env read_feedback.

Definition statuses : list string := ["new"; "reviewed"; "responded"; "closed"].

Definition statusValidationRules : list chain :=
  [ body_ "status" [ check (IsIn statuses) "Invalid status" ];
    body_optional "admin_notes"
      [ trim;
        check (IsLength 0 (Some 1000)) "Admin notes cannot exceed 1000 characters" ] ].

(** [router.patch('/:feedbackId/status', ...)] *)
Definition update_status (env : environment) (req : request) : M response :=
  let feedbackId := assoc "feedbackId" (params req) in
  let status := field_of req "status" in
  let admin_notes := field_of req "admin_notes" in
  existingFeedback <-
    Database.getRow
      (Sql.Select Sql.Star Sql.feedback
         [("feedback_id", bound_param feedbackId)] None None) ;;
  match existingFeedback with
  | None => throw (AppError "Feedback not found" 404 (Some "FEEDBACK_NOT_FOUND"))
  | Some existing =>
      Database.runQuery env
        (Sql.Update Sql.feedback
           [ ("status", bound status);
             ("admin_notes", bound_or_null admin_notes);
             ("updated_at", Sql.VText (CURRENT_TIMESTAMP env)) ]
           [ ("feedback_id", bound_param feedbackId) ]) ;;
      match text_of status, truthy_text (Sql.get "email" existing),
            bound_or_null admin_notes with
      | Some "responded", Some email, Sql.VText response_text =>
          try_catch
            (sendEmail env
               (Mail email
                  ("Response to Your Feedback - " ++ interpolate feedbackId)
                  "feedback-response"
                  (member "name" json_of_value (assoc "name" existing)
                   ++ member "feedback_id" JStr feedbackId
                   ++ member "original_subject" json_of_value (assoc "subject" existing)
                   ++ [ ("response", JStr response_text);
                        ("responded_at", JStr (formatted_now env)) ])%list))
            (fun _ => console_error "Response email failed:")
      | _, _, _ => ret tt
      end ;;
      ret (Response 200
             (JObj [ ("status", JStr "success");
                     ("message", JStr "Feedback status updated successfully");
                     ("data",
                      JObj (member "feedback_id" JStr feedbackId
                            ++ member "new_status" json_of_field status
                            ++ [ ("updated_at", JStr (toISOString_now env)) ])%list) ]))
  end.

Definition patch_status (env : environment) : request -> world -> response * world :=
  route env statusValidationRules update_status.

End Feedback.

(** ** [routes/newsletter.js] *)

Module Newsletter.

Import Validator.

Definition subscriptionValidationRules : list chain :=
  [ body_ "email"
      [ check IsEmail "Please provide a valid email address"; normalizeEmail_ ];
    body_optional "name"
      [ trim;
        check (IsLength 2 (Some 100)) "Name must be between 2 and 100 characters";
        check (Matches Patterns.name)
          "Name can only contain letters, spaces, hyphens, and apostrophes" ];
    body_optional "preferences" [ check IsArray "Preferences must be an array" ];
    body_each_optional "preferences"
      [ check (IsIn ["visa_updates"; "policy_changes"; "travel_tips"; "promotions";
                     "general_news"])
          "Invalid preference option" ] ].

(** [generateUnsubscribeToken] *)
Definition generateUnsubscribeToken (env : environment) : string :=
  randomBytes_hex env.

Definition unsubscribe_url (env : environment) (token : string) : string :=
  frontend_url env ++ "/unsubscribe?token=" ++ token.

(** Truthiness of a column of a fetched row. *)
Definition truthy_value (v : Sql.value) : bool :=
  match truthy_text v with Some _ => true | None => false end.

Definition benefits : json :=
  JArr [ JStr "Get the latest visa updates and policy changes";
         JStr "Receive travel tips and destination guides";
         JStr "Be the first to know about special promotions";
         JStr "Stay informed about UAE immigration news" ].

(** [router.post('/subscribe', ...)] *)
Definition subscribe (env : environment) (req : request) : M response :=
  let f := field_of req in
  let email := f "email" in
  let name := f "name" in
  let preferences :=
    match f "preferences" with Some v => json_of_field v | None => JArr [] end in
  existingSubscription <-
    Database.getRow
      (Sql.Select Sql.Star Sql.newsletter_subscriptions
         [("email", bound email)] None None) ;;
  match existingSubscription with
  | Some existing =>
      if truthy_value (Sql.get "is_active" existing) then
        ret (Response 200
               (JObj [ ("status", JStr "success");
                       ("message", JStr "You are already subscribed to our newsletter");
                       ("data",
                        JObj (member "email" json_of_field email
                              ++ [ ("status", JStr "already_subscribed") ]
                              ++ member "subscribed_since" json_of_value
                                   (assoc "created_at" existing))%list) ]))
      else
        let unsubscribeToken := generateUnsubscribeToken env in
        Database.runQuery env
          (Sql.Update Sql.newsletter_subscriptions
             [ ("is_active", Sql.VInt 1);
               ("full_name", bound_or_null name);
               ("unsubscribe_token", Sql.VText unsubscribeToken);
               ("updated_at", Sql.VText (CURRENT_TIMESTAMP env)) ]
             [ ("email", bound email) ]) ;;
        try_catch
          (sendEmail env
             (Mail (text_or email "")
                "Newsletter Subscription Reactivated - UAE Visa Services"
                "newsletter-reactivated"
                ([ ("name", JStr (text_or name "Subscriber")) ]
                 ++ member "email" json_of_field email
                 ++ [ ("preferences", preferences);
                      ("unsubscribe_url", JStr (unsubscribe_url env unsubscribeToken));
                      ("reactivated_at", JStr (formatted_now env)) ])%list))
          (fun _ => console_error "Reactivation email failed:") ;;
        ret (Response 200
               (JObj [ ("status", JStr "success");
                       ("message",
                        JStr "Your newsletter subscription has been reactivated");
                       ("data",
                        JObj (member "email" json_of_field email
                              ++ [ ("status", JStr "reactivated");
                                   ("preferences", preferences) ])%list) ]))
  | None =>
      let unsubscribeToken := generateUnsubscribeToken env in
      let subscriptionId := fresh_identifier env "NL" 6 in
      Database.runQuery env
        (Sql.Insert Sql.newsletter_subscriptions
           [ ("email", bound email);
             ("full_name", bound_or_null name);
             ("unsubscribe_token", Sql.VText unsubscribeToken);
             ("is_active", Sql.VInt 1);
             ("created_at", Sql.VText (CURRENT_TIMESTAMP env));
             ("updated_at", Sql.VText (CURRENT_TIMESTAMP env)) ]) ;;
      try_catch
        (sendEmail env
           (Mail (text_or email "")
              "Welcome to UAE Visa Services Newsletter!"
              "newsletter-welcome"
              ([ ("name", JStr (text_or name "Subscriber")) ]
               ++ member "email" json_of_field email
               ++ [ ("preferences", preferences);
                    ("unsubscribe_url", JStr (unsubscribe_url env unsubscribeToken));
                    ("subscribed_at", JStr (formatted_now env)) ])%list) ;;
         sendEmail env
           (Mail (admin_address env)
              ("New Newsletter Subscription - " ++ interpolate (text_of email))
              "new-newsletter-subscription-admin"
              ([ ("subscription_id", JStr subscriptionId) ]
               ++ member "email" json_of_field email
               ++ [ ("name", JStr (text_or name "Not provided"));
                    ("preferences", preferences);
                    ("subscribed_at", JStr (formatted_now env)) ])%list))
        (fun _ => console_error "Welcome email failed:") ;;
      ret (Response 201
             (JObj [ ("status", JStr "success");
                     ("message", JStr "Successfully subscribed to our newsletter!");
                     ("data",
                      JObj ([ ("subscription_id", JStr subscriptionId) ]
                            ++ member "email" json_of_field email
                            ++ [ ("status", JStr "subscribed");
                                 ("preferences", preferences);
                                 ("subscribed_at", JStr (toISOString_now env));
                                 ("benefits", benefits) ])%list) ]))
  end.

Definition post_subscribe (env : environment) : request -> world -> response * world :=
  route env subscriptionValidationRules subscribe.

Definition unsubscribeValidationRules : list chain :=
  [ body_ "token"
      [ check NotEmpty "Unsubscribe token is required";
        check (IsLength 64 (Some 64)) "Invalid unsubscribe token" ] ].

(** [router.post('/unsubscribe', ...)] *)
Definition unsubscribe (env : environment) (req : request) : M response :=
  let token := field_of req "token" in
  subscription <-
    Database.getRow
      (Sql.Select Sql.Star Sql.newsletter_subscriptions
         [ ("unsubscribe_token", bound token); ("status", Sql.VText "active") ]
         None None) ;;
  match subscription with
  | None =>
      throw (AppError "Invalid or expired unsubscribe token" 400 (Some "INVALID_TOKEN"))
  | Some sub =>
      Database.runQuery env
        (Sql.Update Sql.newsletter_subscriptions
           [ ("status", Sql.VText "unsubscribed");
             ("updated_at", Sql.VText (CURRENT_TIMESTAMP env)) ]
           [ ("unsubscribe_token", bound token) ]) ;;
      try_catch
        (sendEmail env
           (Mail (match Sql.get "email" sub with Sql.VText s => s | _ => "" end)
              "Newsletter Unsubscription Confirmed - UAE Visa Services"
              "newsletter-unsubscribed"
              [ ("name",
                 JStr (match truthy_text (Sql.get "name" sub) with
                       | Some s => s
                       | None => "Subscriber"
                       end));
                ("email", json_of_value (Sql.get "email" sub));
                ("unsubscribed_at", JStr (formatted_now env));
                ("resubscribe_url", JStr (frontend_url env ++ "/newsletter")) ]))
        (fun _ => console_error "Unsubscribe confirmation email failed:") ;;
      ret (Response 200
             (JObj [ ("status", JStr "success");
                     ("message",
                      JStr "You have been successfully unsubscribed from our newsletter");
                     ("data",
                      JObj [ ("email", json_of_value (Sql.get "email" sub));
                             ("status", JStr "unsubscribed");
                             ("unsubscribed_at", JStr (toISOString_now env));
                             ("message",
                              JStr "We're sorry to see you go! You can resubscribe anytime.") ]) ]))
  end.

Definition post_unsubscribe (env : environment) : request -> world -> response * world :=
  route env unsubscribeValidationRules unsubscribe.

End Newsletter.

(** ** The rule library [patterns], [customValidators] (validation module)

    The module exports rule sets of its own; no route imports them.  The two
    cross-field validators of its visa rule set are kept here. *)

Module Validation.

Import Validator.

(** [customValidators.departureDateAfterArrival()] *)
Definition departureDateAfterArrival : chain :=
  body_ "departure_date"
    [ custom (fun env b v =>
                match text_of (assoc "arrival_date" b) with
                | Some arrivalDate =>
                    if Js.truthy arrivalDate
                       && Visa.isSameOrBefore (Visa.day_of env v)
                            (moment_day env arrivalDate)
                    then Some "Departure date must be after arrival date"
                    else None
                | None => None
                end) ].

(** [customValidators.durationMatchesDates()] *)
Definition durationMatchesDates : chain :=
  body_ "duration_of_stay"
    [ custom (fun env b v =>
                match text_of (assoc "arrival_date" b),
                      text_of (assoc "departure_date" b) with
                | Some arrivalDate, Some departureDate =>
                    if Js.truthy arrivalDate && Js.truthy departureDate then
                      let calculatedDuration :=
                        moment_diff_days env departureDate arrivalDate in
                      let differs :=
                        match Js.parseInt (interpolate (text_of v)),
                              calculatedDuration with
                        | Some n, Some d => negb (n =? d)
                        | _, _ => true
                        end in
                      if differs then
                        Some ("Duration of stay (" ++ interpolate (text_of v)
                                ++ " days) does not match the date range ("
                                ++ match calculatedDuration with
                                   | Some d => Js.number_toString d
                                   | None => "NaN"
                                   end ++ " days)")
                      else None
                    else None
                | _, _ => None
                end) ].

(** [body(field).customSanitizer(f)] where [f] leaves alone what is not a
    string. *)
Definition customSanitizer (f : string -> string) (v : field_value) : field_value :=
  match v with
  | Str s => Str (f s)
  | Arr l => Arr l
  end.

(** [value.replace(/<[^>]*>/g, '')]: from a [<] that has a [>] after it,
    everything up to the first such [>] goes; a [<] with no [>] after it
    stays, and so does all that follows.  [inside] is set between the two. *)
Fixpoint strip_tags (inside : bool) (l : list ascii) : list ascii :=
  match l with
  | [] => []
  | c :: rest =>
      if inside then
        if Ascii.eqb c ">" then strip_tags false rest else strip_tags true rest
      else if Ascii.eqb c "<" then
        if existsb (Ascii.eqb ">") rest then strip_tags true rest else c :: rest
      else c :: strip_tags false rest
  end.

(** [sanitizers.stripHtml] *)
Definition strip_html (value : string) : string :=
  Js.str (strip_tags false (Js.chars value)).

Definition stripHtml : field_value -> field_value := customSanitizer strip_html.

(** [sanitizers.normalizePhone]: [value.replace(/[^\d+]/g, '')] *)
Definition normalize_phone (value : string) : string :=
  Js.str (filter (fun c => Js.is_digit c || Ascii.eqb c "+") (Js.chars value)).

Definition normalizePhone : field_value -> field_value :=
  customSanitizer normalize_phone.

End Validation.

(** ** [routes/health.js]: [formatUptime]

    The argument is the uptime in whole seconds.  [process.uptime()] has a
    fractional part as well; it is below one second and each of the four
    results is rounded down with [Math.floor], so it is left out here.  On a
    whole number [/] followed by [Math.floor] is the quotient rounded down and
    [%] is the remainder with the sign of the dividend. *)

Module Health.

Definition formatUptime (uptime : Z) : string :=
  let days := uptime / 86400 in
  let hours := Z.rem uptime 86400 / 3600 in
  let minutes := Z.rem uptime 3600 / 60 in
  let seconds := Z.rem uptime 60 in
  let parts :=
    ((if 0 <? days then [(Js.number_toString days ++ "d")%string] else [])
     ++ (if 0 <? hours then [(Js.number_toString hours ++ "h")%string] else [])
     ++ (if 0 <? minutes then [(Js.number_toString minutes ++ "m")%string] else [])
     ++ (if 0 <? seconds then [(Js.number_toString seconds ++ "s")%string] else []))%list in
  let joined := Js.join " " parts in
  if Js.truthy joined then joined else "0s".

End Health.

(** ** The forms of the front end: [js/main.js] and [js/forms.js] *)

Module Frontend.

(** [phone.replace(/\D/g, '')] *)
Definition digits_of (phone : string) : list ascii :=
  filter Js.is_digit (Js.chars phone).

(** [utils.formatPhoneNumber] *)
Definition formatPhoneNumber (phone : string) : string :=
  let cleaned := digits_of phone in
  if (List.length cleaned =? 10)%nat then
    Js.str ("("%char :: firstn 3 cleaned
            ++ ")"%char :: " "%char :: firstn 3 (skipn 3 cleaned)
            ++ "-"%char :: skipn 6 cleaned)%list
  else phone.

(** [utils.isValidPhone]: [/^[\+]?[1-9][\d]{0,15}$/] on the digits. *)
Definition isValidPhone (phone : string) : bool :=
  match digits_of phone with
  | c :: rest => Js.between 49 57 c && (List.length rest <=? 15)%nat
  | [] => false
  end.

(** [FormHandler.prototype.formatPhoneNumber] *)
Definition FormHandler_formatPhoneNumber (phone : string) : string :=
  let cleaned := digits_of phone in
  if (List.length cleaned <=? 3)%nat then Js.str cleaned
  else if (List.length cleaned <=? 6)%nat then
    Js.str (firstn 3 cleaned ++ "-"%char :: skipn 3 cleaned)%list
  else
    Js.str (firstn 3 cleaned ++ "-"%char :: firstn 3 (skipn 3 cleaned)
            ++ "-"%char :: firstn 4 (skipn 6 cleaned))%list.

End Frontend.

(** ** A concrete environment, for running the handlers

    The third-party functions are instantiated for plain inputs: an address
    is tested with the shape the newsletter status route itself uses
    ([/^[^\s@]+@[^\s@]+\.[^\s@]+$/]) and normalised to lower case; a date is
    a calendar date [YYYY-MM-DD]. *)

Module Sample.

Definition address_char (c : ascii) : bool :=
  negb (Js.is_space c) && negb (Ascii.eqb c "@").

Definition has_address_shape (s : string) : bool :=
  let (local_part, rest) := Patterns.span address_char (Js.chars s) in
  negb (Patterns.is_nil local_part)
  && match rest with
     | at_sign :: domain =>
         Ascii.eqb at_sign "@"
         && forallb address_char domain
         && match domain with
            | _ :: tail => existsb (fun c => Ascii.eqb c ".") (removelast tail)
            | [] => false
            end
     | [] => false
     end.

(** Days since 1970-01-01 of a date of the proleptic Gregorian calendar. *)
Definition days_from_civil (y m d : Z) : Z :=
  let y' := if m <=? 2 then y - 1 else y in
  let era := y' / 400 in
  let yoe := y' - era * 400 in
  let doy := (153 * ((m + 9) mod 12) + 2) / 5 + d - 1 in
  era * 146097 + (yoe * 365 + yoe / 4 - yoe / 100 + doy) - 719468.

Definition leap (y : Z) : bool :=
  ((y mod 4 =? 0) && negb (y mod 100 =? 0)) || (y mod 400 =? 0).

Definition days_in_month (y m : Z) : Z :=
  if m =? 2 then (if leap y then 29 else 28)
  else if (m =? 4) || (m =? 6) || (m =? 9) || (m =? 11) then 30 else 31.

Definition digits (s : string) : option Z :=
  if Patterns.some_all Js.is_digit s then Js.parse_int s else None.

(** The fields of [YYYY-MM-DD]. *)
Definition calendar_fields (s : string) : option (Z * Z * Z) :=
  if (String.length s =? 10)%nat
     && (Js.substr 4 1 s =? "-")%string && (Js.substr 7 1 s =? "-")%string
  then
    match digits (Js.substr 0 4 s), digits (Js.substr 5 2 s),
          digits (Js.substr 8 2 s) with
    | Some y, Some m, Some d => Some (y, m, d)
    | _, _, _ => None
    end
  else None.

Definition is_calendar_date (s : string) : bool :=
  match calendar_fields s with
  | Some (_, m, d) => (1 <=? m) && (m <=? 12) && (1 <=? d) && (d <=? 31)
  | None => false
  end.

Definition calendar_day (s : string) : option Z :=
  match calendar_fields s with
  | Some (y, m, d) =>
      if (1 <=? m) && (m <=? 12) && (1 <=? d) && (d <=? days_in_month y m)
      then Some (days_from_civil y m d) else None
  | None => None
  end.

Definition calendar_days_between (a b : string) : option Z :=
  match calendar_day a, calendar_day b with
  | Some x, Some y => Some (x - y)
  | _, _ => None
  end.

(** 1 June 2025, midnight UTC. *)
Definition environment_with (random : string) : environment :=
  {| isEmail := has_address_shape;
     normalizeEmail := Js.toLowerCase;
     isISO8601 := is_calendar_date;
     moment_day := calendar_day;
     today := days_from_civil 2025 6 1;
     moment_diff_days := calendar_days_between;
     format_date := fun s => s;
     formatted_now := "June 01, 2025 at 00:00";
     Date_now := 1748736000000;
     toISOString_now := "2025-06-01T00:00:00.000Z";
     Math_random_base36 := random;
     randomBytes_hex :=
       "9f86d081884c7d659a2feaa0c55ad015a3bf4f1b2b0b822cd15d6c15b0f00a08";
     CURRENT_TIMESTAMP := "2025-06-01 00:00:00";
     NODE_ENV := Some "production";
     EMAIL_TO := None;
     FRONTEND_URL := None |}.

Definition delivers : nat -> mail -> bool := fun _ _ => true.
Definition fails : nat -> mail -> bool := fun _ _ => false.

Definition environment : environment := environment_with "0.k3j9x2mzq8".

Definition world_of (d : Sql.database) (t : nat -> mail -> bool) : world :=
  World d [] [] [] 0 t.

Definition empty_world : world := world_of Sql.empty_database fails.

End Sample.

(** ** Sample requests and stores *)

Module Scenario.

Definition post (b : list (string * field_value)) : request := Request [] [] b [].

Definition visa_body (duration : string) : list (string * field_value) :=
  [ ("full_name", Str "Amina Yusuf"); ("email", Str "Amina@Example.com");
    ("phone", Str "+971501234567"); ("nationality", Str "Kenyan");
    ("passport_number", Str "AB1234567"); ("visa_type", Str "tourist");
    ("purpose_of_visit", Str "Family holiday in Dubai");
    ("duration_of_stay", Str duration);
    ("arrival_date", Str "2025-06-10"); ("departure_date", Str "2025-06-15");
    ("previous_uae_visit", Str "no"); ("criminal_record", Str "no");
    ("emergency_contact_name", Str "Yusuf Ali");
    ("emergency_contact_phone", Str "+254700000001");
    ("emergency_contact_relationship", Str "Father") ].

Definition visa_application (duration : string) : request :=
  Request [] [] (visa_body duration)
    [ ("passport_copy", ["passport_copy-1748736000000-1.pdf"]);
      ("photo", ["photo-1748736000000-2.png"]) ].

Definition feedback_body (rating recommend : string) : list (string * field_value) :=
  [ ("name", Str "Amina Yusuf"); ("email", Str "Amina@Example.com");
    ("service_used", Str "consultation"); ("rating", Str rating);
    ("feedback_type", Str "compliment"); ("subject", Str "Quick and clear");
    ("message", Str "The consultation answered every question.");
    ("would_recommend", Str recommend);
    ("application_id", Str "UAE-1748736000000-K3J9X2MZQ");
    ("phone", Str "+971501234567") ].

Definition contact_body : list (string * field_value) :=
  [ ("name", Str "Amina Yusuf"); ("email", Str "amina@example.com");
    ("subject", Str "Visa extension");
    ("message", Str "How do I extend a tourist visa?") ].

Definition subscription_body : list (string * field_value) :=
  [ ("email", Str "a@b.com") ].

(** The worlds left by one accepted submission of each kind. *)
Definition after_feedback : world :=
  snd (Feedback.post_feedback Sample.environment (post (feedback_body "5" "yes"))
         Sample.empty_world).

Definition after_message : world :=
  snd (Contact.post_message Sample.environment (post contact_body) Sample.empty_world).

Definition after_subscription : world :=
  snd (Newsletter.post_subscribe Sample.environment (post subscription_body)
         Sample.empty_world).

Definition feedback_identifier : string := "FB-1748736000000-K3J9X2".
Definition message_identifier : string := "CONTACT-1748736000000-K3J9X2".

Definition status_update (parameter identifier status : string) : request :=
  Request [(parameter, identifier)] [] [("status", Str status)] [].

Definition listing (status page limit : string) : request :=
  Request [] [("status", status); ("page", page); ("limit", limit)] [] [].

(** A subscription an operator has switched off. *)
Definition inactive_subscription : world :=
  Sample.world_of
    (Sql.replace_table Sql.newsletter_subscriptions
       (Sql.TableState
          [ [ ("id", Sql.VInt 1); ("email", Sql.VText "a@b.com");
              ("full_name", Sql.VNull);
              ("subscription_date", Sql.VText "2025-05-01 00:00:00");
              ("is_active", Sql.VInt 0);
              ("unsubscribe_token", Sql.VText "0123456789abcdef");
              ("created_at", Sql.VText "2025-05-01 00:00:00");
              ("updated_at", Sql.VText "2025-05-20 00:00:00") ] ]
          1)
       Sql.empty_database)
    Sample.fails.

End Scenario.

(** ** Notions the statements are written with *)

(** The two kinds of record that have a [PATCH .../status] route. *)
Inductive kind : Type := ContactMessage | FeedbackEntry.

Definition allowed_statuses (k : kind) : list string :=
  match k with
  | ContactMessage => Contact.statuses
  | FeedbackEntry => Feedback.statuses
  end.

Definition patch_status (k : kind) : environment -> request -> world -> response * world :=
  match k with
  | ContactMessage => Contact.patch_status
  | FeedbackEntry => Feedback.patch_status
  end.

(** The operations that write and then notify. *)
Inductive operation : Type :=
| SubmitApplication
| SubmitMessage
| SubmitFeedback
| Subscribe
| Unsubscribe
| UpdateMessageStatus
| UpdateFeedbackStatus.

Definition perform (op : operation) : environment -> request -> world -> response * world :=
  match op with
  | SubmitApplication => Visa.post_application
  | SubmitMessage => Contact.post_message
  | SubmitFeedback => Feedback.post_feedback
  | Subscribe => Newsletter.post_subscribe
  | Unsubscribe => Newsletter.post_unsubscribe
  | UpdateMessageStatus => Contact.patch_status
  | UpdateFeedbackStatus => Feedback.patch_status
  end.

Definition with_transport (w : world) (t : nat -> mail -> bool) : world :=
  World (store w) (console w) (error_log w) (outbox w) (attempts w) t.

(** Two worlds agree when they hold the same store and the same error log. *)
Definition agree (w1 w2 : world) : Prop :=
  store w1 = store w2 /\ error_log w1 = error_log w2.

(** A computation whose result and whose effect on store and error log do
    not depend on the rest of the world (console, outbox, transport). *)
Definition independent {A : Type} (m : M A) : Prop :=
  forall w1 w2, agree w1 w2 ->
    fst (m w1) = fst (m w2) /\ agree (snd (m w1)) (snd (m w2)).

(** A computation that leaves store and error log alone ... *)
Definition mail_only {A : Type} (m : M A) : Prop :=
  forall w, agree (snd (m w)) w.

(** ... and one that moreover always returns. *)
Definition quiet (m : M unit) : Prop :=
  forall w, fst (m w) = Return tt /\ agree (snd (m w)) w.

Definition subscriptions (w : world) : list Sql.row :=
  Sql.table_rows Sql.newsletter_subscriptions (store w).

Definition emails (rows : list Sql.row) : list Sql.value :=
  map (Sql.get "email") rows.

(** The row [SELECT * FROM newsletter_subscriptions WHERE email = ?] finds. *)
Definition subscription_of (email : Sql.value) (w : world) : option Sql.row :=
  find (fun r => Sql.eq_value (Sql.get "email" r) email) (subscriptions w).

(** [data.status] of a response body. *)
Definition data_status (r : response) : option json :=
  match jget "data" (payload r) with
  | Some d => jget "status" d
  | None => None
  end.

Definition feedback_rows (w : world) : list Sql.row :=
  Sql.table_rows Sql.feedback (store w).

(** The feedback row an accepted submission leaves: a function of six body
    members, the identifier and the clock. *)
Definition stored_feedback (env : environment) (rowid : Z)
    (name email rating would_recommend subject message : option field_value)
  : Sql.row :=
  [ ("id", Sql.VInt rowid);
    ("feedback_id", Sql.VText (fresh_identifier env "FB" 6));
    ("full_name", bound name);
    ("email", bound email);
    ("phone", Sql.VNull);
    ("visa_type", Sql.VNull);
    ("service_rating", Sql.apply_affinity Sql.INTEGER (bound rating));
    ("would_recommend", bound would_recommend);
    ("feedback_title", bound subject);
    ("feedback_message", bound message);
    ("aspects_impressed", Sql.VNull);
    ("allow_public_display", Sql.VInt 0);
    ("allow_contact", Sql.VInt 0);
    ("status", Sql.VText "pending");
    ("is_featured", Sql.VInt 0);
    ("created_at", Sql.apply_affinity Sql.DATETIME (Sql.VText (CURRENT_TIMESTAMP env)));
    ("updated_at", Sql.apply_affinity Sql.DATETIME (Sql.VText (CURRENT_TIMESTAMP env))) ].

(** The row [SELECT * FROM feedback WHERE feedback_id = ?] finds. *)
Definition feedback_of (identifier : option string) (w : world) : option Sql.row :=
  find (fun r => Sql.eq_value (Sql.get "feedback_id" r) (bound_param identifier))
       (feedback_rows w).

Definition message_rows (w : world) : list Sql.row :=
  Sql.table_rows Sql.contact_messages (store w).

Definition visa_rows (w : world) : list Sql.row :=
  Sql.table_rows Sql.visa_applications (store w).

(** The conditions the visa list handler adds for its two query filters. *)
Definition visa_filters (req : request) : list Sql.condition :=
  (filter_on req "status" "status" ++ filter_on req "visa_type" "visa_type")%list.

(** The column [c] of every row, as stored. *)
Definition column (c : string) (rows : list Sql.row) : list Sql.value :=
  map (Sql.get c) rows.

(** [data.<name>] of a response body. *)
Definition data_member (name : string) (r : response) : option json :=
  match jget "data" (payload r) with
  | Some d => jget name d
  | None => None
  end.

Definition is_base36 (c : ascii) : bool := Js.is_digit c || Js.is_lower c.

(** The rendering [Math.random().toString(36)] of a draw other than 0:
    ["0."] followed by at least one digit of base 36. *)
Definition has_fraction (r : string) : bool :=
  match Js.chars r with
  | zero :: point :: c :: rest =>
      Ascii.eqb zero "0" && Ascii.eqb point "." && forallb is_base36 (c :: rest)
  | _ => false
  end.

Definition is_sanitizer (i : Validator.item) : bool :=
  match i with Validator.Sanitize _ => true | Validator.Validate _ _ => false end.

(** A chain that may rewrite the body member [k] ... *)
Definition rewrites (k : string) (c : Validator.chain) : bool :=
  (Validator.field c =? k)%string && negb (Validator.wildcard c)
  && existsb is_sanitizer (Validator.items c).

(** ... and one that leaves it defined, whatever the request held. *)
Definition defines (k : string) (c : Validator.chain) : bool :=
  rewrites k c && negb (Validator.optional c).

(** The row [SELECT ... FROM visa_applications WHERE application_id = ?]
    finds, and the status log. *)
Definition application_of (identifier : option string) (w : world) : option Sql.row :=
  find (fun r => Sql.eq_value (Sql.get "application_id" r) (bound_param identifier))
       (visa_rows w).

Definition status_log (w : world) : list Sql.row :=
  Sql.table_rows Sql.application_status_log (store w).

(** The contact row an accepted submission leaves. *)
Definition stored_message (env : environment) (rowid : Z)
    (name email phone subject message : option field_value)
    (inquiry_type preferred_contact_method : field_value)
  : Sql.row :=
  [ ("id", Sql.VInt rowid);
    ("message_id", Sql.VText (fresh_identifier env "CONTACT" 6));
    ("full_name", bound name);
    ("email", bound email);
    ("phone", bound phone);
    ("inquiry_type", bound (Some inquiry_type));
    ("subject", bound subject);
    ("message", bound message);
    ("preferred_contact", bound (Some preferred_contact_method));
    ("urgency_level", Sql.VText "medium");
    ("newsletter_subscription", Sql.VInt 0);
    ("status", Sql.VText "new");
    ("created_at", Sql.apply_affinity Sql.DATETIME (Sql.VText (CURRENT_TIMESTAMP env)));
    ("updated_at", Sql.apply_affinity Sql.DATETIME (Sql.VText (CURRENT_TIMESTAMP env))) ].

(** A chain that cannot give the body a member [k] it does not have. *)
Definition spares (k : string) (c : Validator.chain) : bool :=
  negb (rewrites k c) || Validator.optional c.

(** What the pattern [/<[^>]*>/] finds: a [<] with a [>] somewhere after
    it. *)
Fixpoint has_tag (l : list ascii) : bool :=
  match l with
  | [] => false
  | c :: rest => (Ascii.eqb c "<" && existsb (Ascii.eqb ">") rest) || has_tag rest
  end.

(** Reading a formatted uptime back, to show that [formatUptime] loses
    nothing: digits build a number, a unit letter adds it to the total. *)
Definition read_step (state : Z * Z) (c : ascii) : Z * Z :=
  let (total, current) := state in
  if Js.is_digit c then (total, 10 * current + (Js.code c - 48))
  else if Ascii.eqb c "d" then (total + 86400 * current, 0)
  else if Ascii.eqb c "h" then (total + 3600 * current, 0)
  else if Ascii.eqb c "m" then (total + 60 * current, 0)
  else if Ascii.eqb c "s" then (total + current, 0)
  else (total, current).

Definition read_uptime (s : string) : Z :=
  fst (fold_left read_step (Js.chars s) (0, 0)).

(** The tables an operation writes to. *)
Definition written (op : operation) : list Sql.table :=
  match op with
  | SubmitApplication => [Sql.visa_applications; Sql.application_status_log]
  | SubmitMessage | UpdateMessageStatus => [Sql.contact_messages]
  | SubmitFeedback | UpdateFeedbackStatus => [Sql.feedback]
  | Subscribe | Unsubscribe => [Sql.newsletter_subscriptions]
  end.

(** The durable write of an operation succeeded: every table it writes to
    has changed. *)
Definition write_succeeded (op : operation) (before after : world) : Prop :=
  Forall (fun t => Sql.table_rows t (store after) <> Sql.table_rows t (store before))
         (written op).

(** A response that reports success. *)
Definition reports_success (r : response) : Prop :=
  (statusCode r = 200 \/ statusCode r = 201)
  /\ jget "status" (payload r) = Some (JStr "success").

(** What a failed notification leaves behind: the line of [sendEmail] and
    the line of the handler's [catch] on the console.  The error log, which
    only the error middleware writes, is as before, and nothing was handed
    to the transport. *)
Definition failure_logged (before after : world) : Prop :=
  (exists line,
     console after = (console before ++ ["Email sending failed:"; line])%list)
  /\ error_log after = error_log before
  /\ outbox after = outbox before
  /\ attempts after = attempts before.

(** A block of e-mails stops in its first [sendEmail]. *)
Definition stops (mails : M unit) : Prop :=
  forall w,
    mails w
    = (Throw (TypeError "nodemailer.createTransporter is not a function"),
       World (store w) (console w ++ ["Email sending failed:"]) (error_log w)
         (outbox w) (attempts w) (transport w)).
(** Either a table the operation writes to is as it was, or the operation
    reports success and the failed notification is on the console. *)
Definition settled (op : operation) (w : world) (res : response * world) : Prop :=
  Exists (fun t => Sql.table_rows t (store (snd res)) = Sql.table_rows t (store w))
         (written op)
  \/ (reports_success (fst res) /\ failure_logged w (snd res)).

(** * Properties *)

(** ** Association lists and rows *)

Lemma includes_In x l : Js.includes x l = true <-> In x l.
Proof.
  unfold Js.includes. rewrite existsb_exists. split.
  - intros [y [Hy Heq]]. apply String.eqb_eq in Heq. now subst.
  - intros H. exists x. split; [assumption | apply String.eqb_refl].
Qed.

Lemma includes_not_In x l : ~ In x l -> Js.includes x l = false.
Proof.
  intros H. destruct (Js.includes x l) eqn:E; [|reflexivity].
  apply includes_In in E. contradiction.
Qed.

Lemma assoc_assign_same {A : Type} k (v : A) l : assoc k (assign k v l) = Some v.
Proof.
  induction l as [|[k' v'] l IH]; simpl.
  - now rewrite String.eqb_refl.
  - destruct (k =? k')%string eqn:E; simpl.
    + now rewrite String.eqb_refl.
    + now rewrite E.
Qed.

Lemma assoc_assign_other {A : Type} k k' (v : A) l :
  k <> k' -> assoc k (assign k' v l) = assoc k l.
Proof.
  intros Hne. induction l as [|[k0 v0] l IH]; simpl.
  - apply String.eqb_neq in Hne. now rewrite Hne.
  - destruct (k' =? k0)%string eqn:E; simpl.
    + apply String.eqb_eq in E. subst k0.
      apply String.eqb_neq in Hne. now rewrite Hne.
    + destruct (k =? k0)%string; [reflexivity | exact IH].
Qed.

Lemma get_assign_same k v r : Sql.get k (assign k v r) = v.
Proof. unfold Sql.get. now rewrite assoc_assign_same. Qed.

Lemma get_assign_other k k' v r :
  k <> k' -> Sql.get k (assign k' v r) = Sql.get k r.
Proof. intros H. unfold Sql.get. now rewrite assoc_assign_other. Qed.

Lemma find_ext {A : Type} (p q : A -> bool) l :
  (forall x, p x = q x) -> find p l = find q l.
Proof.
  intros H. induction l as [|x l IH]; simpl; [reflexivity|].
  now rewrite H, IH.
Qed.

Lemma find_app_skip {A : Type} (p : A -> bool) l1 l2 :
  (forall x, In x l1 -> p x = false) -> find p (l1 ++ l2) = find p l2.
Proof.
  induction l1 as [|a l1 IH]; intros H; simpl; [reflexivity|].
  rewrite (H a) by (left; reflexivity).
  apply IH. intros x Hx. apply H. right. exact Hx.
Qed.

Lemma hd_error_filter {A : Type} (p : A -> bool) l :
  hd_error (filter p l) = find p l.
Proof.
  induction l as [|x l IH]; simpl; [reflexivity|].
  destruct (p x); [reflexivity | exact IH].
Qed.

Lemma map_unchanged {A : Type} (p : A -> bool) (f : A -> A) l :
  filter p l = [] -> map (fun x => if p x then f x else x) l = l.
Proof.
  induction l as [|x l IH]; simpl; [reflexivity|].
  destruct (p x); [discriminate|]. intros H. now rewrite IH.
Qed.

(** ** The persistence gateway *)

Lemma eq_value_true a b : Sql.eq_value a b = true -> a = b /\ a <> Sql.VNull.
Proof.
  destruct a, b; simpl; try discriminate.
  - intros H. apply Z.eqb_eq in H. subst. split; [reflexivity | discriminate].
  - intros H. apply String.eqb_eq in H. subst. split; [reflexivity | discriminate].
Qed.

Lemma eq_value_refl a : a <> Sql.VNull -> Sql.eq_value a a = true.
Proof.
  destruct a; simpl; intros H.
  - contradiction.
  - apply Z.eqb_refl.
  - apply String.eqb_refl.
Qed.

Lemma affinity_text_bound v : Sql.apply_affinity Sql.TEXT (bound v) = bound v.
Proof. unfold bound. destruct (text_of v); reflexivity. Qed.

Lemma get_apply_set t set c r :
  ~ In c (map fst set) -> Sql.get c (Sql.apply_set t set r) = Sql.get c r.
Proof.
  unfold Sql.apply_set. revert r.
  induction set as [|[c' v] set IH]; intros r H; simpl; [reflexivity|].
  simpl in H. rewrite IH by tauto.
  destruct (Sql.find_column t c'); [|reflexivity].
  apply get_assign_other. intros E. apply H. left. now symmetry.
Qed.

Lemma get_apply_set_first t c v set r k :
  Sql.find_column t c = Some k ->
  ~ In c (map fst set) ->
  Sql.get c (Sql.apply_set t ((c, v) :: set) r)
  = Sql.apply_affinity (Sql.col_type k) v.
Proof.
  intros Hk Hnot. unfold Sql.apply_set. simpl fold_left. rewrite Hk.
  change (fold_left _ set ?r0) with (Sql.apply_set t set r0).
  rewrite get_apply_set by assumption. apply get_assign_same.
Qed.

Lemma table_rows_replace t s d :
  Sql.table_rows t (Sql.replace_table t s d) = Sql.rows s.
Proof. destruct t; reflexivity. Qed.

(** A condition on a TEXT column is the plain comparison. *)
Lemma holds_single_text t c k v r :
  Sql.find_column t c = Some k -> Sql.col_type k = Sql.TEXT ->
  Sql.holds t [(c, bound v)] r = Sql.eq_value (Sql.get c r) (bound v).
Proof.
  intros Hk Ht. unfold Sql.holds. simpl forallb. rewrite Hk, Ht.
  rewrite affinity_text_bound. apply andb_true_r.
Qed.

Lemma holds_single_param t c k v r :
  Sql.find_column t c = Some k -> Sql.col_type k = Sql.TEXT ->
  Sql.holds t [(c, bound_param v)] r = Sql.eq_value (Sql.get c r) (bound_param v).
Proof.
  intros Hk Ht. unfold Sql.holds. simpl forallb. rewrite Hk, Ht.
  destruct v; apply andb_true_r.
Qed.

Lemma exec_select_star t conds d :
  Sql.unknown_column t (map fst conds) = None ->
  Sql.exec_select (Sql.Select Sql.Star t conds None None) d
  = Sql.Done (filter (Sql.holds t conds) (Sql.table_rows t d)).
Proof.
  intros H. unfold Sql.exec_select. simpl.
  rewrite app_nil_r, H. now rewrite map_id.
Qed.

Lemma getRow_star t conds w :
  Sql.unknown_column t (map fst conds) = None ->
  Database.getRow (Sql.Select Sql.Star t conds None None) w
  = (Return (find (Sql.holds t conds) (Sql.table_rows t (store w))), w).
Proof.
  intros H. unfold Database.getRow, bind, Database.getRows.
  rewrite (exec_select_star _ _ _ H). unfold ret. now rewrite hd_error_filter.
Qed.

(** An accepted UPDATE rewrites the rows its condition selects, in place. *)
Lemma exec_update_done t set conds d r d' :
  Sql.exec_update t set conds d = Sql.Done (r, d') ->
  Sql.table_rows t d'
  = map (fun x => if Sql.holds t conds x then Sql.apply_set t set x else x)
        (Sql.table_rows t d).
Proof.
  unfold Sql.exec_update.
  destruct (Sql.unknown_column t _); [discriminate|].
  destruct (map (Sql.apply_set t set)
              (filter (Sql.holds t conds) (Sql.rows (Sql.select_table t d)))) eqn:E.
  - intros [= <- <-]. apply map_eq_nil in E. unfold Sql.table_rows.
    now rewrite map_unchanged.
  - destruct (Sql.first_some _ _); [discriminate|].
    destruct (negb _); [discriminate|].
    destruct (find _ _); [discriminate|].
    intros [= <- <-]. now rewrite table_rows_replace.
Qed.

(** An UPDATE that names a column the table lacks fails. *)
Lemma exec_update_unknown_column t set conds d c :
  Sql.unknown_column t (map fst set ++ map fst conds) = Some c ->
  Sql.exec_update t set conds d = Sql.no_such_column c.
Proof. intros H. unfold Sql.exec_update. now rewrite H. Qed.

(** An accepted INSERT appends one row, built from the assignments and the
    defaults, that breaks no NOT NULL or UNIQUE constraint. *)
Lemma exec_insert_done now t assignments d r d' :
  Sql.exec_insert now t assignments d = Sql.Done (r, d') ->
  let new := Sql.new_row now (Sql.last_rowid (Sql.select_table t d)) t assignments in
  Sql.table_rows t d' = (Sql.table_rows t d ++ [new])%list
  /\ Sql.null_violation t new = None
  /\ Sql.check_holds t new = true
  /\ Sql.unique_violation t new (Sql.table_rows t d) = None.
Proof.
  unfold Sql.exec_insert.
  destruct (Sql.unknown_column t _); [discriminate|].
  destruct (Sql.null_violation t _) eqn:N; [discriminate|].
  destruct (Sql.check_holds t _) eqn:C; [|discriminate].
  destruct (Sql.unique_violation t _ _) eqn:U; [discriminate|].
  intros [= <- <-]. simpl. rewrite table_rows_replace. simpl. auto.
Qed.

Lemma unique_violation_none t r others k x :
  Sql.unique_violation t r others = None ->
  In k (Sql.schema t) -> Sql.col_unique k = true -> In x others ->
  Sql.eq_value (Sql.get (Sql.col_name k) x) (Sql.get (Sql.col_name k) r) = false.
Proof.
  intros H Hk Hu Hx. unfold Sql.unique_violation in H.
  pose proof (find_none _ _ H k Hk) as Hf. cbv beta in Hf. rewrite Hu in Hf.
  simpl in Hf. apply negb_false_iff, Nat.eqb_eq in Hf.
  unfold Sql.occurrences in Hf. apply length_zero_iff_nil in Hf.
  destruct (Sql.eq_value _ _) eqn:E; [|reflexivity].
  assert (Hin : In x (filter (fun r0 => Sql.eq_value (Sql.get (Sql.col_name k) r0)
                                          (Sql.get (Sql.col_name k) r)) others))
    by (apply filter_In; split; assumption).
  rewrite Hf in Hin. contradiction.
Qed.

(** ** Validation chains *)

Lemma run_chains_cons env c rest b :
  fst (Validator.run_chains env (c :: rest) b)
  = (fst (Validator.run_chain env c b)
     ++ fst (Validator.run_chains env rest (snd (Validator.run_chain env c b))))%list.
Proof.
  simpl. destruct (Validator.run_chain env c b) as [e b']. simpl.
  destruct (Validator.run_chains env rest b'). reflexivity.
Qed.

Lemma run_chains_cons_body env c rest b :
  snd (Validator.run_chains env (c :: rest) b)
  = snd (Validator.run_chains env rest (snd (Validator.run_chain env c b))).
Proof.
  simpl. destruct (Validator.run_chain env c b) as [e b']. simpl.
  destruct (Validator.run_chains env rest b'). reflexivity.
Qed.

Lemma run_items_validate env n p v m l b cur :
  fst (Validator.run_items env n p (Validator.Validate v m :: l) b cur)
  = (Validator.validate_item env b p v m cur
     ++ fst (Validator.run_items env n p l b cur))%list.
Proof.
  simpl. destruct (Validator.run_items env n p l b cur). reflexivity.
Qed.

(** The failures of a chain are among those of the rule set it belongs to,
    whatever the chains before it reported. *)
Lemma run_chains_app env before c after b e :
  In e (fst (Validator.run_chain env c (snd (Validator.run_chains env before b)))) ->
  In e (fst (Validator.run_chains env (before ++ c :: after) b)).
Proof.
  revert b. induction before as [|c0 before IH]; intros b H.
  - simpl app. rewrite run_chains_cons. apply in_or_app. left. exact H.
  - simpl app. rewrite run_chains_cons. apply in_or_app. right.
    apply IH. rewrite run_chains_cons_body in H. exact H.
Qed.

(** Every entry a chain on a named field adds carries that name. *)
Lemma run_items_path env n p l b cur e :
  In e (fst (Validator.run_items env n p l b cur)) -> path e = p.
Proof.
  revert b cur. induction l as [|i l IH]; intros b cur H; simpl in H.
  - contradiction.
  - destruct i as [v m|s].
    + destruct (Validator.run_items env n p l b cur) as [rest b'] eqn:E.
      simpl in H. apply in_app_or in H. destruct H as [H|H].
      * unfold Validator.validate_item in H.
        destruct v;
          try (apply in_map_iff in H; destruct H as [x [Hx _]]; subst e; reflexivity).
        -- destruct cur as [[|]|]; simpl in H;
             try destruct H as [H|[]]; try contradiction; subst; reflexivity.
        -- destruct (check env b cur); simpl in H;
             [destruct H as [H|[]]; subst; reflexivity | contradiction].
      * apply (IH b cur). rewrite E. exact H.
    + apply (IH _ _ H).
Qed.

Lemma run_chain_path env c b e :
  Validator.wildcard c = false ->
  In e (fst (Validator.run_chain env c b)) -> path e = Validator.field c.
Proof.
  intros Hw H. unfold Validator.run_chain in H. rewrite Hw in H.
  destruct (assoc (Validator.field c) b) eqn:E.
  - eapply run_items_path; exact H.
  - destruct (Validator.optional c); [contradiction | eapply run_items_path; exact H].
Qed.

(** ** Routes *)

(** A request that fails validation is answered 400 with every entry of the
    validation result, and the handler does not run. *)
Lemma route_rejection env chains handler req w :
  fst (Validator.run_chains env chains (body req)) <> [] ->
  route env chains handler req w
  = (Response 400
       (JObj [ ("status", JStr "fail");
               ("message", JStr "Validation failed");
               ("code", JStr "VALIDATION_ERROR");
               ("errors",
                JArr (map ErrorHandler.error_entry
                        (fst (Validator.run_chains env chains (body req)))));
               ("timestamp", JStr (toISOString_now env)) ]),
     w).
Proof.
  intros H. unfold route.
  destruct (Validator.run_chains env chains (body req)) as [errors b].
  simpl in *. destruct errors; [contradiction | reflexivity].
Qed.

Lemma route_accepted env chains handler req w b :
  Validator.run_chains env chains (body req) = ([], b) ->
  route env chains handler req w
  = ErrorHandler.catchAsync env (handler env (with_body req b)) w.
Proof. intros H. unfold route. now rewrite H. Qed.

(** What the error middleware answers to a store error and to an unbound
    name: 500, with the store as it was. *)
Lemma errorHandler_status env e w :
  statusCode (fst (ErrorHandler.errorHandler env e w)) = ErrorHandler.status_code e
  \/ statusCode (fst (ErrorHandler.errorHandler env e w)) = 500.
Proof.
  unfold ErrorHandler.errorHandler. simpl.
  destruct (match NODE_ENV env with
            | Some m => (m =? "development")%string
            | None => false
            end); simpl.
  - now left.
  - unfold ErrorHandler.sendErrorProd. destruct (ErrorHandler.isOperational e); auto.
Qed.

Lemma errorHandler_store env e w :
  store (snd (ErrorHandler.errorHandler env e w)) = store w.
Proof.
  unfold ErrorHandler.errorHandler, ErrorHandler.logError. simpl.
  destruct (match NODE_ENV env with
            | Some m => (m =? "production")%string
            | None => false
            end); reflexivity.
Qed.

Lemma errorHandler_internal env e w :
  ErrorHandler.status_code e = 500 ->
  statusCode (fst (ErrorHandler.errorHandler env e w)) = 500.
Proof.
  intros H. destruct (errorHandler_status env e w) as [E|E]; congruence.
Qed.

(** ** Status updates with a status outside the enumeration *)

Lemma status_chain_fails env name allowed m rest b s :
  assoc name b = Some (Str s) ->
  ~ In s allowed ->
  fst (Validator.run_chains env
         (Validator.body_ name [Validator.check (Validator.IsIn allowed) m] :: rest) b)
  <> [].
Proof.
  intros Hs Hout. rewrite run_chains_cons.
  unfold Validator.run_chain, Validator.body_.
  simpl Validator.wildcard. cbv iota.
  simpl Validator.field. simpl Validator.optional. simpl Validator.items. rewrite Hs.
  unfold Validator.check. rewrite run_items_validate.
  unfold Validator.validate_item. simpl Validator.strings_of. simpl filter.
  simpl Validator.test. rewrite (includes_not_In _ _ Hout). simpl. discriminate.
Qed.

(** A PATCH status request, on a contact message or on a feedback entry,
    whose status is a string that is not one of the kind's allowed values is
    answered 400, and the world it ran in is left as it was: the store
    (every column of every row, so status, admin notes and updated_at of the
    record) is unchanged, and nothing is logged or sent. *)
Theorem status_outside_enumeration_rejected :
  forall (k : kind) (env : environment) (req : request) (w : world) (s : string),
    assoc "status" (body req) = Some (Str s) ->
    ~ In s (allowed_statuses k) ->
    statusCode (fst (patch_status k env req w)) = 400
    /\ snd (patch_status k env req w) = w.
Proof.
  intros k env req w s Hs Hout.
  assert (H : forall chains handler,
             fst (Validator.run_chains env chains (body req)) <> [] ->
             statusCode (fst (route env chains handler req w)) = 400
             /\ snd (route env chains handler req w) = w).
  { intros chains handler Hne. rewrite (route_rejection _ _ _ _ _ Hne).
    split; reflexivity. }
  destruct k; apply H; apply (status_chain_fails _ _ _ _ _ _ s Hs Hout).
Qed.

Lemma status_outside_enumeration_rejected_witness :
  let req := Scenario.status_update "feedbackId" Scenario.feedback_identifier
               "approved" in
  assoc "status" (body req) = Some (Str "approved")
  /\ ~ In "approved" (allowed_statuses FeedbackEntry)
  /\ statusCode (fst (patch_status FeedbackEntry Sample.environment req
                        Scenario.after_feedback)) = 400
  /\ snd (patch_status FeedbackEntry Sample.environment req Scenario.after_feedback)
     = Scenario.after_feedback.
Proof.
  assert (Hout : ~ In "approved" (allowed_statuses FeedbackEntry))
    by (simpl; intros [H|[H|[H|[H|[]]]]]; discriminate).
  split; [reflexivity|]. split; [exact Hout|].
  apply (status_outside_enumeration_rejected FeedbackEntry Sample.environment _
           Scenario.after_feedback "approved"); [reflexivity | exact Hout].
Defined.

(** ** Validation failures are all reported *)

(** C8. Whatever a chain of a route's rule set reports on the request as it
    reaches that chain, the route answers 400 (never a 5xx) and the
    [errors] array of the single response holds the entry
    [{field, message, value}] of that failure: the failures of the chains
    before and after it do not hide it. *)
Theorem every_violated_field_is_reported :
  forall env before c after handler req w e,
    In e (fst (Validator.run_chain env c
                 (snd (Validator.run_chains env before (body req))))) ->
    let res := fst (route env (before ++ c :: after) handler req w) in
    statusCode res = 400
    /\ exists entries,
         jget "errors" (payload res) = Some (JArr entries)
         /\ In (JObj ([ ("field", JStr (path e)); ("message", JStr (msg e)) ]
                      ++ member "value" json_of_field (value e))) entries.
Proof.
  intros env before c after handler req w e H res.
  pose proof (run_chains_app env before c after (body req) e H) as Hin.
  assert (Hne : fst (Validator.run_chains env (before ++ c :: after) (body req)) <> []).
  { intros E. rewrite E in Hin. contradiction. }
  subst res. rewrite (route_rejection _ _ _ _ _ Hne). simpl.
  split; [reflexivity|].
  eexists. split; [reflexivity|].
  apply (in_map ErrorHandler.error_entry) in Hin. exact Hin.
Qed.

Lemma every_violated_field_is_reported_witness :
  let req := Scenario.post [ ("name", Str "X"); ("rating", Str "6");
                             ("would_recommend", Str "perhaps") ] in
  let before := firstn 7 Feedback.feedbackValidationRules in
  let c := Validator.body_ "would_recommend"
             [ Validator.check (Validator.IsIn ["yes"; "no"; "maybe"])
                 "Please specify if you would recommend our services" ] in
  let after := skipn 8 Feedback.feedbackValidationRules in
  let e := ValidationError "would_recommend"
             "Please specify if you would recommend our services"
             (Some (Str "perhaps")) in
  let res := fst (Feedback.post_feedback Sample.environment req Sample.empty_world) in
  In e (fst (Validator.run_chain Sample.environment c
               (snd (Validator.run_chains Sample.environment before (body req)))))
  /\ statusCode res = 400
  /\ exists entries,
       jget "errors" (payload res) = Some (JArr entries)
       /\ In (JObj [ ("field", JStr "would_recommend");
                     ("message",
                      JStr "Please specify if you would recommend our services");
                     ("value", JStr "perhaps") ]) entries.
Proof.
  intros req before c after e res.
  assert (H : In e (fst (Validator.run_chain Sample.environment c
                           (snd (Validator.run_chains Sample.environment before
                                   (body req))))))
    by (vm_compute; left; reflexivity).
  split; [exact H|].
  exact (every_violated_field_is_reported Sample.environment before c after
           Feedback.submit_feedback req Sample.empty_world e H).
Defined.

(** The seven violated fields of that request, in one response. *)
Example all_failures_in_one_response :
  let res := fst (Feedback.post_feedback Sample.environment
                    (Scenario.post [ ("name", Str "X"); ("rating", Str "6");
                                     ("would_recommend", Str "perhaps") ])
                    Sample.empty_world) in
  statusCode res = 400
  /\ match jget "errors" (payload res) with
     | Some (JArr entries) =>
         map (jget "field") entries
         = map (fun f => Some (JStr f))
             [ "name"; "email"; "rating"; "feedback_type"; "subject"; "message";
               "would_recommend" ]
     | _ => False
     end.
Proof. vm_compute. split; reflexivity. Qed.

(** ** Notification failures *)

Lemma agree_refl w : agree w w.
Proof. split; reflexivity. Qed.

Lemma agree_sym w1 w2 : agree w1 w2 -> agree w2 w1.
Proof. intros [? ?]; split; congruence. Qed.

Lemma agree_trans w1 w2 w3 : agree w1 w2 -> agree w2 w3 -> agree w1 w3.
Proof. intros [? ?] [? ?]; split; congruence. Qed.

Lemma independent_ret {A : Type} (a : A) : independent (ret a).
Proof. intros w1 w2 H. split; [reflexivity | exact H]. Qed.

Lemma independent_throw {A : Type} e : independent (@throw A e).
Proof. intros w1 w2 H. split; [reflexivity | exact H]. Qed.

Lemma independent_bind {A B : Type} (m : M A) (k : A -> M B) :
  independent m -> (forall a, independent (k a)) -> independent (bind m k).
Proof.
  intros Hm Hk w1 w2 H. unfold bind.
  destruct (Hm w1 w2 H) as [Hr Hw].
  destruct (m w1) as [r1 w1'], (m w2) as [r2 w2']. simpl in *. subst r2.
  destruct r1; [apply Hk; assumption | split; [reflexivity | assumption]].
Qed.

Lemma quiet_independent m : quiet m -> independent m.
Proof.
  intros Hq w1 w2 H. destruct (Hq w1) as [R1 A1], (Hq w2) as [R2 A2].
  split; [congruence|].
  eapply agree_trans; [exact A1|].
  eapply agree_trans; [exact H|]. apply agree_sym, A2.
Qed.

(** [sendEmail] touches the console only. *)
Lemma mail_only_sendEmail env m : mail_only (sendEmail env m).
Proof. intros w. split; reflexivity. Qed.

Lemma mail_only_bind {A B : Type} (m : M A) (k : A -> M B) :
  mail_only m -> (forall a, mail_only (k a)) -> mail_only (bind m k).
Proof.
  intros Hm Hk w. unfold bind. specialize (Hm w).
  destruct (m w) as [[a|e] w']; simpl in *; [|assumption].
  eapply agree_trans; [apply Hk | assumption].
Qed.

(** The [try { ... sendEmail ... } catch (emailError) { console.error }]
    blocks: whatever the transport does, the block returns. *)
Lemma quiet_try_catch (m : M unit) s :
  mail_only m -> quiet (try_catch m (fun _ => console_error s)).
Proof.
  intros Hm w. unfold try_catch. specialize (Hm w).
  destruct (m w) as [[[]|e] w']; simpl in *.
  - split; [reflexivity | assumption].
  - split; [reflexivity|]. eapply agree_trans; [|exact Hm]. split; reflexivity.
Qed.

Lemma quiet_ret : quiet (ret tt).
Proof. intros w. split; [reflexivity | apply agree_refl]. Qed.

Lemma independent_runQuery env st : independent (Database.runQuery env st).
Proof.
  intros w1 w2 [Hs He]. unfold Database.runQuery. rewrite Hs.
  destruct (Sql.exec _ st (store w2)) as [[r d]|c msg]; simpl.
  - split; [reflexivity | split; [reflexivity | exact He]].
  - split; [reflexivity | split; assumption].
Qed.

Lemma independent_getRows q : independent (Database.getRows q).
Proof.
  intros w1 w2 [Hs He]. unfold Database.getRows. rewrite Hs.
  destruct (Sql.exec_select q (store w2)); simpl;
    (split; [reflexivity | split; assumption]).
Qed.

Lemma independent_getRow q : independent (Database.getRow q).
Proof.
  unfold Database.getRow. apply independent_bind; [apply independent_getRows|].
  intros; apply independent_ret.
Qed.

Lemma independent_first_file req n : independent (Visa.first_file req n).
Proof.
  unfold Visa.first_file. destruct (assoc n (files req)) as [[|]|];
    (apply independent_ret || apply independent_throw).
Qed.

Create HintDb independence.
#[local] Hint Resolve independent_ret independent_throw independent_runQuery
  independent_getRows independent_getRow independent_first_file
  quiet_ret mail_only_sendEmail : independence.

(** Walks down a handler: binds, branches, store accesses, mail blocks. *)
Ltac independence :=
  repeat first
    [ apply independent_bind; [| intros ?]
    | apply mail_only_bind; [| intros ?]
    | solve [auto with independence]
    | apply quiet_independent
    | apply quiet_try_catch
    | match goal with
      | |- independent (match ?x with _ => _ end) => destruct x
      | |- independent (if ?x then _ else _) => destruct x
      | |- quiet (match ?x with _ => _ end) => destruct x
      end ].

Lemma independent_submit_application env req :
  independent (Visa.submit_application env req).
Proof. unfold Visa.submit_application. independence. Qed.

Lemma independent_submit_message env req :
  independent (Contact.submit_message env req).
Proof. unfold Contact.submit_message. independence. Qed.

Lemma independent_submit_feedback env req :
  independent (Feedback.submit_feedback env req).
Proof. unfold Feedback.submit_feedback. independence. Qed.

Lemma independent_subscribe env req : independent (Newsletter.subscribe env req).
Proof. unfold Newsletter.subscribe. independence. Qed.

Lemma independent_unsubscribe env req : independent (Newsletter.unsubscribe env req).
Proof. unfold Newsletter.unsubscribe. independence. Qed.

Lemma independent_contact_update env req :
  independent (Contact.update_status env req).
Proof. unfold Contact.update_status, Contact.getRow. independence. Qed.

Lemma independent_feedback_update env req :
  independent (Feedback.update_status env req).
Proof. unfold Feedback.update_status. independence. Qed.

Lemma route_independent env chains handler req :
  (forall r, independent (handler env r)) ->
  forall w1 w2, agree w1 w2 ->
    fst (route env chains handler req w1) = fst (route env chains handler req w2)
    /\ agree (snd (route env chains handler req w1))
             (snd (route env chains handler req w2)).
Proof.
  intros Hh w1 w2 H. unfold route.
  destruct (Validator.run_chains env chains (body req)) as [errors b].
  destruct (ErrorHandler.handleValidationErrors env errors).
  - split; [reflexivity | exact H].
  - unfold ErrorHandler.catchAsync.
    destruct (Hh (with_body req b) w1 w2 H) as [Hr Hw].
    destruct (handler env (with_body req b) w1) as [r1 w1'],
             (handler env (with_body req b) w2) as [r2 w2']. simpl in *. subst r2.
    destruct r1 as [r|e]; [split; [reflexivity | assumption]|].
    unfold ErrorHandler.errorHandler. simpl. split; [reflexivity|].
    destruct Hw as [Hs He]. unfold ErrorHandler.logError.
    destruct (match NODE_ENV env with
              | Some m => (m =? "production")%string
              | None => false
              end); split; simpl; congruence.
Qed.

(** A contact message whose two e-mails both fail: the message is stored,
    the answer is the 201 envelope, the console has the two lines of
    [sendEmail] and of the handler's [catch]. *)
Example message_accepted_when_mail_fails :
  let run := Contact.post_message Sample.environment
               (Scenario.post Scenario.contact_body) Sample.empty_world in
  statusCode (fst run) = 201
  /\ fst run = fst (Contact.post_message Sample.environment
                      (Scenario.post Scenario.contact_body)
                      (with_transport Sample.empty_world Sample.delivers))
  /\ List.length (Sql.table_rows Sql.contact_messages (store (snd run))) = 1%nat
  /\ console (snd run) = ["Email sending failed:"; "Email sending failed:"]
  /\ outbox (snd run) = [].
Proof. vm_compute. repeat split. Qed.

(** ** Write, then notify, then answer *)

(** The shape shared by the submission handlers: one write, a guarded block
    of e-mails, the answer.  The write decides the outcome. *)
Lemma write_then_notify {A : Type} env st (mails : M unit) s (resp : A) w :
  mail_only mails ->
  let out := (Database.runQuery env st ;;
              try_catch mails (fun _ => console_error s) ;;
              ret resp)%handler w in
  match Sql.exec (CURRENT_TIMESTAMP env) st (store w) with
  | Sql.Done (_, d') => fst out = Return resp /\ store (snd out) = d'
  | Sql.Failed c m => out = (Throw (SqliteError c m), w)
  end.
Proof.
  intros Hm out. subst out. unfold bind, Database.runQuery.
  destruct (Sql.exec (CURRENT_TIMESTAMP env) st (store w)) as [[rr d']|c m];
    [|reflexivity].
  destruct (quiet_try_catch mails s Hm
              (World d' (console w) (error_log w) (outbox w) (attempts w)
                 (transport w)))
    as [Hr [Hs _]].
  destruct (try_catch mails _ _) as [r0 w0]. simpl in Hr, Hs. subst r0.
  unfold ret. simpl. split; [reflexivity | exact Hs].
Qed.

Lemma errorHandler_sqlite env c m w :
  statusCode (fst (ErrorHandler.errorHandler env (SqliteError c m) w)) = 500
  /\ store (snd (ErrorHandler.errorHandler env (SqliteError c m) w)) = store w.
Proof.
  split; [apply errorHandler_internal; reflexivity | apply errorHandler_store].
Qed.

(** Names the write, the mail block and the answer of a handler run kept in
    [Hres], and states [write_then_notify] for them as [Hrun]. *)
Ltac write_then_notify_in Hres env w Hrun r0 w' :=
  match type of Hres with
  | _ = (let (_, _) := (Database.runQuery _ ?st ;;
                        try_catch ?mails (fun _ => console_error ?s) ;;
                        ret ?resp)%handler w in _) =>
      pose proof (write_then_notify env st mails s resp w) as Hrun;
      cbv zeta in Hrun;
      destruct ((Database.runQuery env st ;;
                 try_catch mails (fun _ => console_error s) ;;
                 ret resp)%handler w) as [r0 w']
  end.

Lemma mail_only_two env m1 m2 :
  mail_only (sendEmail env m1 ;; sendEmail env m2)%handler.
Proof.
  apply mail_only_bind; [apply mail_only_sendEmail | intros; apply mail_only_sendEmail].
Qed.

(** ** Newsletter subscriptions *)

Lemma holds_email v r :
  Sql.holds Sql.newsletter_subscriptions [("email", bound v)] r
  = Sql.eq_value (Sql.get "email" r) (bound v).
Proof.
  apply (holds_single_text _ _ (Sql.unique_not_null "email" Sql.TEXT)); reflexivity.
Qed.

(** The scenario of the specification: the first request for [a@b.com]
    inserts a row, the second finds it active and adds none. *)
Example subscribing_twice :
  let first := Newsletter.post_subscribe Sample.environment
                 (Scenario.post Scenario.subscription_body) Sample.empty_world in
  let second := Newsletter.post_subscribe Sample.environment
                  (Scenario.post Scenario.subscription_body) (snd first) in
  statusCode (fst first) = 201
  /\ data_status (fst first) = Some (JStr "subscribed")
  /\ List.length (subscriptions (snd first)) = 1%nat
  /\ statusCode (fst second) = 200
  /\ data_status (fst second) = Some (JStr "already_subscribed")
  /\ subscriptions (snd second) = subscriptions (snd first).
Proof. vm_compute. repeat split. Qed.

(** A row that is inactive is switched on again, with a new token, and
    stays the only row of its address. *)
Example subscribing_again_reactivates :
  let run := Newsletter.post_subscribe Sample.environment
               (Scenario.post Scenario.subscription_body)
               Scenario.inactive_subscription in
  statusCode (fst run) = 200
  /\ data_status (fst run) = Some (JStr "reactivated")
  /\ map (fun r => (Sql.get "id" r, Sql.get "email" r, Sql.get "is_active" r))
         (subscriptions (snd run))
     = [ (Sql.VInt 1, Sql.VText "a@b.com", Sql.VInt 1) ].
Proof. vm_compute. repeat split. Qed.

(** ** Feedback submissions *)

Lemma new_feedback_row env last b :
  Sql.new_row (CURRENT_TIMESTAMP env) last Sql.feedback
    [ ("feedback_id", Sql.VText (fresh_identifier env "FB" 6));
      ("full_name", bound (assoc "name" b));
      ("email", bound (assoc "email" b));
      ("service_rating", bound (assoc "rating" b));
      ("would_recommend", bound (assoc "would_recommend" b));
      ("feedback_title", bound (assoc "subject" b));
      ("feedback_message", bound (assoc "message" b));
      ("status", Sql.VText "pending");
      ("created_at", Sql.VText (CURRENT_TIMESTAMP env));
      ("updated_at", Sql.VText (CURRENT_TIMESTAMP env)) ]
  = stored_feedback env (last + 1)
      (assoc "name" b) (assoc "email" b) (assoc "rating" b)
      (assoc "would_recommend" b) (assoc "subject" b) (assoc "message" b).
Proof.
  unfold stored_feedback, Sql.new_row.
  cbn -[bound fresh_identifier Sql.apply_affinity].
  rewrite !affinity_text_bound. reflexivity.
Qed.

(** C10. When a feedback submission is accepted (201), the feedback table
    gains exactly one row, [stored_feedback]: identifier, name, e-mail,
    rating (as service_rating), would_recommend, subject (as
    feedback_title), message (as feedback_message), status [pending], the
    two timestamps and the column defaults.  The body members
    feedback_type, service_used, application_id and phone are not arguments
    of that row: its phone column is NULL and it has no column of the other
    three names.  Reading the record back by its identifier returns this
    row. *)
Theorem feedback_row_stores_only_listed_fields :
  forall env req w b,
    Validator.run_chains env Feedback.feedbackValidationRules (body req) = ([], b) ->
    let res := Feedback.post_feedback env req w in
    statusCode (fst res) = 201 ->
    let row :=
      stored_feedback env (Sql.last_rowid (Sql.feedback_table (store w)) + 1)
        (assoc "name" b) (assoc "email" b) (assoc "rating" b)
        (assoc "would_recommend" b) (assoc "subject" b) (assoc "message" b) in
    feedback_rows (snd res) = (feedback_rows w ++ [row])%list
    /\ (Sql.get "phone" row = Sql.VNull
        /\ assoc "feedback_type" row = None
        /\ assoc "service_used" row = None
        /\ assoc "application_id" row = None)
    /\ forall env' read,
         assoc "feedbackId" (params read) = Some (fresh_identifier env "FB" 6) ->
         fst (Feedback.get_feedback env' read (snd res))
         = Response 200
             (JObj [ ("status", JStr "success");
                     ("data", JObj [ ("feedback", json_of_row row) ]) ]).
Proof.
  intros env req w b Hvalid res H201 row.
  assert (Hres : res = Feedback.post_feedback env req w) by reflexivity.
  clearbody res.
  unfold Feedback.post_feedback in Hres.
  rewrite (route_accepted _ _ _ _ _ _ Hvalid) in Hres.
  unfold ErrorHandler.catchAsync, Feedback.submit_feedback in Hres.
  change (field_of (with_body req b)) with (fun n => assoc n b) in Hres.
  cbv beta in Hres.
  write_then_notify_in Hres env w Hrun r0 w'.
  specialize (Hrun (mail_only_two _ _ _)).
  cbn [Sql.exec] in Hrun.
  destruct (Sql.exec_insert _ _ _ _) as [[rr d']|c m] eqn:Hexec.
  2:{ injection Hrun as -> ->. subst res.
      destruct (errorHandler_sqlite env c m w) as [Hc _].
      rewrite Hc in H201. discriminate. }
  cbn [fst snd] in Hrun. destruct Hrun as [-> Hstore].
  apply exec_insert_done in Hexec. cbv zeta in Hexec.
  destruct Hexec as [Hrows [_ [_ Huniq]]].
  rewrite new_feedback_row in Hrows, Huniq.
  change (stored_feedback env _ _ _ _ _ _ _) with row in Hrows, Huniq.
  subst res. cbn [fst snd]. unfold feedback_rows. rewrite Hstore, Hrows.
  split; [reflexivity|]. split; [repeat split; reflexivity|].
  intros env' read Hid.
  unfold Feedback.get_feedback, plain_route, ErrorHandler.catchAsync,
    Feedback.read_feedback.
  rewrite Hid. unfold bind. rewrite getRow_star by reflexivity.
  cbn [store]. rewrite Hstore, Hrows.
  rewrite (find_ext _ (fun r => Sql.eq_value (Sql.get "feedback_id" r)
                                  (Sql.VText (fresh_identifier env "FB" 6))))
    by (intros;
        apply (holds_single_param _ _ (Sql.unique_not_null "feedback_id" Sql.TEXT));
        reflexivity).
  rewrite find_app_skip.
  - match goal with |- context [find ?p [row]] =>
      assert (Hp : find p [row] = Some row)
    end.
    { cbn [find].
      change (Sql.get "feedback_id" row)
        with (Sql.VText (fresh_identifier env "FB" 6)).
      unfold Sql.eq_value. now rewrite String.eqb_refl. }
    rewrite Hp. reflexivity.
  - intros x Hx.
    apply (unique_violation_none _ _ _
             (Sql.unique_not_null "feedback_id" Sql.TEXT) x Huniq);
      [simpl; tauto | reflexivity | exact Hx].
Qed.

Lemma feedback_row_stores_only_listed_fields_witness :
  let env := Sample.environment in
  let req := Scenario.post (Scenario.feedback_body "5" "yes") in
  let b := snd (Validator.run_chains env Feedback.feedbackValidationRules (body req)) in
  let res := Feedback.post_feedback env req Sample.empty_world in
  Validator.run_chains env Feedback.feedbackValidationRules (body req) = ([], b)
  /\ statusCode (fst res) = 201
  /\ feedback_rows (snd res)
     = [ [ ("id", Sql.VInt 1);
           ("feedback_id", Sql.VText "FB-1748736000000-K3J9X2");
           ("full_name", Sql.VText "Amina Yusuf");
           ("email", Sql.VText "amina@example.com");
           ("phone", Sql.VNull);
           ("visa_type", Sql.VNull);
           ("service_rating", Sql.VInt 5);
           ("would_recommend", Sql.VText "yes");
           ("feedback_title", Sql.VText "Quick and clear");
           ("feedback_message",
            Sql.VText "The consultation answered every question.");
           ("aspects_impressed", Sql.VNull);
           ("allow_public_display", Sql.VInt 0);
           ("allow_contact", Sql.VInt 0);
           ("status", Sql.VText "pending");
           ("is_featured", Sql.VInt 0);
           ("created_at", Sql.VText "2025-06-01 00:00:00");
           ("updated_at", Sql.VText "2025-06-01 00:00:00") ] ].
Proof.
  intros env req b res.
  assert (Hvalid : Validator.run_chains env Feedback.feedbackValidationRules
                     (body req) = ([], b)) by reflexivity.
  assert (H201 : statusCode (fst res) = 201) by reflexivity.
  split; [exact Hvalid|]. split; [exact H201|].
  destruct (feedback_row_stores_only_listed_fields env req Sample.empty_world b
              Hvalid H201) as [Hrows _].
  unfold res. rewrite Hrows. reflexivity.
Defined.

(** ** Handlers that cannot complete

    [routes/contact.js] calls [getRow] without importing it;
    [routes/feedback.js] and [routes/newsletter.js] name columns their
    tables do not have.  Each such handler throws before it writes, and the
    error middleware answers 500. *)

Lemma route_accepted_errors env chains handler req w :
  fst (Validator.run_chains env chains (body req)) = [] ->
  route env chains handler req w
  = ErrorHandler.catchAsync env
      (handler env (with_body req (snd (Validator.run_chains env chains (body req))))) w.
Proof.
  intros H. destruct (Validator.run_chains env chains (body req)) as [errors b] eqn:E.
  simpl in H. subst errors. now rewrite (route_accepted _ _ _ _ _ _ E).
Qed.

Lemma catchAsync_throw env m e w w' :
  m w = (Throw e, w') ->
  ErrorHandler.status_code e = 500 ->
  statusCode (fst (ErrorHandler.catchAsync env m w)) = 500
  /\ store (snd (ErrorHandler.catchAsync env m w)) = store w'.
Proof.
  intros H Hc. unfold ErrorHandler.catchAsync. rewrite H.
  split; [now apply errorHandler_internal | apply errorHandler_store].
Qed.

Lemma contact_status_update_throws env req w :
  Contact.update_status env req w = (Throw (ReferenceError "getRow is not defined"), w).
Proof. reflexivity. Qed.

Lemma contact_status_update_always_fails env req w :
  fst (Validator.run_chains env Contact.statusValidationRules (body req)) = [] ->
  statusCode (fst (Contact.patch_status env req w)) = 500
  /\ store (snd (Contact.patch_status env req w)) = store w.
Proof.
  intros H. unfold Contact.patch_status. rewrite (route_accepted_errors _ _ _ _ _ H).
  apply (catchAsync_throw _ _ _ _ _ (contact_status_update_throws _ _ _)). reflexivity.
Qed.

Lemma feedback_status_update_outcome env req w :
  Feedback.update_status env req w
  = match feedback_of (assoc "feedbackId" (params req)) w with
    | Some _ => (Throw (SqliteError "SQLITE_ERROR" "no such column: admin_notes"), w)
    | None => (Throw (AppError "Feedback not found" 404 (Some "FEEDBACK_NOT_FOUND")), w)
    end.
Proof.
  unfold Feedback.update_status. unfold bind at 1.
  rewrite getRow_star by reflexivity.
  rewrite (find_ext _ (fun r => Sql.eq_value (Sql.get "feedback_id" r)
                                  (bound_param (assoc "feedbackId" (params req)))))
    by (intros;
        apply (holds_single_param _ _ (Sql.unique_not_null "feedback_id" Sql.TEXT));
        reflexivity).
  fold (feedback_rows w). fold (feedback_of (assoc "feedbackId" (params req)) w).
  destruct (feedback_of _ w); [|reflexivity].
  unfold bind at 1. unfold Database.runQuery. cbn [Sql.exec].
  rewrite (exec_update_unknown_column _ _ _ _ "admin_notes") by reflexivity.
  reflexivity.
Qed.

Lemma feedback_status_update_fails env req w r :
  fst (Validator.run_chains env Feedback.statusValidationRules (body req)) = [] ->
  feedback_of (assoc "feedbackId" (params req)) w = Some r ->
  statusCode (fst (Feedback.patch_status env req w)) = 500
  /\ store (snd (Feedback.patch_status env req w)) = store w.
Proof.
  intros H Hr. unfold Feedback.patch_status. rewrite (route_accepted_errors _ _ _ _ _ H).
  eapply catchAsync_throw.
  - rewrite feedback_status_update_outcome. cbn [params with_body]. rewrite Hr. reflexivity.
  - reflexivity.
Qed.

Lemma feedback_status_update_unknown env req w :
  fst (Validator.run_chains env Feedback.statusValidationRules (body req)) = [] ->
  feedback_of (assoc "feedbackId" (params req)) w = None ->
  statusCode (fst (Feedback.patch_status env req w)) = 404
  /\ store (snd (Feedback.patch_status env req w)) = store w.
Proof.
  intros H Hr. unfold Feedback.patch_status. rewrite (route_accepted_errors _ _ _ _ _ H).
  unfold ErrorHandler.catchAsync. rewrite feedback_status_update_outcome.
  cbn [params with_body]. rewrite Hr.
  split; [|apply errorHandler_store].
  unfold ErrorHandler.errorHandler. simpl.
  destruct (match NODE_ENV env with Some m => (m =? "development")%string | None => false end);
    reflexivity.
Qed.

Lemma unsubscribe_throws env req w :
  Newsletter.unsubscribe env req w
  = (Throw (SqliteError "SQLITE_ERROR" "no such column: status"), w).
Proof. reflexivity. Qed.

Lemma unsubscribe_always_fails env req w :
  fst (Validator.run_chains env Newsletter.unsubscribeValidationRules (body req)) = [] ->
  statusCode (fst (Newsletter.post_unsubscribe env req w)) = 500
  /\ store (snd (Newsletter.post_unsubscribe env req w)) = store w.
Proof.
  intros H. unfold Newsletter.post_unsubscribe. rewrite (route_accepted_errors _ _ _ _ _ H).
  apply (catchAsync_throw _ _ _ _ _ (unsubscribe_throws _ _ _)). reflexivity.
Qed.

Lemma feedback_listing_throws env req w :
  Feedback.list_feedback env req w
  = (Throw (SqliteError "SQLITE_ERROR" "no such column: name"), w).
Proof. reflexivity. Qed.

Lemma contact_listing_throws env req w :
  exists e, Contact.list_messages env req w = (Throw e, w)
            /\ ErrorHandler.status_code e = 500.
Proof.
  unfold Contact.list_messages. unfold bind at 1. unfold Database.getRows.
  destruct (Sql.exec_select _ _).
  - eexists. split; reflexivity.
  - eexists. split; reflexivity.
Qed.

(** C2. A status update with an allowed status on a stored record is not
    answered 200 and does not change the record.  The contact message
    [CONTACT-1748736000000-K3J9X2] is stored with status [new]; the request
    to set it to [resolved] is answered 500 and the status stays [new]
    (the handler's first statement calls [getRow], which [routes/contact.js]
    never imports), and a request for an identifier that is not stored is
    answered 500 as well, not 404.  The feedback entry
    [FB-1748736000000-K3J9X2] is stored with status [pending]; the request
    to set it to [reviewed] is answered 500 and the status stays [pending]
    (the UPDATE names [admin_notes], a column the feedback table does not
    have).  Only the 404 for an unknown feedback identifier is as
    described. *)
Theorem status_update_of_stored_record_fails :
  let env := Sample.environment in
  let resolve := Scenario.status_update "contactId" Scenario.message_identifier
                   "resolved" in
  let resolve_unknown := Scenario.status_update "contactId" "CONTACT-1-A" "resolved" in
  let review := Scenario.status_update "feedbackId" Scenario.feedback_identifier
                  "reviewed" in
  let review_unknown := Scenario.status_update "feedbackId" "FB-1-A" "reviewed" in
  (In "resolved" (allowed_statuses ContactMessage)
   /\ column "message_id" (message_rows Scenario.after_message)
      = [Sql.VText Scenario.message_identifier]
   /\ statusCode (fst (patch_status ContactMessage env resolve Scenario.after_message))
      = 500
   /\ column "status"
        (message_rows
           (snd (patch_status ContactMessage env resolve Scenario.after_message)))
      = [Sql.VText "new"]
   /\ statusCode
        (fst (patch_status ContactMessage env resolve_unknown Scenario.after_message))
      = 500)
  /\ (In "reviewed" (allowed_statuses FeedbackEntry)
      /\ column "feedback_id" (feedback_rows Scenario.after_feedback)
         = [Sql.VText Scenario.feedback_identifier]
      /\ statusCode (fst (patch_status FeedbackEntry env review Scenario.after_feedback))
         = 500
      /\ column "status"
           (feedback_rows
              (snd (patch_status FeedbackEntry env review Scenario.after_feedback)))
         = [Sql.VText "pending"]
      /\ statusCode
           (fst (patch_status FeedbackEntry env review_unknown Scenario.after_feedback))
         = 404).
Proof.
  cbv zeta. split.
  - split; [simpl; tauto|]. repeat split; vm_compute; reflexivity.
  - split; [simpl; tauto|]. repeat split; vm_compute; reflexivity.
Qed.

(** C3. Unsubscribing with the token of an active subscription is not
    answered 200 and deactivates nothing: the handler's first query selects
    on [status], a column [newsletter_subscriptions] does not have (the
    table, and the subscribe handler, use [is_active]).  The request is
    answered 500 and the row is as before, still active. *)
Theorem unsubscribe_with_active_token_fails :
  let env := Sample.environment in
  let token := "9f86d081884c7d659a2feaa0c55ad015a3bf4f1b2b0b822cd15d6c15b0f00a08" in
  let req := Scenario.post [ ("token", Str token) ] in
  let res := Newsletter.post_unsubscribe env req Scenario.after_subscription in
  map (fun r => (Sql.get "unsubscribe_token" r, Sql.get "is_active" r))
      (subscriptions Scenario.after_subscription)
  = [ (Sql.VText token, Sql.VInt 1) ]
  /\ fst (Validator.run_chains env Newsletter.unsubscribeValidationRules (body req)) = []
  /\ statusCode (fst res) = 500
  /\ jget "status" (payload (fst res)) = Some (JStr "error")
  /\ subscriptions (snd res) = subscriptions Scenario.after_subscription
  /\ column "is_active" (subscriptions (snd res)) = [Sql.VInt 1].
Proof. cbv zeta. repeat split; vm_compute; reflexivity. Qed.

(** ** Lists with a status filter and pagination *)

(** [parseInt] reads back what [toString] wrote. *)

Lemma to_int_not_nil z :
  Z.to_int z <> Decimal.Pos Decimal.Nil /\ Z.to_int z <> Decimal.Neg Decimal.Nil.
Proof.
  destruct z; simpl; split; try discriminate; intros [= H];
    apply (Unsigned.to_uint_nonnil _ H).
Qed.

Lemma parse_int_number_toString z : Js.parse_int (Js.number_toString z) = Some z.
Proof.
  unfold Js.number_toString, Js.parse_int.
  destruct (to_int_not_nil z) as [Hp Hn].
  pose proof (NilZero.isi (Z.to_int z) Hp Hn) as H.
  destruct (NilZero.string_of_int (Z.to_int z)) as [|a s] eqn:E.
  - simpl in H. discriminate.
  - assert (Ha : a <> "+"%char).
    { intros ->. simpl in H. destruct (NilEmpty.uint_of_string s); discriminate. }
    assert (G : option_map Z.of_int (NilZero.int_of_string (String a s)) = Some z).
    { rewrite H. simpl. now rewrite DecimalZ.of_to. }
    destruct a as [[] [] [] [] [] [] [] []]; try exact G. now elim Ha.
Qed.

Lemma in_insert_by le r l x : In x (Sql.insert_by le r l) -> x = r \/ In x l.
Proof.
  induction l as [|y l IH]; simpl.
  - intros [H|[]]; auto.
  - destruct (le r y); simpl.
    + intros [H|[H|H]]; auto.
    + intros [H|H]; auto. destruct (IH H); auto.
Qed.

Lemma in_order_rows o l x : In x (Sql.order_rows o l) -> In x l.
Proof.
  unfold Sql.order_rows. destruct o as [[c dir]|]; [|auto].
  induction l as [|y l IH]; simpl; [auto|].
  intros H. apply in_insert_by in H. destruct H; auto.
Qed.

Lemma in_firstn {A} n (l : list A) x : In x (firstn n l) -> In x l.
Proof.
  revert l. induction n as [|n IH]; intros [|y l]; simpl; try tauto.
  intros [H|H]; auto.
Qed.

Lemma in_skipn {A} n (l : list A) x : In x (skipn n l) -> In x l.
Proof.
  revert l. induction n as [|n IH]; intros [|y l]; simpl; try tauto.
  intros H. right. now apply IH.
Qed.

Lemma in_window {A} n m (l : list A) x : In x (Sql.window n m l) -> In x l.
Proof.
  unfold Sql.window. intros H.
  destruct (n <? 0).
  - now apply in_skipn in H.
  - now apply in_firstn, in_skipn in H.
Qed.

Lemma length_window {A} n m (l : list A) :
  0 <= n -> Z.of_nat (List.length (Sql.window n m l)) <= n.
Proof.
  intros Hn. unfold Sql.window.
  destruct (n <? 0) eqn:E; [apply Z.ltb_lt in E; lia|].
  rewrite length_firstn. lia.
Qed.

Lemma ceil_div_spec total limit :
  0 < limit ->
  exists pages, Js.ceil_div total (Some limit) = Some pages
                /\ (pages - 1) * limit < total <= pages * limit.
Proof.
  intros H. unfold Js.ceil_div.
  destruct (limit =? 0) eqn:E; [apply Z.eqb_eq in E; lia|].
  eexists. split; [reflexivity|].
  pose proof (Z.div_mod (- total) limit ltac:(lia)) as Hd.
  pose proof (Z.mod_pos_bound (- total) limit H) as Hm.
  nia.
Qed.

Lemma unknown_column_app t a b :
  Sql.unknown_column t (a ++ b)
  = match Sql.unknown_column t a with
    | Some c => Some c
    | None => Sql.unknown_column t b
    end.
Proof.
  unfold Sql.unknown_column. induction a as [|x a IH]; simpl; [reflexivity|].
  destruct (negb (Sql.has_column t x)); [reflexivity | exact IH].
Qed.

Lemma exec_select_page cols t conds c dir n m d :
  Sql.unknown_column t (map fst cols) = None ->
  Sql.unknown_column t (map fst conds) = None ->
  Sql.has_column t c = true ->
  Sql.exec_select
    (Sql.Select (Sql.Columns cols) t conds (Some (c, dir)) (Some (Some n, Some m))) d
  = Sql.Done
      (Sql.window n m
         (map (Sql.project (Sql.Columns cols))
            (Sql.order_rows (Some (c, dir))
               (filter (Sql.holds t conds) (Sql.table_rows t d))))).
Proof.
  intros H1 H2 H3. unfold Sql.exec_select. cbn [Sql.sel_from Sql.sel_what Sql.sel_where
    Sql.sel_order_by Sql.sel_limit Sql.projected_columns].
  rewrite !unknown_column_app, H1, H2.
  unfold Sql.unknown_column. simpl find. rewrite H3. reflexivity.
Qed.

Lemma exec_select_count key t conds d :
  Sql.unknown_column t (map fst conds) = None ->
  Sql.exec_select (Sql.Select (Sql.CountStar key) t conds None None) d
  = Sql.Done
      [[(key, Sql.VInt (Z.of_nat (List.length
                                    (filter (Sql.holds t conds) (Sql.table_rows t d)))))]].
Proof.
  intros H. unfold Sql.exec_select. simpl. rewrite app_nil_r, H. reflexivity.
Qed.

(** [parseInt] reads back what [toString] wrote of a number that is not
    negative and is held exactly. *)

Lemma digits_value_from d : forall acc l,
  fold_left
    (fun acc c => 10 * acc + match Js.digit_value c with Some v => v | None => 0 end)
    (Js.chars (NilEmpty.string_of_uint d) ++ l) (Z.pos acc)
  = fold_left
      (fun acc c => 10 * acc + match Js.digit_value c with Some v => v | None => 0 end)
      l (Z.pos (Pos.of_uint_acc d acc)).
Proof.
  induction d; intros acc l; cbn [NilEmpty.string_of_uint Pos.of_uint_acc];
    try reflexivity;
    unfold Js.chars in *; cbn [list_ascii_of_string fold_left app];
    match goal with
    | |- context [Js.digit_value ?c] =>
        let v := eval vm_compute in (Js.digit_value c) in
        change (Js.digit_value c) with v
    end; cbv iota;
    rewrite <- IHd; f_equal; lia.
Qed.

Lemma digits_value_uint d :
  Js.digits_value 10 (Js.chars (NilEmpty.string_of_uint d)) = Z.of_N (Pos.of_uint d).
Proof.
  unfold Js.digits_value.
  induction d; cbn [NilEmpty.string_of_uint Pos.of_uint]; try reflexivity;
    [ unfold Js.chars in *; cbn [list_ascii_of_string fold_left]; exact IHd | .. ];
    (rewrite <- (app_nil_r (Js.chars _));
     unfold Js.chars; cbn [list_ascii_of_string fold_left app];
     match goal with
     | |- context [Js.digit_value ?c] =>
         let v := eval vm_compute in (Js.digit_value c) in
         change (Js.digit_value c) with v
     end; cbv iota;
     match goal with
     | |- fold_left _ _ ?z = _ =>
         let p := eval vm_compute in (Z.to_pos z) in
         change z with (Z.pos p)
     end;
     fold (Js.chars (NilEmpty.string_of_uint d));
     rewrite digits_value_from; reflexivity).
Qed.

Lemma chars_str l : Js.chars (Js.str l) = l.
Proof. apply list_ascii_of_string_of_list_ascii. Qed.

Lemma digits_of_uint d : forallb Js.is_digit (Js.chars (NilEmpty.string_of_uint d)) = true.
Proof. induction d; simpl; try reflexivity; exact IHd. Qed.

Lemma forallb_weaken {A : Type} (p q : A -> bool) l :
  (forall x, p x = true -> q x = true) -> forallb p l = true -> forallb q l = true.
Proof.
  intros H. induction l as [|x l IH]; simpl; [reflexivity|].
  intros Hl. apply andb_true_iff in Hl. destruct Hl as [Hx Hl].
  now rewrite (H x Hx), IH.
Qed.

Lemma digit_in_radix_10 c : Js.is_digit c = true -> Js.radix_digit 10 c = true.
Proof.
  intros H. unfold Js.radix_digit, Js.digit_value. rewrite H.
  unfold Js.is_digit, Js.between in H. apply andb_prop in H. destruct H as [_ H].
  apply Z.leb_le in H. apply Z.ltb_lt. lia.
Qed.

Lemma take_while_all p l : forallb p l = true -> Js.take_while p l = l.
Proof.
  induction l as [|c l IH]; [reflexivity|]. cbn [forallb Js.take_while].
  intros H. apply andb_prop in H. destruct H as [Hc Hl]. rewrite Hc, IH by assumption.
  reflexivity.
Qed.

Lemma parseInt_digit_string l :
  l <> [] -> forallb Js.is_digit l = true ->
  Js.parseInt (Js.str l) = Js.double_of_Z (Js.digits_value 10 l).
Proof.
  intros Hne Hall. unfold Js.parseInt. rewrite chars_str.
  assert (Htake : Js.take_while (Js.radix_digit 10) l = l).
  { apply take_while_all. eapply forallb_weaken; [|exact Hall].
    intros c. apply digit_in_radix_10. }
  destruct l as [|c rest]; [congruence|].
  cbn [forallb] in Hall. apply andb_prop in Hall. destruct Hall as [Hc Hrest].
  destruct c as [[] [] [] [] [] [] [] []]; try discriminate Hc;
    cbn [Js.drop_while]; change (Js.is_space _) with false; cbv iota; cbn [fst snd];
    try (rewrite Htake, Z.mul_1_l; reflexivity).
  destruct rest as [|c2 rest2]; [reflexivity|].
  cbn [forallb] in Hrest. apply andb_prop in Hrest. destruct Hrest as [Hc2 _].
  destruct c2 as [[] [] [] [] [] [] [] []]; try discriminate Hc2;
    cbn [fst snd]; rewrite Htake, Z.mul_1_l; reflexivity.
Qed.

Lemma parseInt_number_toString z :
  0 <= z < 2 ^ 53 -> Js.parseInt (Js.number_toString z) = Some z.
Proof.
  intros Hz. unfold Js.number_toString.
  destruct z as [|p|p]; [reflexivity | | lia].
  cbn [Z.to_int NilZero.string_of_int]. unfold NilZero.string_of_uint.
  pose proof (DecimalPos.Unsigned.to_uint_nonnil p) as Hn.
  pose proof (DecimalPos.Unsigned.of_to p) as Hp.
  assert (E : Js.parseInt (NilEmpty.string_of_uint (Pos.to_uint p)) = Some (Z.pos p)).
  { rewrite <- (string_of_list_ascii_of_string (NilEmpty.string_of_uint (Pos.to_uint p))).
    change (string_of_list_ascii (list_ascii_of_string ?s)) with (Js.str (Js.chars s)).
    rewrite parseInt_digit_string.
    - rewrite digits_value_uint, Hp. unfold Js.double_of_Z.
      change (Z.of_N (N.pos p)) with (Z.pos p).
      replace (Z.abs (Z.pos p) <? 2 ^ 53) with true; [reflexivity|].
      symmetry. apply Z.ltb_lt. simpl Z.abs. lia.
    - destruct (Pos.to_uint p); [contradiction | ..]; discriminate.
    - apply digits_of_uint. }
  destruct (Pos.to_uint p); [contradiction | ..]; exact E.
Qed.

(** X1.  The list handler of [routes/visa.js], whose query names columns the
    table has, asked for a page and a limit written as integers, both at
    least 1 and, with the offset and the number of stored applications,
    below [2 ^ 53] (where the doubles of JavaScript are exact): a page of at
    most [limit] records, each with the filtered status, the number of
    matching records, and the number of pages that many records fill. *)
Theorem visa_listing_is_a_filtered_page :
  forall env req w status page limit,
    assoc "status" (query req) = Some status -> status <> "" ->
    assoc "page" (query req) = Some (Js.number_toString page) ->
    assoc "limit" (query req) = Some (Js.number_toString limit) ->
    1 <= page < 2 ^ 53 -> 1 <= limit < 2 ^ 53 -> (page - 1) * limit < 2 ^ 53 ->
    Z.of_nat (List.length (visa_rows w)) < 2 ^ 53 ->
    exists records total pages,
      fst (Visa.get_applications env req w)
      = Response 200
          (JObj [ ("status", JStr "success");
                  ("data",
                   JObj [ ("applications", JArr (map json_of_row records));
                          ("pagination",
                           JObj [ ("current_page", JNum page);
                                  ("per_page", JNum limit);
                                  ("total", JNum total);
                                  ("total_pages", JNum pages) ]) ]) ])
      /\ Z.of_nat (List.length records) <= limit
      /\ Forall (fun r => Sql.get "status" r = Sql.VText status) records
      /\ total = Z.of_nat (List.length
                             (filter (Sql.holds Sql.visa_applications (visa_filters req))
                                (visa_rows w)))
      /\ (pages - 1) * limit < total <= pages * limit.
Proof.
  intros env req w status page limit Hs Hne Hp Hl Hpage Hlimit Hoffset Hrows.
  unfold Visa.get_applications, plain_route, ErrorHandler.catchAsync, Visa.list_applications.
  fold (visa_filters req).
  assert (Hpaging : paging_of req 20
                    = Paging (Some page) (Some limit) (Some ((page - 1) * limit)) (Some limit)).
  { unfold paging_of. rewrite Hp, Hl. unfold Js.Number.
    rewrite !parse_int_number_toString, !parseInt_number_toString by lia.
    reflexivity. }
  rewrite Hpaging. cbn [per_page offset].
  assert (Hcols : exists rest, visa_filters req = ("status", Sql.VText status) :: rest
                  /\ Sql.unknown_column Sql.visa_applications (map fst rest) = None).
  { unfold visa_filters, filter_on. rewrite Hs.
    assert (Ht : Js.truthy status = true).
    { unfold Js.truthy. apply negb_true_iff, String.eqb_neq. exact Hne. }
    rewrite Ht. destruct (assoc "visa_type" (query req)) as [v|].
    - destruct (Js.truthy v); eexists; split; reflexivity.
    - eexists; split; reflexivity. }
  destruct Hcols as [rest [Hfilters Hrest]].
  assert (Hconds : Sql.unknown_column Sql.visa_applications (map fst (visa_filters req)) = None).
  { rewrite Hfilters. change (map fst (("status", Sql.VText status) :: rest))
      with (["status"] ++ map fst rest)%list.
    rewrite unknown_column_app. exact Hrest. }
  unfold bind, Database.getRow, Database.getRows, bind.
  rewrite exec_select_page by (reflexivity || exact Hconds).
  rewrite exec_select_count by exact Hconds.
  cbn [hd_error ret fst snd]. unfold ret. cbn [fst].
  destruct (ceil_div_spec
              (Z.of_nat (List.length (filter (Sql.holds Sql.visa_applications (visa_filters req))
                                        (Sql.table_rows Sql.visa_applications (store w)))))
              limit ltac:(lia)) as [pages [Hceil Hpages]].
  eexists _, _, pages. split.
  { unfold pagination. cbn [page_number per_page limit_number json_of_number json_or_null].
    change (Sql.get "total" [("total", ?v)]) with v. cbn [json_of_value].
    rewrite Hceil. reflexivity. }
  split; [apply length_window; lia|].
  split; [|split; [reflexivity | exact Hpages]].
  apply Forall_forall. intros r Hr.
  apply in_window in Hr. apply in_map_iff in Hr. destruct Hr as [x [<- Hx]].
  apply in_order_rows in Hx. apply filter_In in Hx. destruct Hx as [_ Hx].
  rewrite Hfilters in Hx. unfold Sql.holds in Hx. cbn [forallb] in Hx.
  apply andb_true_iff in Hx. destruct Hx as [Hx _].
  change (Sql.find_column Sql.visa_applications "status")
    with (Some (Sql.with_default "status" Sql.TEXT (Sql.DefaultText "pending"))) in Hx.
  cbn [Sql.col_type Sql.with_default Sql.apply_affinity] in Hx.
  apply eq_value_true in Hx. destruct Hx as [Hx _].
  change (Sql.get "status" (Sql.project _ x)) with (Sql.get "status" x).
  exact Hx.
Qed.

Lemma visa_listing_is_a_filtered_page_witness :
  let env := Sample.environment in
  let req := Scenario.listing "pending" "1" "10" in
  let w := snd (Visa.post_application env (Scenario.visa_application "5")
                  Sample.empty_world) in
  assoc "status" (query req) = Some "pending"
  /\ assoc "page" (query req) = Some (Js.number_toString 1)
  /\ assoc "limit" (query req) = Some (Js.number_toString 10)
  /\ (1 - 1) * 10 < 2 ^ 53
  /\ Z.of_nat (List.length (visa_rows w)) < 2 ^ 53
  /\ exists records total pages,
       data_member "applications" (fst (Visa.get_applications env req w))
       = Some (JArr (map json_of_row records))
       /\ Z.of_nat (List.length records) <= 10
       /\ Forall (fun r => Sql.get "status" r = Sql.VText "pending") records
       /\ (pages - 1) * 10 < total <= pages * 10.
Proof.
  intros env req w.
  split; [reflexivity|]. split; [reflexivity|]. split; [reflexivity|].
  split; [reflexivity|]. split; [reflexivity|].
  destruct (visa_listing_is_a_filtered_page env req w "pending" 1 10)
    as [records [total [pages [Hres [Hlen [Hall [_ Hpages]]]]]]];
    try reflexivity; try discriminate; try (split; [discriminate | reflexivity]).
  exists records, total, pages. rewrite Hres. repeat split; assumption || apply Hpages.
Defined.

Example visa_listing_page :
  let submitted :=
    snd (Visa.post_application Sample.environment (Scenario.visa_application "5")
           Sample.empty_world) in
  let res := fst (Visa.get_applications Sample.environment
                    (Scenario.listing "pending" "1" "10") submitted) in
  statusCode res = 200
  /\ match data_member "applications" res with
     | Some (JArr records) => map (jget "status") records = [Some (JStr "pending")]
     | _ => False
     end
  /\ data_member "pagination" res
     = Some (JObj [ ("current_page", JNum 1); ("per_page", JNum 10);
                    ("total", JNum 1); ("total_pages", JNum 1) ]).
Proof. vm_compute. repeat split. Qed.

(** C6. The feedback list and the contact-message list, asked for
    [status=approved&page=2&limit=10] (or for anything else), return no
    page: both are answered 500.  The feedback query selects [name],
    [service_used], [rating], [feedback_type] and [subject], none of which
    is a column of the feedback table, so [getRows] rejects the statement;
    the contact query is sound but the count that follows calls [getRow],
    which [routes/contact.js] never imports.  This holds on stores that
    have records of the filtered status too. *)
Theorem filtered_listing_fails :
  let env := Sample.environment in
  (forall req w,
     Feedback.list_feedback env req w
     = (Throw (SqliteError "SQLITE_ERROR" "no such column: name"), w))
  /\ (forall req w,
        exists e, Contact.list_messages env req w = (Throw e, w)
                  /\ ErrorHandler.status_code e = 500)
  /\ statusCode (fst (Feedback.get_feedback_list env
                        (Scenario.listing "approved" "2" "10") Scenario.after_feedback))
     = 500
  /\ statusCode (fst (Contact.get_messages env
                        (Scenario.listing "approved" "2" "10") Scenario.after_message))
     = 500
  /\ column "status" (feedback_rows Scenario.after_feedback) = [Sql.VText "pending"]
  /\ statusCode (fst (Feedback.get_feedback_list env
                        (Scenario.listing "pending" "1" "10") Scenario.after_feedback))
     = 500
  /\ column "status" (message_rows Scenario.after_message) = [Sql.VText "new"]
  /\ statusCode (fst (Contact.get_messages env
                        (Scenario.listing "new" "1" "10") Scenario.after_message))
     = 500.
Proof.
  cbv zeta. split; [reflexivity|]. split.
  - intros req w. unfold Contact.list_messages. unfold bind at 1.
    unfold Database.getRows.
    destruct (Sql.exec_select _ _); eexists; split; reflexivity.
  - repeat split; vm_compute; reflexivity.
Qed.

(** ** Identifiers *)


Lemma chars_app a b : Js.chars (a ++ b) = (Js.chars a ++ Js.chars b)%list.
Proof. unfold Js.chars. induction a as [|c a IH]; simpl; [reflexivity | now rewrite IH]. Qed.

Lemma strip_prefix_app p l : Patterns.strip_prefix p (p ++ l) = Some l.
Proof.
  induction p as [|a p IH]; simpl; [reflexivity|]. now rewrite Ascii.eqb_refl.
Qed.

Lemma span_app p l c rest :
  forallb p l = true -> p c = false ->
  Patterns.span p (l ++ c :: rest) = (l, c :: rest).
Proof.
  intros Hl Hc. induction l as [|a l IH]; simpl.
  - now rewrite Hc.
  - simpl in Hl. apply andb_true_iff in Hl. destruct Hl as [Ha Hl].
    rewrite Ha, (IH Hl). reflexivity.
Qed.

Lemma digits_of_number z :
  0 <= z ->
  forallb Js.is_digit (Js.chars (Js.number_toString z)) = true
  /\ Js.chars (Js.number_toString z) <> [].
Proof.
  intros Hz. unfold Js.number_toString.
  destruct z as [|p|p]; [split; [reflexivity | discriminate] | | lia].
  simpl. unfold NilZero.string_of_uint.
  destruct (Pos.to_uint p) eqn:E;
    [now elim (Unsigned.to_uint_nonnil p) | ..];
    (split; [apply digits_of_uint | simpl; discriminate]).
Qed.

Lemma substring_all p n m s :
  forallb p (Js.chars s) = true -> forallb p (Js.chars (String.substring n m s)) = true.
Proof.
  revert n m. induction s as [|c s IH]; intros n m H.
  - destruct n, m; reflexivity.
  - simpl in H. apply andb_true_iff in H. destruct H as [Hc Hs].
    destruct n as [|n]; [destruct m as [|m]|]; simpl.
    + reflexivity.
    + unfold Js.chars in *. simpl. rewrite Hc. now apply IH.
    + now apply IH.
Qed.

Lemma upper_base36 c :
  is_base36 c = true -> Patterns.is_upper_alnum (Js.upper_char c) = true.
Proof.
  destruct c as [[] [] [] [] [] [] [] []]; vm_compute; intros H;
    (reflexivity || discriminate H).
Qed.

Lemma forallb_map_implies {A} (p q : A -> bool) (f : A -> A) l :
  (forall x, p x = true -> q (f x) = true) ->
  forallb p l = true -> forallb q (map f l) = true.
Proof.
  intros H. induction l as [|x l IH]; simpl; [reflexivity|].
  intros Hl. apply andb_true_iff in Hl. destruct Hl as [Hx Hl].
  now rewrite (H x Hx), (IH Hl).
Qed.

Lemma identifier_suffix r n :
  has_fraction r = true -> (0 < n)%nat ->
  let suffix := Js.chars (Js.toUpperCase (Js.substr 2 n r)) in
  suffix <> [] /\ forallb Patterns.is_upper_alnum suffix = true.
Proof.
  intros H Hn suffix. subst suffix. unfold Js.toUpperCase. rewrite chars_str.
  unfold has_fraction, Js.chars in H.
  destruct r as [|z [|p [|c s]]]; try discriminate H.
  simpl list_ascii_of_string in H.
  apply andb_true_iff in H. destruct H as [_ H].
  destruct n as [|n]; [lia|].
  unfold Js.substr.
  change (String.substring 2 (S n) (String z (String p (String c s))))
    with (String.substring 0 (S n) (String c s)).
  split.
  - simpl. discriminate.
  - apply (forallb_map_implies is_base36); [apply upper_base36|].
    apply substring_all. exact H.
Qed.

(** X5.  An identifier made from a draw other than 0 has the shape the rule
    library gives for it: the prefix, digits, upper-case alphanumerics. *)
Theorem identifier_has_the_shape env prefix n :
  0 <= Date_now env ->
  has_fraction (Math_random_base36 env) = true ->
  (0 < n)%nat ->
  Patterns.identifier prefix (fresh_identifier env prefix n) = true.
Proof.
  intros Hnow Hr Hn.
  destruct (digits_of_number _ Hnow) as [Hd Hne].
  destruct (identifier_suffix _ n Hr Hn) as [Hs Hal].
  unfold Patterns.identifier, fresh_identifier.
  rewrite !chars_app.
  change (Js.chars "-") with ["-"%char].
  set (digits := Js.chars (Js.number_toString (Date_now env))) in *.
  set (suffix := Js.chars (Js.toUpperCase _)) in *.
  rewrite (app_assoc (Js.chars prefix) ["-"%char]).
  rewrite strip_prefix_app.
  change (["-"%char] ++ suffix)%list with ("-"%char :: suffix).
  rewrite (span_app _ _ _ _ Hd) by reflexivity.
  destruct digits; [contradiction|]. destruct suffix; [contradiction|].
  simpl. simpl in Hal. exact Hal.
Qed.

Lemma identifier_has_the_shape_witness :
  let env := Sample.environment in
  0 <= Date_now env
  /\ has_fraction (Math_random_base36 env) = true
  /\ (0 < 9)%nat
  /\ fresh_identifier env "UAE" 9 = "UAE-1748736000000-K3J9X2MZQ"
  /\ Patterns.applicationId (fresh_identifier env "UAE" 9) = true.
Proof.
  intros env.
  assert (Hnow : 0 <= Date_now env) by discriminate.
  assert (Hn : (0 < 9)%nat) by (repeat constructor).
  split; [exact Hnow|]. split; [reflexivity|]. split; [exact Hn|].
  split; [reflexivity|].
  exact (identifier_has_the_shape env "UAE" 9 Hnow eq_refl Hn).
Defined.

(** ** What the chains leave in the body *)


Lemma run_items_other env n p l b cur k :
  k <> n -> assoc k (snd (Validator.run_items env n p l b cur)) = assoc k b.
Proof.
  intros Hk. revert b cur. induction l as [|[v m|s] l IH]; intros b cur; simpl.
  - reflexivity.
  - specialize (IH b cur). destruct (Validator.run_items env n p l b cur). exact IH.
  - rewrite IH. now apply assoc_assign_other.
Qed.

Lemma run_items_validators env n p l b cur :
  existsb is_sanitizer l = false -> snd (Validator.run_items env n p l b cur) = b.
Proof.
  revert b cur. induction l as [|[v m|s] l IH]; intros b cur H; simpl in *.
  - reflexivity.
  - specialize (IH b cur H). destruct (Validator.run_items env n p l b cur). exact IH.
  - discriminate.
Qed.

Lemma run_chain_keeps env c b k :
  rewrites k c = false -> assoc k (snd (Validator.run_chain env c b)) = assoc k b.
Proof.
  unfold rewrites, Validator.run_chain. intros H.
  destruct (Validator.wildcard c).
  - destruct (assoc (Validator.field c) b) as [[|]|]; reflexivity.
  - rewrite andb_true_r in H.
    destruct (assoc (Validator.field c) b) eqn:E.
    + destruct (Validator.field c =? k)%string eqn:Ek.
      * simpl in H. now rewrite run_items_validators.
      * apply run_items_other. apply String.eqb_neq in Ek. congruence.
    + destruct (Validator.optional c); [reflexivity|].
      destruct (Validator.field c =? k)%string eqn:Ek.
      * simpl in H. now rewrite run_items_validators.
      * apply run_items_other. apply String.eqb_neq in Ek. congruence.
Qed.

Lemma run_chains_keep env chains b k :
  existsb (rewrites k) chains = false ->
  assoc k (snd (Validator.run_chains env chains b)) = assoc k b.
Proof.
  revert b. induction chains as [|c chains IH]; intros b H; simpl in H.
  - reflexivity.
  - apply orb_false_iff in H. destruct H as [Hc Hr].
    rewrite run_chains_cons_body, IH by assumption. now apply run_chain_keeps.
Qed.

(** X3.  A rating with a value that is not an integer from 1 to 5 is
    rejected, with an entry for [rating] that carries this value among the
    errors, whatever else the request holds.  The values of a rating are the
    string itself, the empty string when the rating is missing, and the
    elements when it is an array.  (An empty array has no value to refuse: see
    [empty_rating_is_not_rejected].) *)
Theorem rating_outside_range_rejected :
  forall env req w s,
    In s (Validator.strings_of (assoc "rating" (body req))) ->
    Validator.test env (Validator.IsInt 1 5) s = false ->
    let res := Feedback.post_feedback env req w in
    statusCode (fst res) = 400
    /\ snd res = w
    /\ exists entries,
         jget "errors" (payload (fst res)) = Some (JArr entries)
         /\ In (JObj ([ ("field", JStr "rating");
                        ("message", JStr "Rating must be between 1 and 5") ]
                      ++ member "value" json_of_field
                           (Validator.reported (assoc "rating" (body req)) s)))
               entries.
Proof.
  intros env req w s Hs Ht res.
  set (before := firstn 3 Feedback.feedbackValidationRules).
  set (c := Validator.body_ "rating"
              [Validator.check (Validator.IsInt 1 5) "Rating must be between 1 and 5"]).
  set (after := skipn 4 Feedback.feedbackValidationRules).
  set (e := ValidationError "rating" "Rating must be between 1 and 5"
              (Validator.reported (assoc "rating" (body req)) s)).
  assert (Hin : In e (fst (Validator.run_chain env c
                             (snd (Validator.run_chains env before (body req)))))).
  { unfold Validator.run_chain, c, Validator.body_.
    cbn [Validator.wildcard Validator.field Validator.optional Validator.items].
    rewrite (run_chains_keep env before (body req) "rating") by reflexivity.
    assert (G : In e (fst (Validator.run_items env "rating" "rating"
                             [Validator.check (Validator.IsInt 1 5)
                                "Rating must be between 1 and 5"]
                             (snd (Validator.run_chains env before (body req)))
                             (assoc "rating" (body req))))).
    { unfold Validator.check. rewrite run_items_validate.
      apply in_or_app. left. unfold Validator.validate_item.
      apply in_map_iff. exists s. split; [reflexivity|].
      apply filter_In. split; [exact Hs | now rewrite Ht]. }
    destruct (assoc "rating" (body req)); exact G. }
  pose proof (run_chains_app env before c after (body req) e Hin) as Hx.
  assert (Hne : fst (Validator.run_chains env (before ++ c :: after) (body req)) <> []).
  { intros E. rewrite E in Hx. contradiction. }
  subst res. unfold Feedback.post_feedback.
  change Feedback.feedbackValidationRules with (before ++ c :: after)%list.
  rewrite (route_rejection _ _ _ _ _ Hne). cbn [fst snd statusCode payload].
  split; [reflexivity|]. split; [reflexivity|].
  eexists. split; [reflexivity|].
  apply (in_map ErrorHandler.error_entry) in Hx. exact Hx.
Qed.

Lemma rating_outside_range_rejected_witness :
  let env := Sample.environment in
  let six := Scenario.post (Scenario.feedback_body "6" "yes") in
  let missing := Scenario.post [ ("name", Str "Amina Yusuf") ] in
  let mixed := Scenario.post [ ("rating", Arr ["5"; "six"]) ] in
  (In "6" (Validator.strings_of (assoc "rating" (body six)))
   /\ Validator.test env (Validator.IsInt 1 5) "6" = false
   /\ statusCode (fst (Feedback.post_feedback env six Sample.empty_world)) = 400)
  /\ (assoc "rating" (body missing) = None
      /\ statusCode (fst (Feedback.post_feedback env missing Sample.empty_world)) = 400)
  /\ (In "six" (Validator.strings_of (assoc "rating" (body mixed)))
      /\ statusCode (fst (Feedback.post_feedback env mixed Sample.empty_world)) = 400).
Proof.
  intros env six missing mixed. split; [|split].
  - split; [left; reflexivity|]. split; [reflexivity|].
    apply (rating_outside_range_rejected env six Sample.empty_world "6");
      [left; reflexivity | reflexivity].
  - split; [reflexivity|].
    apply (rating_outside_range_rejected env missing Sample.empty_world "");
      [left; reflexivity | reflexivity].
  - split; [right; left; reflexivity|].
    apply (rating_outside_range_rejected env mixed Sample.empty_world "six");
      [right; left; reflexivity | reflexivity].
Defined.

(** A rating that is the empty array has no value: the chain reports
    nothing, and a submission that is otherwise valid reaches the INSERT,
    which the CHECK of the table refuses.  The answer is 500. *)
Example empty_rating_is_not_rejected :
  let env := Sample.environment in
  let req := Scenario.post (assign "rating" (Arr []) (Scenario.feedback_body "5" "yes")) in
  let res := Feedback.post_feedback env req Sample.empty_world in
  Validator.strings_of (assoc "rating" (body req)) = []
  /\ statusCode (fst res) = 500
  /\ feedback_rows (snd res) = [].
Proof. vm_compute. repeat split. Qed.

Lemma integer_outside_range env z :
  z < 1 \/ 5 < z -> Validator.test env (Validator.IsInt 1 5) (Js.number_toString z) = false.
Proof.
  intros H. simpl. rewrite parse_int_number_toString.
  destruct H; [apply andb_false_iff; left; apply Z.leb_gt; lia
              | apply andb_false_iff; right; apply Z.leb_gt; lia].
Qed.


Lemma run_items_some env n p l b cur :
  assoc n b <> None -> assoc n (snd (Validator.run_items env n p l b cur)) <> None.
Proof.
  revert b cur. induction l as [|[v m|s] l IH]; intros b cur H; simpl.
  - exact H.
  - specialize (IH b cur H). destruct (Validator.run_items env n p l b cur). exact IH.
  - apply IH. rewrite assoc_assign_same. discriminate.
Qed.

Lemma run_items_defines env n p l b cur :
  existsb is_sanitizer l = true ->
  assoc n (snd (Validator.run_items env n p l b cur)) <> None.
Proof.
  revert b cur. induction l as [|[v m|s] l IH]; intros b cur H; simpl in *.
  - discriminate.
  - specialize (IH b cur H). destruct (Validator.run_items env n p l b cur). exact IH.
  - apply run_items_some. rewrite assoc_assign_same. discriminate.
Qed.

Lemma run_chain_some env c b k :
  assoc k b <> None -> assoc k (snd (Validator.run_chain env c b)) <> None.
Proof.
  intros H. unfold Validator.run_chain.
  destruct (Validator.wildcard c).
  - destruct (assoc (Validator.field c) b) as [[|]|]; exact H.
  - destruct (String.eqb_spec k (Validator.field c)) as [->|Hne].
    + destruct (assoc (Validator.field c) b) eqn:E; [|contradiction].
      apply run_items_some. rewrite E. discriminate.
    + destruct (assoc (Validator.field c) b).
      * now rewrite run_items_other.
      * destruct (Validator.optional c); [exact H | now rewrite run_items_other].
Qed.

Lemma run_chain_defines env c b k :
  defines k c = true -> assoc k (snd (Validator.run_chain env c b)) <> None.
Proof.
  unfold defines, rewrites, Validator.run_chain. intros H.
  apply andb_true_iff in H. destruct H as [H Ho].
  apply andb_true_iff in H. destruct H as [H Hs].
  apply andb_true_iff in H. destruct H as [Hk Hw].
  apply String.eqb_eq in Hk. subst k.
  apply negb_true_iff in Hw, Ho. rewrite Hw, Ho.
  destruct (assoc (Validator.field c) b); now apply run_items_defines.
Qed.

Lemma run_chains_some env chains b k :
  assoc k b <> None -> assoc k (snd (Validator.run_chains env chains b)) <> None.
Proof.
  revert b. induction chains as [|c chains IH]; intros b H; [exact H|].
  rewrite run_chains_cons_body. apply IH. now apply run_chain_some.
Qed.

Lemma run_chains_define env chains b k :
  existsb (defines k) chains = true ->
  assoc k (snd (Validator.run_chains env chains b)) <> None.
Proof.
  revert b. induction chains as [|c chains IH]; intros b H; simpl in H; [discriminate|].
  rewrite run_chains_cons_body.
  destruct (defines k c) eqn:E.
  - apply run_chains_some. now apply run_chain_defines.
  - now apply IH.
Qed.

Lemma bound_some v : exists t, bound (Some v) = Sql.VText t.
Proof. destruct v; eexists; reflexivity. Qed.

Lemma bound_defined v : v <> None -> exists t, bound v = Sql.VText t.
Proof. destruct v; [intros _; apply bound_some | contradiction]. Qed.

Lemma occurrences_none c v rows :
  (forall r, In r rows -> Sql.get c r <> v) -> Sql.occurrences c v rows = 0%nat.
Proof.
  intros H. unfold Sql.occurrences.
  induction rows as [|r rows IH]; simpl; [reflexivity|].
  destruct (Sql.eq_value (Sql.get c r) v) eqn:E.
  - apply eq_value_true in E. destruct E as [E _]. elim (H r (or_introl eq_refl) E).
  - apply IH. intros x Hx. apply H. now right.
Qed.

Lemma exec_insert_succeeds now t assignments d :
  let s := Sql.select_table t d in
  let new := Sql.new_row now (Sql.last_rowid s) t assignments in
  Sql.unknown_column t (map fst assignments) = None ->
  Sql.null_violation t new = None ->
  Sql.check_holds t new = true ->
  Sql.unique_violation t new (Sql.rows s) = None ->
  exists r d', Sql.exec_insert now t assignments d = Sql.Done (r, d').
Proof.
  intros s new H1 H2 H3 H4. unfold Sql.exec_insert.
  fold s. fold new. rewrite H1, H2, H3, H4. simpl. eauto.
Qed.

(** ** Feedback: rating, acceptance, identifier *)

Lemma rules_keep env req b k :
  Validator.run_chains env Feedback.feedbackValidationRules (body req) = ([], b) ->
  existsb (rewrites k) Feedback.feedbackValidationRules = false ->
  assoc k b = assoc k (body req).
Proof.
  intros H Hk. rewrite <- (run_chains_keep env _ (body req) k Hk). now rewrite H.
Qed.

Lemma rules_define env req b k :
  Validator.run_chains env Feedback.feedbackValidationRules (body req) = ([], b) ->
  existsb (defines k) Feedback.feedbackValidationRules = true ->
  exists t, bound (assoc k b) = Sql.VText t.
Proof.
  intros H Hk. apply bound_defined.
  pose proof (run_chains_define env _ (body req) k Hk) as Hd. now rewrite H in Hd.
Qed.

(** X4.  A submission that passes validation with rating 5 and would_recommend
    [yes] is accepted, and answered with the identifier made for it,
    provided that identifier and the next row id are not stored yet. *)
Theorem valid_feedback_is_accepted :
  forall env req w b,
    Validator.run_chains env Feedback.feedbackValidationRules (body req) = ([], b) ->
    assoc "rating" (body req) = Some (Str "5") ->
    assoc "would_recommend" (body req) = Some (Str "yes") ->
    (forall x, In x (feedback_rows w) ->
       Sql.get "feedback_id" x <> Sql.VText (fresh_identifier env "FB" 6)
       /\ Sql.get "id" x <> Sql.VInt (Sql.last_rowid (Sql.feedback_table (store w)) + 1)) ->
    let res := fst (Feedback.post_feedback env req w) in
    statusCode res = 201
    /\ data_member "feedback_id" res = Some (JStr (fresh_identifier env "FB" 6)).
Proof.
  intros env req w b Hvalid Hrating Hrecommend Hfresh res.
  subst res. set (run := Feedback.post_feedback env req w).
  assert (Hres : run = Feedback.post_feedback env req w) by reflexivity.
  clearbody run.
  unfold Feedback.post_feedback in Hres.
  rewrite (route_accepted _ _ _ _ _ _ Hvalid) in Hres.
  unfold ErrorHandler.catchAsync, Feedback.submit_feedback in Hres.
  change (field_of (with_body req b)) with (fun n => assoc n b) in Hres.
  cbv beta in Hres.
  write_then_notify_in Hres env w Hrun r0 w'.
  specialize (Hrun (mail_only_two _ _ _)).
  cbn [Sql.exec] in Hrun.
  destruct (exec_insert_succeeds (CURRENT_TIMESTAMP env) Sql.feedback
              [ ("feedback_id", Sql.VText (fresh_identifier env "FB" 6));
                ("full_name", bound (assoc "name" b));
                ("email", bound (assoc "email" b));
                ("service_rating", bound (assoc "rating" b));
                ("would_recommend", bound (assoc "would_recommend" b));
                ("feedback_title", bound (assoc "subject" b));
                ("feedback_message", bound (assoc "message" b));
                ("status", Sql.VText "pending");
                ("created_at", Sql.VText (CURRENT_TIMESTAMP env));
                ("updated_at", Sql.VText (CURRENT_TIMESTAMP env)) ] (store w))
    as [rr [d' Hexec]].
  - reflexivity.
  - rewrite new_feedback_row.
    rewrite (rules_keep env req b "rating" Hvalid eq_refl), Hrating.
    rewrite (rules_keep env req b "would_recommend" Hvalid eq_refl), Hrecommend.
    unfold stored_feedback.
    destruct (rules_define env req b "name" Hvalid eq_refl) as [tn ->].
    destruct (rules_define env req b "email" Hvalid eq_refl) as [te ->].
    destruct (rules_define env req b "subject" Hvalid eq_refl) as [ts ->].
    destruct (rules_define env req b "message" Hvalid eq_refl) as [tm ->].
    reflexivity.
  - rewrite new_feedback_row.
    rewrite (rules_keep env req b "rating" Hvalid eq_refl), Hrating. reflexivity.
  - rewrite new_feedback_row. unfold Sql.unique_violation.
    cbn [Sql.schema find Sql.col_unique Sql.col_name Sql.primary_key Sql.nullable
         Sql.not_null Sql.unique_not_null Sql.unique Sql.with_default andb].
    change (Sql.get "id" (stored_feedback env ?i _ _ _ _ _ _)) with (Sql.VInt i).
    change (Sql.get "feedback_id" (stored_feedback env _ _ _ _ _ _ _))
      with (Sql.VText (fresh_identifier env "FB" 6)).
    fold (feedback_rows w).
    rewrite !occurrences_none by (intros x Hx; now apply Hfresh).
    reflexivity.
  - rewrite Hexec in Hrun. destruct rr as [rr dd]. cbn [fst snd] in Hrun.
    destruct Hrun as [-> _]. subst run. split; reflexivity.
Qed.

Lemma valid_feedback_is_accepted_witness :
  let env := Sample.environment in
  let req := Scenario.post (Scenario.feedback_body "5" "yes") in
  let b := snd (Validator.run_chains env Feedback.feedbackValidationRules (body req)) in
  let res := fst (Feedback.post_feedback env req Sample.empty_world) in
  Validator.run_chains env Feedback.feedbackValidationRules (body req) = ([], b)
  /\ assoc "rating" (body req) = Some (Str "5")
  /\ assoc "would_recommend" (body req) = Some (Str "yes")
  /\ feedback_rows Sample.empty_world = []
  /\ statusCode res = 201
  /\ data_member "feedback_id" res = Some (JStr "FB-1748736000000-K3J9X2").
Proof.
  intros env req b res.
  split; [reflexivity|]. split; [reflexivity|]. split; [reflexivity|].
  split; [reflexivity|].
  apply (valid_feedback_is_accepted env req Sample.empty_world b);
    try reflexivity.
  intros x [].
Defined.

(** ** Visa applications: the checks across fields *)

(** The validators refuse a departure that is not after the arrival, with an
    entry for [departure_date], whatever else the request holds. *)
Lemma late_departure_fails_validation :
  forall env req w a d,
    assoc "arrival_date" (body req) = Some (Str a) ->
    assoc "departure_date" (body req) = Some (Str d) ->
    Visa.isSameOrBefore (moment_day env d) (moment_day env a) = true ->
    let res := Visa.post_application env req w in
    statusCode (fst res) = 400
    /\ snd res = w
    /\ exists entries,
         jget "errors" (payload (fst res)) = Some (JArr entries)
         /\ In (JObj [ ("field", JStr "departure_date");
                       ("message", JStr "Departure date must be after arrival date");
                       ("value", JStr d) ]) entries.
Proof.
  intros env req w a d Ha Hd Hle res.
  set (before := firstn 9 Visa.visaValidationRules).
  set (c := Validator.body_ "departure_date"
              [ Validator.check Validator.IsISO8601
                  "Please provide a valid departure date";
                Validator.custom Visa.departure_after_arrival ]).
  set (after := skipn 10 Visa.visaValidationRules).
  set (e := ValidationError "departure_date" "Departure date must be after arrival date"
              (Some (Str d))).
  assert (Hin : In e (fst (Validator.run_chain env c
                             (snd (Validator.run_chains env before (body req)))))).
  { unfold Validator.run_chain, c, Validator.body_.
    cbn [Validator.wildcard Validator.field Validator.optional Validator.items].
    rewrite (run_chains_keep env before (body req) "departure_date") by reflexivity.
    rewrite Hd. unfold Validator.check, Validator.custom.
    rewrite !run_items_validate.
    apply in_or_app. right. apply in_or_app. left.
    unfold Validator.validate_item, Visa.departure_after_arrival.
    rewrite (run_chains_keep env before (body req) "arrival_date") by reflexivity.
    rewrite Ha. unfold Visa.day_of. cbn [text_of]. rewrite Hle. left. reflexivity. }
  pose proof (run_chains_app env before c after (body req) e Hin) as Hx.
  assert (Hne : fst (Validator.run_chains env (before ++ c :: after) (body req)) <> []).
  { intros E. rewrite E in Hx. contradiction. }
  subst res. unfold Visa.post_application.
  change Visa.visaValidationRules with (before ++ c :: after)%list.
  rewrite (route_rejection _ _ _ _ _ Hne). cbn [fst snd statusCode payload].
  split; [reflexivity|]. split; [reflexivity|].
  eexists. split; [reflexivity|].
  apply (in_map ErrorHandler.error_entry) in Hx. exact Hx.
Qed.

(** X2.  A visa application whose departure is not after the arrival never
    gets past the validators.  When the upload stage hands it on, it is
    answered 400 with an entry for [departure_date], whatever else it holds,
    and store, logs and outbox are as before (the files multer stored stay
    on disk).  When the upload stage stops it, the error middleware answers
    and neither store nor outbox changes. *)
Theorem departure_not_after_arrival_rejected :
  forall env upload req w a d,
    assoc "arrival_date" (body req) = Some (Str a) ->
    assoc "departure_date" (body req) = Some (Str d) ->
    Visa.isSameOrBefore (moment_day env d) (moment_day env a) = true ->
    let res := Visa.application_route env upload req w in
    store (snd res) = store w
    /\ outbox (snd res) = outbox w
    /\ (upload = Visa.Stored ->
        statusCode (fst res) = 400
        /\ snd res = w
        /\ exists entries,
             jget "errors" (payload (fst res)) = Some (JArr entries)
             /\ In (JObj [ ("field", JStr "departure_date");
                           ("message",
                            JStr "Departure date must be after arrival date");
                           ("value", JStr d) ]) entries).
Proof.
  intros env upload req w a d Ha Hd Hle res.
  pose proof (late_departure_fails_validation env req w a d Ha Hd Hle) as H.
  cbv zeta in H. destruct H as [H400 [Hw Hentries]].
  subst res. destruct upload as [|e|err]; cbn [Visa.application_route].
  - rewrite Hw. split; [reflexivity|]. split; [reflexivity|].
    intros _. split; [exact H400|]. split; [reflexivity | exact Hentries].
  - split; [apply errorHandler_store|]. split; [|discriminate].
    unfold ErrorHandler.errorHandler, ErrorHandler.logError. cbn [snd].
    destruct (match NODE_ENV env with
              | Some m => (m =? "production")%string
              | None => false
              end); reflexivity.
  - split; [|split; [|discriminate]];
      unfold Upload.errorHandler, Upload.logError; cbn [snd];
      destruct (match NODE_ENV env with
                | Some m => (m =? "production")%string
                | None => false
                end); reflexivity.
Qed.

Lemma departure_not_after_arrival_rejected_witness :
  let env := Sample.environment in
  let req := Scenario.post [ ("arrival_date", Str "2025-06-10");
                             ("departure_date", Str "2025-06-10") ] in
  let res := Visa.application_route env Visa.Stored req Sample.empty_world in
  Visa.isSameOrBefore (moment_day env "2025-06-10") (moment_day env "2025-06-10") = true
  /\ statusCode (fst res) = 400
  /\ snd res = Sample.empty_world
  /\ exists entries,
       jget "errors" (payload (fst res)) = Some (JArr entries)
       /\ In (JObj [ ("field", JStr "departure_date");
                     ("message", JStr "Departure date must be after arrival date");
                     ("value", JStr "2025-06-10") ]) entries.
Proof.
  intros env req res.
  split; [reflexivity|].
  destruct (departure_not_after_arrival_rejected env Visa.Stored req Sample.empty_world
              "2025-06-10" "2025-06-10" eq_refl eq_refl eq_refl) as [_ [_ H]].
  exact (H eq_refl).
Defined.

(** X6.  The rule [durationMatchesDates] of the rule library, which the route
    does not use: with both dates given, it reports a declared duration
    exactly when the integer [parseInt] reads at its start differs from the
    day count, and then in these words. *)
Lemma durationMatchesDates_reports env b a d s n k :
  assoc "arrival_date" b = Some (Str a) ->
  assoc "departure_date" b = Some (Str d) ->
  assoc "duration_of_stay" b = Some (Str s) ->
  a <> "" -> d <> "" ->
  Js.parseInt s = Some n ->
  moment_diff_days env d a = Some k ->
  fst (Validator.run_chain env Validation.durationMatchesDates b)
  = if n =? k then []
    else [ ValidationError "duration_of_stay"
             ("Duration of stay (" ++ s ++ " days) does not match the date range ("
                ++ Js.number_toString k ++ " days)")
             (Some (Str s)) ].
Proof.
  intros Ha Hd Hs Hna Hnd Hn Hk.
  unfold Validator.run_chain, Validation.durationMatchesDates, Validator.body_.
  cbn [Validator.wildcard Validator.field Validator.optional Validator.items].
  rewrite Hs. unfold Validator.custom. rewrite run_items_validate.
  cbn [Validator.run_items fst]. rewrite app_nil_r.
  unfold Validator.validate_item. rewrite Ha, Hd. cbn [text_of interpolate].
  assert (Ht : forall x, x <> "" -> Js.truthy x = true).
  { intros x Hx. unfold Js.truthy. now apply negb_true_iff, String.eqb_neq. }
  rewrite (Ht a Hna), (Ht d Hnd), Hn, Hk. cbn [andb].
  destruct (n =? k); reflexivity.
Qed.

Lemma durationMatchesDates_reports_witness :
  let env := Sample.environment in
  moment_diff_days env "2025-06-15" "2025-06-10" = Some 5
  /\ (Js.parseInt "6" = Some 6
      /\ fst (Validator.run_chain env Validation.durationMatchesDates
                (Scenario.visa_body "6"))
         = [ ValidationError "duration_of_stay"
               "Duration of stay (6 days) does not match the date range (5 days)"
               (Some (Str "6")) ])
  /\ (Js.parseInt "5 days" = Some 5
      /\ fst (Validator.run_chain env Validation.durationMatchesDates
                (Scenario.visa_body "5 days"))
         = [])
  /\ (Js.parseInt " 5.5" = Some 5
      /\ fst (Validator.run_chain env Validation.durationMatchesDates
                (Scenario.visa_body " 5.5"))
         = []).
Proof.
  intros env.
  split; [reflexivity|]. split; [|split]; (split; [reflexivity|]).
  - apply (durationMatchesDates_reports env (Scenario.visa_body "6")
             "2025-06-10" "2025-06-15" "6" 6 5);
      try reflexivity; discriminate.
  - apply (durationMatchesDates_reports env (Scenario.visa_body "5 days")
             "2025-06-10" "2025-06-15" "5 days" 5 5);
      try reflexivity; discriminate.
  - apply (durationMatchesDates_reports env (Scenario.visa_body " 5.5")
             "2025-06-10" "2025-06-15" " 5.5" 5 5);
      try reflexivity; discriminate.
Defined.

(** C1. The route does not compare the declared duration with the dates.
    An application arriving on 2025-06-10 and departing on 2025-06-15, five
    days apart, that declares a stay of 6 days passes every rule of the
    route: it is answered 201 with status [pending] and stored with
    duration 6, exactly as the one that declares 5.  The check exists in
    the rule library, as [durationMatchesDates], and reports this request
    on [duration_of_stay]; the route's own rule set leaves it out. *)
Theorem visa_duration_mismatch_is_accepted :
  let env := Sample.environment in
  let run := Visa.post_application env (Scenario.visa_application "6")
               Sample.empty_world in
  moment_diff_days env "2025-06-15" "2025-06-10" = Some 5
  /\ fst (Validator.run_chains env Visa.visaValidationRules (Scenario.visa_body "6")) = []
  /\ statusCode (fst run) = 201
  /\ data_status (fst run) = Some (JStr "pending")
  /\ map (fun r => (Sql.get "arrival_date" r, Sql.get "departure_date" r,
                    Sql.get "duration_of_stay" r, Sql.get "status" r))
         (visa_rows (snd run))
     = [ (Sql.VText "2025-06-10", Sql.VText "2025-06-15", Sql.VInt 6,
          Sql.VText "pending") ]
  /\ fst (Validator.run_chain env Validation.durationMatchesDates
            (Scenario.visa_body "6"))
     = [ ValidationError "duration_of_stay"
           "Duration of stay (6 days) does not match the date range (5 days)"
           (Some (Str "6")) ].
Proof. cbv zeta. repeat split; vm_compute; reflexivity. Qed.

(** The same application declaring 5 days. *)
Example visa_application_accepted :
  let res := fst (Visa.post_application Sample.environment
                    (Scenario.visa_application "5") Sample.empty_world) in
  statusCode res = 201 /\ data_status res = Some (JStr "pending").
Proof. vm_compute. split; reflexivity. Qed.

(** ** Feedback: the identifier of a zero draw *)

(** C7. A rating of 6 is rejected on [rating], and a submission with rating
    5 and would_recommend [yes] is accepted; but the identifier it is
    answered with need not have the shape [FB-<digits>-<upper-case
    alphanumerics>].  When [Math.random()] draws 0, its rendering in base
    36 is ["0"], [substr(2, 6)] of it is empty, and the identifier made is
    ["FB-1748736000000-"]: the submission is answered 201 with it, the row
    is stored under it, and it does not match [patterns.feedbackId] of the
    rule library. *)
Theorem zero_draw_identifier_misses_pattern :
  let env := Sample.environment_with "0" in
  let req := Scenario.post (Scenario.feedback_body "5" "yes") in
  let run := Feedback.post_feedback env req Sample.empty_world in
  fst (Validator.run_chains env Feedback.feedbackValidationRules (body req)) = []
  /\ statusCode (fst run) = 201
  /\ data_member "feedback_id" (fst run) = Some (JStr "FB-1748736000000-")
  /\ column "feedback_id" (feedback_rows (snd run)) = [Sql.VText "FB-1748736000000-"]
  /\ Patterns.feedbackId "FB-1748736000000-" = false
  /\ statusCode
       (fst (Feedback.post_feedback env
               (Scenario.post (Scenario.feedback_body "6" "yes")) Sample.empty_world))
     = 400.
Proof. cbv zeta. repeat split; vm_compute; reflexivity. Qed.

(** ** Handlers: steps *)

Lemma bind_ret {A B : Type} (a : A) (k : A -> M B) w : bind (ret a) k w = k a w.
Proof. reflexivity. Qed.

Lemma bind_throw {A B : Type} e (k : A -> M B) w : bind (throw e) k w = (Throw e, w).
Proof. reflexivity. Qed.

Lemma catchAsync_return env m r w w' :
  m w = (Return r, w') -> ErrorHandler.catchAsync env m w = (r, w').
Proof. intros H. unfold ErrorHandler.catchAsync. now rewrite H. Qed.

(** What the error middleware answers to an [AppError]. *)
Lemma errorHandler_operational env m c k w :
  c <> 0 ->
  fst (ErrorHandler.errorHandler env (AppError m c k) w)
  = Response c
      (JObj [ ("status",
               JStr (if (Js.substr 0 1 (Js.number_toString c) =? "4")%string
                     then "fail" else "error"));
              ("message", JStr m);
              ("code", json_or_null JStr k);
              ("timestamp", JStr (toISOString_now env)) ]).
Proof.
  intros Hc. unfold ErrorHandler.errorHandler. cbn [fst].
  assert (E : ErrorHandler.status_code (AppError m c k) = c).
  { simpl. destruct (c =? 0) eqn:E; [apply Z.eqb_eq in E; contradiction | reflexivity]. }
  destruct (match NODE_ENV env with
            | Some m0 => (m0 =? "development")%string
            | None => false
            end);
    unfold ErrorHandler.sendErrorDev, ErrorHandler.sendErrorProd;
    cbn [ErrorHandler.isOperational]; rewrite E; reflexivity.
Qed.

Lemma table_rows_replace_other t t' s d :
  t <> t' -> Sql.table_rows t (Sql.replace_table t' s d) = Sql.table_rows t d.
Proof. destruct t, t'; intros H; try reflexivity; contradiction. Qed.

Lemma exec_select_columns cols t conds d :
  Sql.unknown_column t (map fst cols) = None ->
  Sql.unknown_column t (map fst conds) = None ->
  Sql.exec_select (Sql.Select (Sql.Columns cols) t conds None None) d
  = Sql.Done (map (Sql.project (Sql.Columns cols))
                (filter (Sql.holds t conds) (Sql.table_rows t d))).
Proof.
  intros H1 H2. unfold Sql.exec_select.
  cbn [Sql.sel_from Sql.sel_what Sql.sel_where Sql.sel_order_by Sql.sel_limit
       Sql.projected_columns Sql.order_rows].
  rewrite app_nil_r, unknown_column_app, H1, H2. reflexivity.
Qed.

Lemma exec_select_ordered cols t conds c dir d :
  Sql.unknown_column t (map fst cols) = None ->
  Sql.unknown_column t (map fst conds) = None ->
  Sql.has_column t c = true ->
  Sql.exec_select (Sql.Select (Sql.Columns cols) t conds (Some (c, dir)) None) d
  = Sql.Done (map (Sql.project (Sql.Columns cols))
                (Sql.order_rows (Some (c, dir))
                   (filter (Sql.holds t conds) (Sql.table_rows t d)))).
Proof.
  intros H1 H2 H3. unfold Sql.exec_select.
  cbn [Sql.sel_from Sql.sel_what Sql.sel_where Sql.sel_order_by Sql.sel_limit
       Sql.projected_columns].
  rewrite !unknown_column_app, H1, H2.
  unfold Sql.unknown_column. simpl find. rewrite H3. reflexivity.
Qed.

Lemma hd_error_map {A B : Type} (f : A -> B) l :
  hd_error (map f l) = option_map f (hd_error l).
Proof. destruct l; reflexivity. Qed.

Lemma getRow_columns cols t conds w :
  Sql.unknown_column t (map fst cols) = None ->
  Sql.unknown_column t (map fst conds) = None ->
  Database.getRow (Sql.Select (Sql.Columns cols) t conds None None) w
  = (Return (option_map (Sql.project (Sql.Columns cols))
               (find (Sql.holds t conds) (Sql.table_rows t (store w)))), w).
Proof.
  intros H1 H2. unfold Database.getRow, bind, Database.getRows.
  rewrite (exec_select_columns _ _ _ _ H1 H2). unfold ret.
  now rewrite hd_error_map, hd_error_filter.
Qed.

Lemma insert_by_in le r l : In r (Sql.insert_by le r l).
Proof.
  induction l as [|y l IH]; simpl; [now left|].
  destruct (le r y); [now left | now right].
Qed.

Lemma insert_by_keeps le r l x : In x l -> In x (Sql.insert_by le r l).
Proof.
  induction l as [|y l IH]; simpl; [tauto|].
  destruct (le r y); simpl; intros [H|H]; auto.
Qed.

Lemma order_rows_in o l x : In x l -> In x (Sql.order_rows o l).
Proof.
  unfold Sql.order_rows. destruct o as [[c dir]|]; [|auto].
  induction l as [|y l IH]; simpl; [tauto|].
  intros [H|H]; [subst; apply insert_by_in | apply insert_by_keeps; auto].
Qed.

(** Two writes, a guarded block of e-mails, the answer: the shape of the
    visa submission. *)
Lemma two_writes_then_notify {A : Type} env st1 st2 (mails : M unit) s (resp : A) w :
  mail_only mails ->
  let out := (Database.runQuery env st1 ;;
              Database.runQuery env st2 ;;
              try_catch mails (fun _ => console_error s) ;;
              ret resp)%handler w in
  match Sql.exec (CURRENT_TIMESTAMP env) st1 (store w) with
  | Sql.Done (_, d1) =>
      match Sql.exec (CURRENT_TIMESTAMP env) st2 d1 with
      | Sql.Done (_, d2) => fst out = Return resp /\ store (snd out) = d2
      | Sql.Failed c m => fst out = Throw (SqliteError c m) /\ store (snd out) = d1
      end
  | Sql.Failed c m => out = (Throw (SqliteError c m), w)
  end.
Proof.
  intros Hm out. subst out.
  set (inner := (Database.runQuery env st2 ;;
                 try_catch mails (fun _ => console_error s) ;;
                 ret resp)%handler).
  change ((Database.runQuery env st1 ;; inner)%handler w)
    with (match Database.runQuery env st1 w with
          | (Return _, w') => inner w'
          | (Throw e, w') => (Throw e, w')
          end).
  unfold Database.runQuery.
  destruct (Sql.exec (CURRENT_TIMESTAMP env) st1 (store w)) as [[r1 d1]|c m];
    [|reflexivity].
  pose proof (write_then_notify env st2 mails s resp
                (World d1 (console w) (error_log w) (outbox w) (attempts w)
                   (transport w)) Hm) as H.
  cbv zeta in H. cbn [store] in H. fold inner in H.
  destruct (Sql.exec (CURRENT_TIMESTAMP env) st2 d1) as [[r2 d2]|c m].
  - exact H.
  - rewrite H. split; reflexivity.
Qed.

(** ** Visa applications: uploads and status *)



Lemma holds_application t v r :
  Sql.find_column t "application_id" = Some (Sql.unique_not_null "application_id" Sql.TEXT)
  \/ Sql.find_column t "application_id" = Some (Sql.not_null "application_id" Sql.TEXT) ->
  Sql.holds t [("application_id", bound_param v)] r
  = Sql.eq_value (Sql.get "application_id" r) (bound_param v).
Proof.
  intros [H|H]; eapply holds_single_param; try exact H; reflexivity.
Qed.

(** X8.  The status of an application that is not stored: 404, and the store is
    left as it was. *)
Theorem status_of_unknown_application :
  forall env req w,
    application_of (assoc "applicationId" (params req)) w = None ->
    let res := Visa.get_status env req w in
    fst res
    = Response 404
        (JObj [ ("status", JStr "fail");
                ("message", JStr "Application not found");
                ("code", JStr "APPLICATION_NOT_FOUND");
                ("timestamp", JStr (toISOString_now env)) ])
    /\ store (snd res) = store w.
Proof.
  intros env req w Hnone res.
  assert (E : Visa.read_status env req w
              = (Throw (AppError "Application not found" 404
                          (Some "APPLICATION_NOT_FOUND")), w)).
  { unfold Visa.read_status. unfold bind at 1.
    rewrite getRow_columns by reflexivity.
    rewrite (find_ext _ (fun r => Sql.eq_value (Sql.get "application_id" r)
                                    (bound_param (assoc "applicationId" (params req)))))
      by (intros; apply holds_application; left; reflexivity).
    fold (visa_rows w).
    fold (application_of (assoc "applicationId" (params req)) w). rewrite Hnone.
    reflexivity. }
  subst res. unfold Visa.get_status, plain_route, ErrorHandler.catchAsync.
  rewrite E.
  split; [apply errorHandler_operational; discriminate | apply errorHandler_store].
Qed.

Lemma status_of_unknown_application_witness :
  let env := Sample.environment in
  let w := snd (Visa.post_application env (Scenario.visa_application "5")
                  Sample.empty_world) in
  let req := Request [("applicationId", "UAE-1-A")] [] [] [] in
  application_of (assoc "applicationId" (params req)) w = None
  /\ statusCode (fst (Visa.get_status env req w)) = 404
  /\ store (snd (Visa.get_status env req w)) = store w.
Proof.
  intros env w req.
  assert (Hnone : application_of (assoc "applicationId" (params req)) w = None)
    by reflexivity.
  split; [exact Hnone|].
  destruct (status_of_unknown_application env req w Hnone) as [Hres Hstore].
  rewrite Hres. split; [reflexivity | exact Hstore].
Defined.

Lemma errorHandler_not_created env e w :
  ErrorHandler.status_code e <> 201 ->
  statusCode (fst (ErrorHandler.errorHandler env e w)) <> 201.
Proof.
  intros H. destruct (errorHandler_status env e w) as [E|E]; rewrite E;
    [exact H | discriminate].
Qed.

Lemma exec_insert_frame now t assignments d r d' t' :
  Sql.exec_insert now t assignments d = Sql.Done (r, d') ->
  t' <> t -> Sql.table_rows t' d' = Sql.table_rows t' d.
Proof.
  unfold Sql.exec_insert.
  destruct (Sql.unknown_column t _); [discriminate|].
  destruct (Sql.null_violation t _); [discriminate|].
  destruct (negb _); [discriminate|].
  destruct (Sql.unique_violation t _ _); [discriminate|].
  intros [= <- <-] H. now apply table_rows_replace_other.
Qed.

Ltac two_writes_then_notify_in Hres env w Hrun r0 w' :=
  match type of Hres with
  | _ = (let (_, _) := (Database.runQuery _ ?st1 ;; Database.runQuery _ ?st2 ;;
                        try_catch ?mails (fun _ => console_error ?s) ;;
                        ret ?resp)%handler w in _) =>
      pose proof (two_writes_then_notify env st1 st2 mails s resp w
                    (mail_only_two _ _ _)) as Hrun;
      cbv zeta in Hrun;
      destruct ((Database.runQuery env st1 ;; Database.runQuery env st2 ;;
                 try_catch mails (fun _ => console_error s) ;;
                 ret resp)%handler w) as [r0 w']
  end.

(** X9.  The status route reads back what an accepted submission stored: the
    application under the identifier the submission was answered with, its
    status [pending], and the log entry of the submission in its history. *)
Theorem status_after_submission :
  forall env req w b,
    Validator.run_chains env Visa.visaValidationRules (body req) = ([], b) ->
    let res := Visa.post_application env req w in
    statusCode (fst res) = 201 ->
    let now := json_of_value
                 (Sql.apply_affinity Sql.DATETIME (Sql.VText (CURRENT_TIMESTAMP env))) in
    forall env' read,
      assoc "applicationId" (params read) = Some (fresh_identifier env "UAE" 9) ->
      exists history,
        fst (Visa.get_status env' read (snd res))
        = Response 200
            (JObj [ ("status", JStr "success");
                    ("data",
                     JObj [ ("application",
                             JObj [ ("id", JStr (fresh_identifier env "UAE" 9));
                                    ("applicant_name",
                                     json_of_value (bound (assoc "full_name" b)));
                                    ("email", json_of_value (bound (assoc "email" b)));
                                    ("visa_type",
                                     json_of_value (bound (assoc "visa_type" b)));
                                    ("current_status", JStr "pending");
                                    ("submitted_at", now);
                                    ("last_updated", now);
                                    ("travel_dates",
                                     JObj [ ("arrival",
                                             json_of_value
                                               (bound (assoc "arrival_date" b)));
                                            ("departure",
                                             json_of_value
                                               (bound (assoc "departure_date" b))) ]) ]);
                            ("status_history", JArr history);
                            ("status_descriptions", Visa.status_descriptions) ]) ])
        /\ In (JObj [ ("from", JNull);
                      ("to", JStr "pending");
                      ("notes", JStr "Application submitted");
                      ("timestamp", now) ]) history.
Proof.
  intros env req w b Hvalid res H201 now env' read Hid.
  assert (Hres : res = Visa.post_application env req w) by reflexivity.
  clearbody res.
  unfold Visa.post_application in Hres.
  rewrite (route_accepted _ _ _ _ _ _ Hvalid) in Hres.
  unfold ErrorHandler.catchAsync, Visa.submit_application in Hres.
  change (field_of (with_body req b)) with (fun n => assoc n b) in Hres.
  unfold Visa.first_file in Hres.
  change (files (with_body req b)) with (files req) in Hres. cbv beta in Hres.
  destruct (assoc "passport_copy" (files req)) as [[|f1 l1]|] eqn:E1;
    destruct (assoc "photo" (files req)) as [[|f2 l2]|] eqn:E2;
    rewrite ?bind_ret, ?bind_throw in Hres;
    try (exfalso; subst res; revert H201;
         apply errorHandler_not_created; discriminate).
  destruct (assoc "cv" (files req)) as [[|f3 l3]|] eqn:E3;
    rewrite ?bind_ret, ?bind_throw in Hres;
    try (exfalso; subst res; revert H201;
         apply errorHandler_not_created; discriminate).
  all: two_writes_then_notify_in Hres env w Hrun r0 w'.
  all: cbn [Sql.exec] in Hrun.
  all: destruct (Sql.exec_insert _ Sql.visa_applications _ _) as [[rr1 d1]|c m] eqn:X1;
    [| injection Hrun as -> ->; exfalso; subst res; revert H201;
       apply errorHandler_not_created; discriminate ].
  all: destruct (Sql.exec_insert _ Sql.application_status_log _ _) as [[rr2 d2]|c m] eqn:X2;
    [| destruct Hrun as [Hr _]; cbn [fst] in Hr; subst r0; exfalso; subst res;
       revert H201; apply errorHandler_not_created; discriminate ].
  all: destruct Hrun as [Hr Hstore]; cbn [fst snd] in Hr, Hstore; subst r0;
    subst res; cbn [fst snd].
  all: apply exec_insert_done in X1; cbv zeta in X1;
    destruct X1 as [Hrows1 [_ [_ Huniq]]].
  all: pose proof X2 as Hframe.
  all: apply exec_insert_done in X2; cbv zeta in X2; destruct X2 as [Hrows2 _].
  all: apply (exec_insert_frame _ _ _ _ _ _ Sql.visa_applications) in Hframe;
    [|discriminate].
  all: set (new1 := Sql.new_row _ _ Sql.visa_applications _) in *.
  all: set (new2 := Sql.new_row _ _ Sql.application_status_log _) in *.
  all: assert (Hfound :
           find (fun r => Sql.eq_value (Sql.get "application_id" r)
                            (Sql.VText (fresh_identifier env "UAE" 9)))
                (Sql.table_rows Sql.visa_applications (store w'))
           = Some new1).
  1,3: rewrite Hstore, Hframe, Hrows1, find_app_skip;
    [ cbn [find];
      change (Sql.get "application_id" new1)
        with (Sql.VText (fresh_identifier env "UAE" 9));
      unfold Sql.eq_value; now rewrite String.eqb_refl
    | intros x Hx;
      apply (unique_violation_none _ _ _
               (Sql.unique_not_null "application_id" Sql.TEXT) x Huniq);
      [simpl; tauto | reflexivity | exact Hx] ].
  all: assert (Hlog : In new2 (filter (Sql.holds Sql.application_status_log
                                        [("application_id",
                                          Sql.VText (fresh_identifier env "UAE" 9))])
                                 (Sql.table_rows Sql.application_status_log
                                    (store w')))).
  1,3: rewrite Hstore, Hrows2; apply filter_In; split;
    [ apply in_or_app; right; left; reflexivity
    | rewrite (holds_application _ (Some (fresh_identifier env "UAE" 9)))
        by (right; reflexivity);
      change (Sql.get "application_id" new2)
        with (Sql.VText (fresh_identifier env "UAE" 9));
      unfold bound_param, Sql.eq_value; now rewrite String.eqb_refl ].
  all: unfold Visa.get_status, plain_route, ErrorHandler.catchAsync,
         Visa.read_status; rewrite Hid.
  all: unfold bind at 1; rewrite getRow_columns by reflexivity.
  all: rewrite (find_ext _ (fun r => Sql.eq_value (Sql.get "application_id" r)
                                       (Sql.VText (fresh_identifier env "UAE" 9))))
         by (intros; apply (holds_application _ (Some _)); left; reflexivity).
  all: rewrite Hfound; cbn [option_map].
  all: unfold bind at 1; unfold Database.getRows;
    rewrite exec_select_ordered by reflexivity.
  all: eexists; split;
    [ unfold ret; cbn [fst];
      unfold new1;
      cbn -[bound fresh_identifier Sql.apply_affinity Visa.status_descriptions
            Visa.history_entry Sql.order_rows Sql.holds];
      rewrite !affinity_text_bound; reflexivity
    | apply in_map_iff; exists (Sql.project
                (Sql.Columns [ ("old_status", "old_status");
                               ("new_status", "new_status");
                               ("notes", "notes");
                               ("created_at", "created_at") ]) new2);
      split; [reflexivity|]; apply in_map, order_rows_in; exact Hlog ].
Qed.

Lemma status_after_submission_witness :
  let env := Sample.environment in
  let req := Scenario.visa_application "5" in
  let b := snd (Validator.run_chains env Visa.visaValidationRules (body req)) in
  let res := Visa.post_application env req Sample.empty_world in
  let read := Request [("applicationId", "UAE-1748736000000-K3J9X2MZQ")] [] [] [] in
  Validator.run_chains env Visa.visaValidationRules (body req) = ([], b)
  /\ statusCode (fst res) = 201
  /\ exists history,
       data_member "status_history" (fst (Visa.get_status env read (snd res)))
       = Some (JArr history)
       /\ In (JObj [ ("from", JNull);
                     ("to", JStr "pending");
                     ("notes", JStr "Application submitted");
                     ("timestamp", JStr "2025-06-01 00:00:00") ]) history.
Proof.
  intros env req b res read.
  assert (Hvalid : Validator.run_chains env Visa.visaValidationRules (body req)
                   = ([], b)) by reflexivity.
  assert (H201 : statusCode (fst res) = 201) by reflexivity.
  split; [exact Hvalid|]. split; [exact H201|].
  destruct (status_after_submission env req Sample.empty_world b Hvalid H201
              env read eq_refl) as [history [Hres Hin]].
  exists history. fold res in Hres. rewrite Hres. split; [reflexivity | exact Hin].
Defined.

(** ** Reading a feedback entry *)

(** X10.  [GET /api/feedback/:feedbackId] answers with the stored row whose
    identifier is the parameter, every column of it, or with 404; the store
    is not changed. *)
Theorem feedback_read_by_identifier :
  forall env req w,
    let res := Feedback.get_feedback env req w in
    match feedback_of (assoc "feedbackId" (params req)) w with
    | Some r =>
        res = (Response 200
                 (JObj [ ("status", JStr "success");
                         ("data", JObj [ ("feedback", json_of_row r) ]) ]), w)
    | None =>
        fst res
        = Response 404
            (JObj [ ("status", JStr "fail");
                    ("message", JStr "Feedback not found");
                    ("code", JStr "FEEDBACK_NOT_FOUND");
                    ("timestamp", JStr (toISOString_now env)) ])
        /\ store (snd res) = store w
    end.
Proof.
  intros env req w res.
  assert (E : Feedback.read_feedback env req w
              = match feedback_of (assoc "feedbackId" (params req)) w with
                | Some r =>
                    (Return (Response 200
                               (JObj [ ("status", JStr "success");
                                       ("data", JObj [ ("feedback", json_of_row r) ]) ])),
                     w)
                | None =>
                    (Throw (AppError "Feedback not found" 404
                              (Some "FEEDBACK_NOT_FOUND")), w)
                end).
  { unfold Feedback.read_feedback. unfold bind at 1.
    rewrite getRow_star by reflexivity.
    rewrite (find_ext _ (fun r => Sql.eq_value (Sql.get "feedback_id" r)
                                    (bound_param (assoc "feedbackId" (params req)))))
      by (intros;
          apply (holds_single_param _ _ (Sql.unique_not_null "feedback_id" Sql.TEXT));
          reflexivity).
    fold (feedback_rows w). fold (feedback_of (assoc "feedbackId" (params req)) w).
    destruct (feedback_of _ w); reflexivity. }
  subst res. unfold Feedback.get_feedback, plain_route, ErrorHandler.catchAsync.
  rewrite E. destruct (feedback_of _ w); [reflexivity|].
  split; [apply errorHandler_operational; discriminate | apply errorHandler_store].
Qed.

(** ** Contact messages: the stored row *)

Lemma run_chain_spares env c b k :
  spares k c = true -> assoc k b = None ->
  assoc k (snd (Validator.run_chain env c b)) = None.
Proof.
  unfold spares. intros H Hk.
  destruct (rewrites k c) eqn:R.
  - simpl in H. unfold rewrites in R.
    apply andb_true_iff in R. destruct R as [R _].
    apply andb_true_iff in R. destruct R as [Ef Ew].
    apply String.eqb_eq in Ef. apply negb_true_iff in Ew.
    unfold Validator.run_chain. rewrite Ew, Ef, Hk, H. exact Hk.
  - now rewrite run_chain_keeps.
Qed.

Lemma run_chains_spare env chains b k :
  forallb (spares k) chains = true -> assoc k b = None ->
  assoc k (snd (Validator.run_chains env chains b)) = None.
Proof.
  revert b. induction chains as [|c chains IH]; intros b H Hk; [exact Hk|].
  simpl in H. apply andb_true_iff in H. destruct H as [Hc Hr].
  rewrite run_chains_cons_body. apply IH; [exact Hr|]. now apply run_chain_spares.
Qed.

Lemma new_message_row env last b :
  Sql.new_row (CURRENT_TIMESTAMP env) last Sql.contact_messages
    [ ("message_id", Sql.VText (fresh_identifier env "CONTACT" 6));
      ("full_name", bound (assoc "name" b));
      ("email", bound (assoc "email" b));
      ("phone", bound (assoc "phone" b));
      ("subject", bound (assoc "subject" b));
      ("message", bound (assoc "message" b));
      ("inquiry_type",
       bound (Some (Contact.defaulted (assoc "inquiry_type" b) "general")));
      ("preferred_contact",
       bound (Some (Contact.defaulted (assoc "preferred_contact_method" b) "email")));
      ("status", Sql.VText "new");
      ("created_at", Sql.VText (CURRENT_TIMESTAMP env));
      ("updated_at", Sql.VText (CURRENT_TIMESTAMP env)) ]
  = stored_message env (last + 1)
      (assoc "name" b) (assoc "email" b) (assoc "phone" b)
      (assoc "subject" b) (assoc "message" b)
      (Contact.defaulted (assoc "inquiry_type" b) "general")
      (Contact.defaulted (assoc "preferred_contact_method" b) "email").
Proof.
  unfold stored_message, Sql.new_row.
  cbn -[bound fresh_identifier Sql.apply_affinity Contact.defaulted].
  rewrite !affinity_text_bound. reflexivity.
Qed.

(** X11.  An accepted contact submission adds exactly one row.  What the request
    leaves out is filled in: the inquiry type with [general], the preferred
    contact with [email], the phone with NULL; the status is [new], and the
    columns the route never names take the defaults of the table. *)
Theorem contact_row_applies_defaults :
  forall env req w b,
    Validator.run_chains env Contact.contactValidationRules (body req) = ([], b) ->
    let res := Contact.post_message env req w in
    statusCode (fst res) = 201 ->
    let row :=
      stored_message env (Sql.last_rowid (Sql.contact_messages_table (store w)) + 1)
        (assoc "name" b) (assoc "email" b) (assoc "phone" b)
        (assoc "subject" b) (assoc "message" b)
        (Contact.defaulted (assoc "inquiry_type" (body req)) "general")
        (Contact.defaulted (assoc "preferred_contact_method" (body req)) "email") in
    message_rows (snd res) = (message_rows w ++ [row])%list
    /\ (assoc "inquiry_type" (body req) = None ->
        Sql.get "inquiry_type" row = Sql.VText "general")
    /\ (assoc "preferred_contact_method" (body req) = None ->
        Sql.get "preferred_contact" row = Sql.VText "email")
    /\ (assoc "phone" (body req) = None -> Sql.get "phone" row = Sql.VNull)
    /\ Sql.get "status" row = Sql.VText "new"
    /\ Sql.get "urgency_level" row = Sql.VText "medium"
    /\ Sql.get "newsletter_subscription" row = Sql.VInt 0.
Proof.
  intros env req w b Hvalid res H201 row.
  assert (Hb : forall k, existsb (rewrites k) Contact.contactValidationRules = false ->
                         assoc k b = assoc k (body req)).
  { intros k Hk.
    rewrite <- (run_chains_keep env Contact.contactValidationRules (body req) k Hk).
    now rewrite Hvalid. }
  assert (Hphone : assoc "phone" (body req) = None -> assoc "phone" b = None).
  { intros Hk.
    pose proof (run_chains_spare env Contact.contactValidationRules (body req) "phone"
                  eq_refl Hk) as H.
    now rewrite Hvalid in H. }
  assert (Hres : res = Contact.post_message env req w) by reflexivity.
  clearbody res.
  unfold Contact.post_message in Hres.
  rewrite (route_accepted _ _ _ _ _ _ Hvalid) in Hres.
  unfold ErrorHandler.catchAsync, Contact.submit_message in Hres.
  change (field_of (with_body req b)) with (fun n => assoc n b) in Hres.
  cbv beta zeta in Hres.
  write_then_notify_in Hres env w Hrun r0 w'.
  specialize (Hrun (mail_only_two _ _ _)).
  cbn [Sql.exec] in Hrun.
  destruct (Sql.exec_insert _ _ _ _) as [[rr d']|c m] eqn:Hexec.
  2:{ injection Hrun as -> ->. subst res.
      destruct (errorHandler_sqlite env c m w) as [Hc _].
      rewrite Hc in H201. discriminate. }
  cbn [fst snd] in Hrun. destruct Hrun as [-> Hstore].
  apply exec_insert_done in Hexec. cbv zeta in Hexec.
  destruct Hexec as [Hrows _].
  rewrite new_message_row in Hrows.
  rewrite (Hb "inquiry_type" eq_refl), (Hb "preferred_contact_method" eq_refl) in Hrows.
  change (stored_message env _ _ _ _ _ _ _ _) with row in Hrows.
  subst res. cbn [fst snd]. unfold message_rows. rewrite Hstore, Hrows.
  split; [reflexivity|].
  split; [intros E; subst row; unfold stored_message; rewrite E; reflexivity|].
  split; [intros E; subst row; unfold stored_message; rewrite E; reflexivity|].
  split; [intros E; subst row; unfold stored_message; rewrite (Hphone E); reflexivity|].
  repeat split.
Qed.

Lemma contact_row_applies_defaults_witness :
  let env := Sample.environment in
  let req := Scenario.post Scenario.contact_body in
  let b := snd (Validator.run_chains env Contact.contactValidationRules (body req)) in
  let res := Contact.post_message env req Sample.empty_world in
  Validator.run_chains env Contact.contactValidationRules (body req) = ([], b)
  /\ statusCode (fst res) = 201
  /\ assoc "inquiry_type" (body req) = None
  /\ message_rows (snd res)
     = [ [ ("id", Sql.VInt 1);
           ("message_id", Sql.VText "CONTACT-1748736000000-K3J9X2");
           ("full_name", Sql.VText "Amina Yusuf");
           ("email", Sql.VText "amina@example.com");
           ("phone", Sql.VNull);
           ("inquiry_type", Sql.VText "general");
           ("subject", Sql.VText "Visa extension");
           ("message", Sql.VText "How do I extend a tourist visa?");
           ("preferred_contact", Sql.VText "email");
           ("urgency_level", Sql.VText "medium");
           ("newsletter_subscription", Sql.VInt 0);
           ("status", Sql.VText "new");
           ("created_at", Sql.VText "2025-06-01 00:00:00");
           ("updated_at", Sql.VText "2025-06-01 00:00:00") ] ].
Proof.
  intros env req b res.
  assert (Hvalid : Validator.run_chains env Contact.contactValidationRules (body req)
                   = ([], b)) by reflexivity.
  assert (H201 : statusCode (fst res) = 201) by reflexivity.
  split; [exact Hvalid|]. split; [exact H201|]. split; [reflexivity|].
  destruct (contact_row_applies_defaults env req Sample.empty_world b Hvalid H201)
    as [Hrows _].
  unfold res. rewrite Hrows. reflexivity.
Defined.

(** ** Bulk e-mail *)

Lemma sendEmail_throws env m w :
  sendEmail env m w
  = (Throw (TypeError "nodemailer.createTransporter is not a function"),
     World (store w) (console w ++ ["Email sending failed:"]) (error_log w)
       (outbox w) (attempts w) (transport w)).
Proof. reflexivity. Qed.

Lemma deliver_all env emails :
  forall results errors w,
    EmailService.deliver env emails results errors w
    = (Return (results,
               (errors
                ++ map (fun m => ("nodemailer.createTransporter is not a function",
                                  mail_to m)) emails)%list),
       World (store w)
         (console w ++ repeat "Email sending failed:" (List.length emails))
         (error_log w) (outbox w) (attempts w) (transport w)).
Proof.
  induction emails as [|m rest IH]; intros results errors w.
  - cbn [EmailService.deliver map List.length repeat]. unfold ret.
    rewrite !app_nil_r. destruct w; reflexivity.
  - cbn [EmailService.deliver]. unfold bind at 1. unfold try_catch at 1.
    unfold bind at 1. rewrite sendEmail_throws. unfold ret at 1. cbn [fst snd].
    rewrite IH. cbn [store console error_log outbox attempts transport
                     map List.length repeat ErrorHandler.message].
    rewrite <- !app_assoc. reflexivity.
Qed.

(** X12.  [sendBulkEmails] never throws and never sends: every message of
    the batch is tried once, in order, and fails in [createTransporter], a
    failure not stopping the next.  [results] is empty, [errors] has the
    error and the recipient of every message, the console has one line of
    [sendEmail] for each, and nothing else changes: the transport is never
    called. *)
Theorem bulk_delivery_fails_every_message :
  forall env emails w,
    EmailService.sendBulkEmails env emails w
    = (Return ([],
               map (fun m => ("nodemailer.createTransporter is not a function",
                              mail_to m)) emails),
       World (store w)
         (console w ++ repeat "Email sending failed:" (List.length emails))
         (error_log w) (outbox w) (attempts w) (transport w)).
Proof.
  intros env emails w. unfold EmailService.sendBulkEmails.
  rewrite deliver_all. reflexivity.
Qed.

Example bulk_delivery_of_two :
  let first := Mail "a@b.com" "One" "newsletter-welcome" [] in
  let second := Mail "c@d.com" "Two" "newsletter-welcome" [] in
  let run := EmailService.sendBulkEmails Sample.environment [first; second]
               (with_transport Sample.empty_world Sample.delivers) in
  fst run
  = Return ([], [ ("nodemailer.createTransporter is not a function", "a@b.com");
                  ("nodemailer.createTransporter is not a function", "c@d.com") ])
  /\ outbox (snd run) = []
  /\ attempts (snd run) = 0%nat
  /\ console (snd run) = ["Email sending failed:"; "Email sending failed:"].
Proof. vm_compute. repeat split. Qed.

(** ** Uploads *)

(** X13.  An upload that breaks a limit is answered 500 with multer's own code
    and message when NODE_ENV is [development], and 400 with one of four
    codes of the application in every other environment; the store is left
    alone in both. *)
Theorem upload_error_status_depends_on_environment :
  forall env err w,
    let res := Upload.errorHandler env err w in
    (NODE_ENV env = Some "development" ->
     fst res
     = Response 500
         (JObj [ ("status", JStr "error");
                 ("message", JStr (Upload.multer_message err));
                 ("code", JStr (Upload.multer_code err));
                 ("timestamp", JStr (toISOString_now env)) ]))
    /\ (NODE_ENV env <> Some "development" ->
        statusCode (fst res) = 400
        /\ jget "status" (payload (fst res)) = Some (JStr "fail")
        /\ exists c,
             jget "code" (payload (fst res)) = Some (JStr c)
             /\ In c ["FILE_TOO_LARGE"; "TOO_MANY_FILES"; "UNEXPECTED_FILE";
                      "UPLOAD_ERROR"])
    /\ store (snd res) = store w
    /\ outbox (snd res) = outbox w.
Proof.
  intros env err w res. subst res. unfold Upload.errorHandler. cbn [fst snd].
  split; [|split].
  - intros E. rewrite E. reflexivity.
  - intros Hne.
    assert (E : match NODE_ENV env with
                | Some m => (m =? "development")%string
                | None => false
                end = false).
    { destruct (NODE_ENV env) as [m|]; [|reflexivity].
      apply String.eqb_neq. congruence. }
    rewrite E. unfold Upload.handleMulterError.
    destruct (Upload.multer_code err =? "LIMIT_FILE_SIZE")%string;
      [|destruct (Upload.multer_code err =? "LIMIT_FILE_COUNT")%string;
        [|destruct (Upload.multer_code err =? "LIMIT_UNEXPECTED_FILE")%string]];
      (split; [reflexivity|]; split; [reflexivity|]; eexists;
       split; [reflexivity|]; simpl; tauto).
  - unfold Upload.logError.
    destruct (match NODE_ENV env with
              | Some m => (m =? "production")%string
              | None => false
              end); split; reflexivity.
Qed.

(** X14.  A file whose type the filter refuses is answered 400 [fail], in every
    environment, with a message that names the field and lists the types
    allowed for it ([undefined] for a field without a list). *)
Theorem refused_file_is_answered_400 :
  forall env fieldname mimetype e w,
    Visa.fileFilter fieldname mimetype = Visa.Rejected e ->
    let res := ErrorHandler.errorHandler env e w in
    fst res
    = Response 400
        (JObj [ ("status", JStr "fail");
                ("message",
                 JStr ("Invalid file type for " ++ fieldname ++ ". Allowed types: "
                         ++ match assoc fieldname Visa.allowedTypes with
                            | Some types => Js.join ", " types
                            | None => "undefined"
                            end));
                ("code", JNull);
                ("timestamp", JStr (toISOString_now env)) ])
    /\ store (snd res) = store w.
Proof.
  intros env fieldname mimetype e w H res. subst res.
  split; [|apply errorHandler_store].
  unfold Visa.fileFilter in H.
  destruct (assoc fieldname Visa.allowedTypes) as [types|].
  - destruct (Js.includes mimetype types); [discriminate|].
    injection H as <-. now rewrite errorHandler_operational.
  - destruct (Js.includes fieldname Visa.object_prototype_members); [discriminate|].
    injection H as <-. now rewrite errorHandler_operational.
Qed.

Lemma refused_file_is_answered_400_witness :
  let e := AppError "Invalid file type for photo. Allowed types: image/jpeg, image/png, image/jpg"
             400 None in
  let res := ErrorHandler.errorHandler Sample.environment e Sample.empty_world in
  Visa.fileFilter "photo" "application/pdf" = Visa.Rejected e
  /\ statusCode (fst res) = 400
  /\ jget "message" (payload (fst res))
     = Some (JStr "Invalid file type for photo. Allowed types: image/jpeg, image/png, image/jpg").
Proof.
  intros e res.
  assert (H : Visa.fileFilter "photo" "application/pdf" = Visa.Rejected e)
    by reflexivity.
  split; [exact H|].
  destruct (refused_file_is_answered_400 Sample.environment "photo" "application/pdf"
              e Sample.empty_world H) as [Hres _].
  unfold res. rewrite Hres. split; reflexivity.
Defined.

Lemma includes_incl x l1 l2 :
  incl l1 l2 -> Js.includes x l1 = true -> Js.includes x l2 = true.
Proof.
  intros Hi H. unfold Js.includes in *. apply existsb_exists in H.
  destruct H as [y [Hy E]]. apply existsb_exists. exists y. split; [apply Hi, Hy | exact E].
Qed.

(** X15.  What the filter accepts as a photo it accepts as a passport copy, and
    what it accepts for any field it accepts as an additional document. *)
Theorem additional_documents_is_the_widest_field :
  forall fieldname mimetype,
    Visa.fileFilter fieldname mimetype = Visa.Accepted ->
    Visa.fileFilter "additional_documents" mimetype = Visa.Accepted
    /\ (fieldname = "photo" ->
        Visa.fileFilter "passport_copy" mimetype = Visa.Accepted).
Proof.
  intros fieldname mimetype H.
  assert (Hacc : forall f types,
             assoc f Visa.allowedTypes = Some types ->
             Js.includes mimetype types = true ->
             Visa.fileFilter f mimetype = Visa.Accepted).
  { intros f types E I. unfold Visa.fileFilter. now rewrite E, I. }
  unfold Visa.fileFilter in H.
  destruct (assoc fieldname Visa.allowedTypes) as [types|] eqn:E.
  2:{ destruct (Js.includes fieldname Visa.object_prototype_members); discriminate. }
  destruct (Js.includes mimetype types) eqn:I; [|discriminate].
  unfold Visa.allowedTypes in E. cbn [assoc] in E.
  split.
  - apply (Hacc "additional_documents" _ eq_refl).
    repeat (destruct (String.eqb fieldname _) in E;
            [injection E as <-; revert I; apply includes_incl;
             intros x Hx; simpl in *; tauto|]).
    discriminate.
  - intros ->. cbn in E. injection E as <-.
    apply (Hacc "passport_copy" _ eq_refl). revert I. apply includes_incl.
    intros x Hx; simpl in *; tauto.
Qed.

Lemma additional_documents_is_the_widest_field_witness :
  Visa.fileFilter "photo" "image/png" = Visa.Accepted
  /\ Visa.fileFilter "additional_documents" "image/png" = Visa.Accepted
  /\ Visa.fileFilter "passport_copy" "image/png" = Visa.Accepted.
Proof.
  assert (H : Visa.fileFilter "photo" "image/png" = Visa.Accepted) by reflexivity.
  split; [exact H|].
  destruct (additional_documents_is_the_widest_field "photo" "image/png" H)
    as [Ha Hp].
  split; [exact Ha | exact (Hp eq_refl)].
Defined.

(** ** The sanitizers of the rule library *)

Lemma str_chars s : Js.str (Js.chars s) = s.
Proof. apply string_of_list_ascii_of_string. Qed.

Lemma has_tag_without_closing l :
  existsb (Ascii.eqb ">") l = false -> has_tag l = false.
Proof.
  induction l as [|c l IH]; simpl; [reflexivity|].
  intros H. apply orb_false_iff in H. destruct H as [_ H].
  rewrite H, andb_false_r. simpl. now apply IH.
Qed.

Lemma strip_tags_no_tag l : forall inside, has_tag (Validation.strip_tags inside l) = false.
Proof.
  induction l as [|c l IH]; intros inside; simpl; [destruct inside; reflexivity|].
  destruct inside.
  - destruct (Ascii.eqb c ">"); apply IH.
  - destruct (Ascii.eqb c "<") eqn:E.
    + destruct (existsb (Ascii.eqb ">") l) eqn:G; [apply IH|].
      simpl. rewrite E, G. simpl. now apply has_tag_without_closing.
    + simpl. rewrite E. simpl. apply IH.
Qed.

Lemma strip_tags_without_tag l : has_tag l = false -> Validation.strip_tags false l = l.
Proof.
  induction l as [|c l IH]; simpl; [reflexivity|].
  intros H. apply orb_false_iff in H. destruct H as [H1 H2].
  destruct (Ascii.eqb c "<").
  - simpl in H1. now rewrite H1.
  - now rewrite IH.
Qed.

(** X16.  [stripHtml] leaves no [<] with a [>] after it, so stripping twice is
    stripping once; a text without such a pair is not changed; an array is
    left alone. *)
Theorem stripHtml_removes_every_tag :
  forall value,
    has_tag (Js.chars (Validation.strip_html value)) = false
    /\ Validation.strip_html (Validation.strip_html value) = Validation.strip_html value
    /\ (has_tag (Js.chars value) = false -> Validation.strip_html value = value)
    /\ forall items, Validation.stripHtml (Arr items) = Arr items.
Proof.
  intros value. unfold Validation.strip_html. rewrite !chars_str.
  split; [apply strip_tags_no_tag|]. split; [|split].
  - now rewrite strip_tags_without_tag by apply strip_tags_no_tag.
  - intros H. rewrite strip_tags_without_tag by exact H. apply str_chars.
  - reflexivity.
Qed.

Example stripHtml_on_markup :
  Validation.stripHtml (Str "<b>Dubai</b> <script>alert(1)</script>a < b")
  = Str "Dubai alert(1)a < b"
  /\ Validation.strip_html "<<b>i>x" = "i>x".
Proof. split; reflexivity. Qed.

Lemma filter_idempotent {A : Type} (p : A -> bool) l :
  filter p (filter p l) = filter p l.
Proof.
  induction l as [|x l IH]; simpl; [reflexivity|].
  destruct (p x) eqn:E; simpl; [rewrite E|]; now rewrite ?IH.
Qed.

Lemma filter_all {A : Type} (p : A -> bool) l :
  forallb p l = true -> filter p l = l.
Proof.
  induction l as [|x l IH]; simpl; [reflexivity|].
  intros H. apply andb_true_iff in H. destruct H as [Hx Hl].
  now rewrite Hx, IH.
Qed.

Lemma leading_digit c : Js.between 49 57 c = true -> Js.is_digit c = true.
Proof.
  unfold Js.is_digit, Js.between. intros H.
  apply andb_true_iff in H. destruct H as [H1 H2].
  apply Z.leb_le in H1. apply andb_true_iff. split; [apply Z.leb_le; lia | exact H2].
Qed.

(** What [patterns.phone] accepts: an optional [+], then digits. *)
Lemma phone_shape s :
  Patterns.phone s = true ->
  exists c digits,
    (Js.chars s = c :: digits \/ Js.chars s = "+"%char :: c :: digits)
    /\ Js.between 49 57 c = true
    /\ forallb Js.is_digit digits = true
    /\ (1 <= List.length digits <= 14)%nat.
Proof.
  unfold Patterns.phone. destruct (Js.chars s) as [|a l]; [discriminate|].
  destruct (Ascii.eqb a "+") eqn:E.
  - apply Ascii.eqb_eq in E. subst a. destruct l as [|c digits]; [discriminate|].
    intros H. apply andb_true_iff in H. destruct H as [H H3].
    apply andb_true_iff in H. destruct H as [H H2].
    apply andb_true_iff in H. destruct H as [H0 H1].
    apply Nat.leb_le in H2, H3. exists c, digits. auto.
  - intros H. apply andb_true_iff in H. destruct H as [H H3].
    apply andb_true_iff in H. destruct H as [H H2].
    apply andb_true_iff in H. destruct H as [H0 H1].
    apply Nat.leb_le in H2, H3. exists a, l. auto.
Qed.

(** X17.  [normalizePhone] keeps digits and [+] only; it changes no number that
    [patterns.phone] accepts, and normalizing twice is normalizing once. *)
Theorem normalizePhone_keeps_accepted_numbers :
  forall value,
    forallb (fun c => Js.is_digit c || Ascii.eqb c "+")
            (Js.chars (Validation.normalize_phone value)) = true
    /\ Validation.normalize_phone (Validation.normalize_phone value)
       = Validation.normalize_phone value
    /\ (Patterns.phone value = true -> Validation.normalize_phone value = value).
Proof.
  intros value. unfold Validation.normalize_phone. rewrite !chars_str.
  split; [|split].
  - apply forallb_forall. intros x Hx. apply filter_In in Hx. apply Hx.
  - now rewrite filter_idempotent.
  - intros H. destruct (phone_shape _ H) as [c [digits [Hs [Hc [Hd _]]]]].
    rewrite filter_all; [apply str_chars|].
    assert (Hall : forallb (fun c0 => Js.is_digit c0 || Ascii.eqb c0 "+") (c :: digits)
                   = true).
    { simpl. rewrite (leading_digit _ Hc). simpl.
      revert Hd. apply forallb_weaken. intros x Hx. now rewrite Hx. }
    destruct Hs as [-> | ->]; [exact Hall | simpl in *; exact Hall].
Qed.

Example normalizePhone_on_a_spaced_number :
  Validation.normalizePhone (Str "+971 (50) 123-4567") = Str "+971501234567"
  /\ Patterns.phone "+971 (50) 123-4567" = false
  /\ Patterns.phone "+971501234567" = true.
Proof. repeat split. Qed.

(** ** The telephone number, from the form to the route *)

Lemma digits_of_str l : Frontend.digits_of (Js.str l) = filter Js.is_digit l.
Proof. unfold Frontend.digits_of. now rewrite chars_str. Qed.

Lemma digits_are_digits phone : forallb Js.is_digit (Frontend.digits_of phone) = true.
Proof.
  apply forallb_forall. intros x Hx. apply filter_In in Hx. apply Hx.
Qed.

Lemma filter_app_all {A : Type} (p : A -> bool) l1 l2 :
  filter p (l1 ++ l2) = (filter p l1 ++ filter p l2)%list.
Proof. induction l1 as [|x l1 IH]; simpl; [reflexivity|]. destruct (p x); simpl; now rewrite IH. Qed.

Lemma forallb_firstn {A : Type} (p : A -> bool) n l :
  forallb p l = true -> forallb p (firstn n l) = true.
Proof.
  revert l. induction n as [|n IH]; intros [|x l]; simpl; try reflexivity.
  intros H. apply andb_true_iff in H. destruct H as [Hx Hl]. now rewrite Hx, IH.
Qed.

Lemma forallb_skipn {A : Type} (p : A -> bool) n l :
  forallb p l = true -> forallb p (skipn n l) = true.
Proof.
  revert l. induction n as [|n IH]; intros [|x l]; simpl; try reflexivity; auto.
  intros H. apply andb_true_iff in H. destruct H as [Hx Hl]. now apply IH.
Qed.

(** The digits of what [utils.formatPhoneNumber] returns are those of what
    it was given. *)
Lemma digits_of_formatPhoneNumber phone :
  Frontend.digits_of (Frontend.formatPhoneNumber phone) = Frontend.digits_of phone.
Proof.
  unfold Frontend.formatPhoneNumber.
  destruct (List.length (Frontend.digits_of phone) =? 10)%nat; [|reflexivity].
  pose proof (digits_are_digits phone) as Hd.
  set (c := Frontend.digits_of phone) in *.
  rewrite digits_of_str.
  cbn [filter app]. change (Js.is_digit "(") with false. cbv iota.
  rewrite filter_app_all. cbn [filter].
  change (Js.is_digit ")") with false. change (Js.is_digit " ") with false. cbv iota.
  rewrite filter_app_all. cbn [filter]. change (Js.is_digit "-") with false. cbv iota.
  rewrite !filter_all
    by (try apply forallb_firstn; try apply forallb_skipn;
        try apply forallb_firstn; try apply forallb_skipn; exact Hd).
  change 6%nat with (3 + 3)%nat. rewrite <- skipn_skipn.
  now rewrite !firstn_skipn.
Qed.

(** X18.  [utils.formatPhoneNumber], run on every keystroke, settles: formatting
    what it returned returns the same, and the number is valid for
    [utils.isValidPhone] exactly when it was before. *)
Theorem formatPhoneNumber_settles :
  forall phone,
    Frontend.formatPhoneNumber (Frontend.formatPhoneNumber phone)
    = Frontend.formatPhoneNumber phone
    /\ Frontend.isValidPhone (Frontend.formatPhoneNumber phone)
       = Frontend.isValidPhone phone.
Proof.
  intros phone. split.
  - unfold Frontend.formatPhoneNumber at 1 3.
    rewrite digits_of_formatPhoneNumber.
    destruct (List.length (Frontend.digits_of phone) =? 10)%nat eqn:E; [reflexivity|].
    unfold Frontend.formatPhoneNumber. now rewrite E.
  - unfold Frontend.isValidPhone. now rewrite digits_of_formatPhoneNumber.
Qed.

Example formatPhoneNumber_of_ten_digits :
  Frontend.formatPhoneNumber "5551234567" = "(555) 123-4567"
  /\ Frontend.formatPhoneNumber "+971501234567" = "+971501234567"
  /\ Frontend.formatPhoneNumber "555-123-4567" = "(555) 123-4567".
Proof. repeat split. Qed.

(** The digits of what [FormHandler.formatPhoneNumber] returns are the
    first ten of what it was given. *)
Lemma digits_of_FormHandler_formatPhoneNumber phone :
  Frontend.digits_of (Frontend.FormHandler_formatPhoneNumber phone)
  = firstn 10 (Frontend.digits_of phone).
Proof.
  unfold Frontend.FormHandler_formatPhoneNumber.
  pose proof (digits_are_digits phone) as Hd.
  set (c := Frontend.digits_of phone) in *.
  destruct (List.length c <=? 3)%nat eqn:E3;
    [|destruct (List.length c <=? 6)%nat eqn:E6];
    rewrite digits_of_str.
  - apply Nat.leb_le in E3. rewrite filter_all by exact Hd.
    symmetry. apply firstn_all2. lia.
  - apply Nat.leb_le in E6. rewrite filter_app_all. cbn [filter].
    change (Js.is_digit "-") with false. cbv iota.
    rewrite !filter_all
      by (try apply forallb_firstn; try apply forallb_skipn; exact Hd).
    rewrite firstn_skipn. symmetry. apply firstn_all2. lia.
  - rewrite filter_app_all. cbn [filter].
    change (Js.is_digit "-") with false. cbv iota.
    rewrite filter_app_all. cbn [filter].
    change (Js.is_digit "-") with false. cbv iota.
    rewrite !filter_all
      by (try apply forallb_firstn; try apply forallb_skipn;
          try apply forallb_firstn; try apply forallb_skipn; exact Hd).
    clear.
    assert (H : forall (l : list ascii),
               (firstn 3 l ++ firstn 3 (skipn 3 l) ++ firstn 4 (skipn 6 l))%list
               = firstn 10 l).
    { intros l. do 10 (destruct l as [|? l]; [reflexivity|]). reflexivity. }
    apply H.
Qed.

Lemma firstn_firstn_le {A : Type} n m (l : list A) :
  (n <= m)%nat -> firstn n (firstn m l) = firstn n l.
Proof. intros H. rewrite firstn_firstn. now rewrite Nat.min_l. Qed.

(** X19.  [FormHandler.formatPhoneNumber], run on every keystroke, settles too. *)
Theorem FormHandler_formatPhoneNumber_settles :
  forall phone,
    Frontend.FormHandler_formatPhoneNumber (Frontend.FormHandler_formatPhoneNumber phone)
    = Frontend.FormHandler_formatPhoneNumber phone.
Proof.
  intros phone.
  unfold Frontend.FormHandler_formatPhoneNumber at 1.
  rewrite digits_of_FormHandler_formatPhoneNumber.
  unfold Frontend.FormHandler_formatPhoneNumber.
  set (c := Frontend.digits_of phone).
  rewrite length_firstn.
  destruct (List.length c <=? 3)%nat eqn:E3.
  { apply Nat.leb_le in E3.
    assert (E : (Nat.min 10 (List.length c) <=? 3)%nat = true)
      by (apply Nat.leb_le; lia).
    rewrite E. f_equal. apply firstn_all2. lia. }
  apply Nat.leb_gt in E3.
  assert (E : (Nat.min 10 (List.length c) <=? 3)%nat = false)
    by (apply Nat.leb_gt; lia).
  rewrite E.
  destruct (List.length c <=? 6)%nat eqn:E6.
  { apply Nat.leb_le in E6.
    assert (E' : (Nat.min 10 (List.length c) <=? 6)%nat = true)
      by (apply Nat.leb_le; lia).
    rewrite E'. now rewrite (firstn_all2 (n := 10)) by lia. }
  apply Nat.leb_gt in E6.
  assert (E' : (Nat.min 10 (List.length c) <=? 6)%nat = false)
    by (apply Nat.leb_gt; lia).
  rewrite E'. f_equal.
  clear. do 10 (destruct c as [|? c]; [reflexivity|]). reflexivity.
Qed.

Example FormHandler_formatPhoneNumber_steps :
  Frontend.FormHandler_formatPhoneNumber "97" = "97"
  /\ Frontend.FormHandler_formatPhoneNumber "97150" = "971-50"
  /\ Frontend.FormHandler_formatPhoneNumber "+971501234567" = "971-501-2345".
Proof. repeat split. Qed.

Lemma drop_while_none (p : ascii -> bool) l :
  forallb (fun c => negb (p c)) l = true -> Js.drop_while p l = l.
Proof.
  destruct l as [|c l]; simpl; [reflexivity|].
  intros H. apply andb_true_iff in H. destruct H as [H _].
  apply negb_true_iff in H. now rewrite H.
Qed.

Lemma forallb_rev {A : Type} (p : A -> bool) l :
  forallb p l = true -> forallb p (rev l) = true.
Proof.
  intros H. apply forallb_forall. intros x Hx. apply in_rev in Hx.
  revert x Hx. now apply forallb_forall.
Qed.

(** [trim] changes no text that has no white space. *)
Lemma trim_without_space l :
  forallb (fun c => negb (Js.is_space c)) l = true -> Js.trim (Js.str l) = Js.str l.
Proof.
  intros H. unfold Js.trim. rewrite chars_str.
  rewrite (drop_while_none _ l H).
  rewrite (drop_while_none _ (rev l)) by now apply forallb_rev.
  now rewrite rev_involutive.
Qed.

Lemma digit_is_no_space c : Js.is_digit c = true -> negb (Js.is_space c) = true.
Proof.
  unfold Js.is_digit, Js.is_space, Js.between. intros H.
  apply andb_true_iff in H. destruct H as [H1 H2].
  apply Z.leb_le in H1. apply Z.leb_le in H2.
  apply negb_true_iff, orb_false_iff. split; [apply orb_false_iff; split|].
  - apply andb_false_iff. right. apply Z.leb_gt. lia.
  - apply Z.eqb_neq. lia.
  - apply Z.eqb_neq. lia.
Qed.

Lemma digits_without_space l :
  forallb Js.is_digit l = true -> forallb (fun c => negb (Js.is_space c)) l = true.
Proof. apply forallb_weaken. exact digit_is_no_space. Qed.

Lemma forallb_app_intro {A : Type} (p : A -> bool) l1 l2 :
  forallb p l1 = true -> forallb p l2 = true -> forallb p (l1 ++ l2) = true.
Proof. intros H1 H2. rewrite forallb_app. now rewrite H1, H2. Qed.

Lemma phone_no_letter l c rest :
  Js.is_digit c = false -> Ascii.eqb c "+" = false ->
  Patterns.phone (Js.str (l ++ c :: rest)) = false.
Proof.
  intros Hc Hp. unfold Patterns.phone. rewrite chars_str.
  assert (G : forall d, forallb Js.is_digit (d ++ c :: rest) = false).
  { intros d. rewrite forallb_app. simpl. rewrite Hc. apply andb_false_r. }
  destruct l as [|a l]; simpl.
  - rewrite Hp.
    assert (E : Js.between 49 57 c = false).
    { destruct (Js.between 49 57 c) eqn:E; [|reflexivity].
      apply leading_digit in E. congruence. }
    now rewrite E.
  - destruct (Ascii.eqb a "+").
    + destruct l as [|b l]; simpl.
      * assert (E : Js.between 49 57 c = false).
        { destruct (Js.between 49 57 c) eqn:E; [|reflexivity].
          apply leading_digit in E. congruence. }
        now rewrite E.
      * rewrite (G l). now rewrite andb_false_r.
    + rewrite (G l). now rewrite andb_false_r.
Qed.

(** No telephone number that either formatter has rewritten matches the
    pattern the routes test it with, before or after [trim]. *)
Lemma formatted_numbers_miss_the_pattern phone :
  ((List.length (Frontend.digits_of phone) = 10)%nat ->
   Patterns.phone (Js.trim (Frontend.formatPhoneNumber phone)) = false)
  /\ ((3 < List.length (Frontend.digits_of phone))%nat ->
      Patterns.phone (Js.trim (Frontend.FormHandler_formatPhoneNumber phone)) = false).
Proof.
  pose proof (digits_are_digits phone) as Hd.
  split; intros H.
  - unfold Frontend.formatPhoneNumber. apply Nat.eqb_eq in H. rewrite H.
    set (c := Frontend.digits_of phone) in *.
    assert (Hf : Js.trim (Js.str
                  ("("%char :: firstn 3 c ++ ")"%char :: " "%char
                     :: firstn 3 (skipn 3 c) ++ "-"%char :: skipn 6 c))
                 = Js.str
                     ("("%char :: firstn 3 c ++ ")"%char :: " "%char
                        :: firstn 3 (skipn 3 c) ++ "-"%char :: skipn 6 c)).
    { unfold Js.trim. rewrite chars_str.
      change (Js.drop_while Js.is_space ("("%char :: ?l)) with ("("%char :: l).
      assert (Hlast : exists x r,
                 rev ("("%char :: firstn 3 c ++ ")"%char :: " "%char
                        :: firstn 3 (skipn 3 c) ++ "-"%char :: skipn 6 c)
                 = x :: r /\ Js.is_space x = false).
      { apply Nat.eqb_eq in H. clearbody c.
        do 10 (destruct c as [|? c]; [discriminate|]).
        destruct c; [|discriminate].
        simpl in Hd.
        repeat (apply andb_true_iff in Hd; destruct Hd as [? Hd]).
        eexists _, _. split; [reflexivity|].
        apply negb_true_iff. now apply digit_is_no_space. }
      destruct Hlast as [x [r [E Hx]]]. rewrite E. simpl. rewrite Hx.
      rewrite <- E. now rewrite rev_involutive. }
    rewrite Hf. apply (phone_no_letter []); reflexivity.
  - unfold Frontend.FormHandler_formatPhoneNumber.
    set (c := Frontend.digits_of phone) in *.
    assert (E3 : (List.length c <=? 3)%nat = false) by (apply Nat.leb_gt; lia).
    rewrite E3.
    assert (Hdash : negb (Js.is_space "-") = true) by reflexivity.
    destruct (List.length c <=? 6)%nat.
    + rewrite trim_without_space.
      * apply phone_no_letter; reflexivity.
      * apply forallb_app_intro; [apply digits_without_space, forallb_firstn, Hd|].
        cbn [forallb]; rewrite Hdash; cbn [andb]. apply digits_without_space, forallb_skipn, Hd.
    + rewrite trim_without_space.
      * apply phone_no_letter; reflexivity.
      * apply forallb_app_intro; [apply digits_without_space, forallb_firstn, Hd|].
        cbn [forallb]; rewrite Hdash; cbn [andb]. apply forallb_app_intro;
          [apply digits_without_space, forallb_firstn, forallb_skipn, Hd|].
        cbn [forallb]; rewrite Hdash; cbn [andb]. apply digits_without_space, forallb_firstn, forallb_skipn, Hd.
Qed.

(** A chain [body(name).trim().matches(pattern)] reports a text the pattern
    refuses once trimmed. *)
Lemma trimmed_pattern_refuses env name optional pattern m b s :
  assoc name b = Some (Str s) ->
  pattern (Js.trim s) = false ->
  In (ValidationError name m (Some (Str (Js.trim s))))
     (fst (Validator.run_chain env
             (Validator.Chain name false optional
                [ Validator.trim; Validator.check (Validator.Matches pattern) m ])
             b)).
Proof.
  intros Hs Hp. unfold Validator.run_chain.
  cbn [Validator.wildcard Validator.field Validator.optional Validator.items].
  rewrite Hs.
  unfold Validator.trim, Validator.check.
  cbn [Validator.run_items Validator.sanitize Validator.sanitize_string fst].
  cbn [Validator.validate_item Validator.strings_of filter Validator.test].
  rewrite Hp. left. reflexivity.
Qed.

Lemma rejection_lists env before c after handler req w e :
  In e (fst (Validator.run_chain env c
               (snd (Validator.run_chains env before (body req))))) ->
  let res := route env (before ++ c :: after) handler req w in
  statusCode (fst res) = 400
  /\ snd res = w
  /\ exists entries,
       jget "errors" (payload (fst res)) = Some (JArr entries)
       /\ In (ErrorHandler.error_entry e) entries.
Proof.
  intros Hin res.
  pose proof (run_chains_app env before c after (body req) e Hin) as Hx.
  assert (Hne : fst (Validator.run_chains env (before ++ c :: after) (body req)) <> []).
  { intros E. rewrite E in Hx. contradiction. }
  subst res. rewrite (route_rejection _ _ _ _ _ Hne). cbn [fst snd statusCode payload].
  split; [reflexivity|]. split; [reflexivity|].
  eexists. split; [reflexivity|].
  apply (in_map ErrorHandler.error_entry) in Hx. exact Hx.
Qed.

(** The validators of the visa route refuse what
    [FormHandler.formatPhoneNumber] makes of more than three digits. *)
Lemma formatted_phone_fails_validation :
  forall env req w phone,
    (3 < List.length (Frontend.digits_of phone))%nat ->
    assoc "phone" (body req)
    = Some (Str (Frontend.FormHandler_formatPhoneNumber phone)) ->
    let res := Visa.post_application env req w in
    statusCode (fst res) = 400
    /\ snd res = w
    /\ exists entries,
         jget "errors" (payload (fst res)) = Some (JArr entries)
         /\ In (JObj [ ("field", JStr "phone");
                       ("message", JStr "Please provide a valid phone number");
                       ("value",
                        JStr (Js.trim (Frontend.FormHandler_formatPhoneNumber phone))) ])
               entries.
Proof.
  intros env req w phone Hlen Hphone.
  set (before := firstn 2 Visa.visaValidationRules).
  set (after := skipn 3 Visa.visaValidationRules).
  apply (rejection_lists env before _ after Visa.submit_application req w
           (ValidationError "phone" "Please provide a valid phone number"
              (Some (Str (Js.trim (Frontend.FormHandler_formatPhoneNumber phone)))))).
  apply trimmed_pattern_refuses.
  - rewrite (run_chains_keep env before (body req) "phone") by reflexivity.
    exact Hphone.
  - now apply formatted_numbers_miss_the_pattern.
Qed.

(** X20.  The visa form rewrites the telephone number on every keystroke with
    [FormHandler.formatPhoneNumber].  Once it holds more than three digits,
    what the form then submits never gets past the validators of the visa
    route.  When the upload stage hands the request on, it is answered 400
    with an entry for [phone], and store, logs and outbox are as before
    (the files multer stored stay on disk).  When the upload stage stops
    it, the error middleware answers and neither store nor outbox
    changes. *)
Theorem visa_route_refuses_the_number_its_form_formats :
  forall env upload req w phone,
    (3 < List.length (Frontend.digits_of phone))%nat ->
    assoc "phone" (body req)
    = Some (Str (Frontend.FormHandler_formatPhoneNumber phone)) ->
    let res := Visa.application_route env upload req w in
    store (snd res) = store w
    /\ outbox (snd res) = outbox w
    /\ (upload = Visa.Stored ->
        statusCode (fst res) = 400
        /\ snd res = w
        /\ exists entries,
             jget "errors" (payload (fst res)) = Some (JArr entries)
             /\ In (JObj [ ("field", JStr "phone");
                           ("message", JStr "Please provide a valid phone number");
                           ("value",
                            JStr (Js.trim
                                    (Frontend.FormHandler_formatPhoneNumber phone))) ])
                   entries).
Proof.
  intros env upload req w phone Hlen Hphone res.
  pose proof (formatted_phone_fails_validation env req w phone Hlen Hphone) as H.
  cbv zeta in H. destruct H as [H400 [Hw Hentries]].
  subst res. destruct upload as [|e|err]; cbn [Visa.application_route].
  - rewrite Hw. split; [reflexivity|]. split; [reflexivity|].
    intros _. split; [exact H400|]. split; [reflexivity | exact Hentries].
  - split; [apply errorHandler_store|]. split; [|discriminate].
    unfold ErrorHandler.errorHandler, ErrorHandler.logError. cbn [snd].
    destruct (match NODE_ENV env with
              | Some m => (m =? "production")%string
              | None => false
              end); reflexivity.
  - split; [|split; [|discriminate]];
      unfold Upload.errorHandler, Upload.logError; cbn [snd];
      destruct (match NODE_ENV env with
                | Some m => (m =? "production")%string
                | None => false
                end); reflexivity.
Qed.

Lemma visa_route_refuses_the_number_its_form_formats_witness :
  let env := Sample.environment in
  let typed := "971501234567" in
  let req := Scenario.post [ ("phone",
                              Str (Frontend.FormHandler_formatPhoneNumber typed)) ] in
  let res := Visa.application_route env Visa.Stored req Sample.empty_world in
  (3 < List.length (Frontend.digits_of typed))%nat
  /\ Frontend.FormHandler_formatPhoneNumber typed = "971-501-2345"
  /\ statusCode (fst res) = 400
  /\ exists entries,
       jget "errors" (payload (fst res)) = Some (JArr entries)
       /\ In (JObj [ ("field", JStr "phone");
                     ("message", JStr "Please provide a valid phone number");
                     ("value", JStr "971-501-2345") ]) entries.
Proof.
  intros env typed req res.
  assert (Hlen : (3 < List.length (Frontend.digits_of typed))%nat)
    by (vm_compute; repeat constructor).
  split; [exact Hlen|]. split; [reflexivity|].
  destruct (visa_route_refuses_the_number_its_form_formats env Visa.Stored req
              Sample.empty_world typed Hlen eq_refl) as [_ [_ H]].
  destruct (H eq_refl) as [H400 [_ Hentries]].
  split; [exact H400 | exact Hentries].
Defined.

(** X21.  The contact form rewrites a telephone number of ten digits with
    [utils.formatPhoneNumber]; what it then submits is refused by the
    contact route. *)
Theorem contact_route_refuses_the_number_its_form_formats :
  forall env req w phone,
    (List.length (Frontend.digits_of phone) = 10)%nat ->
    assoc "phone" (body req) = Some (Str (Frontend.formatPhoneNumber phone)) ->
    let res := Contact.post_message env req w in
    statusCode (fst res) = 400
    /\ snd res = w
    /\ exists entries,
         jget "errors" (payload (fst res)) = Some (JArr entries)
         /\ In (JObj [ ("field", JStr "phone");
                       ("message", JStr "Please provide a valid phone number");
                       ("value", JStr (Js.trim (Frontend.formatPhoneNumber phone))) ])
               entries.
Proof.
  intros env req w phone Hlen Hphone.
  set (before := firstn 2 Contact.contactValidationRules).
  set (after := skipn 3 Contact.contactValidationRules).
  apply (rejection_lists env before _ after Contact.submit_message req w
           (ValidationError "phone" "Please provide a valid phone number"
              (Some (Str (Js.trim (Frontend.formatPhoneNumber phone)))))).
  apply trimmed_pattern_refuses.
  - rewrite (run_chains_keep env before (body req) "phone") by reflexivity.
    exact Hphone.
  - now apply formatted_numbers_miss_the_pattern.
Qed.

Lemma contact_route_refuses_the_number_its_form_formats_witness :
  let env := Sample.environment in
  let typed := "5551234567" in
  let req := Scenario.post [ ("phone", Str (Frontend.formatPhoneNumber typed)) ] in
  let res := Contact.post_message env req Sample.empty_world in
  (List.length (Frontend.digits_of typed) = 10)%nat
  /\ Frontend.formatPhoneNumber typed = "(555) 123-4567"
  /\ statusCode (fst res) = 400
  /\ exists entries,
       jget "errors" (payload (fst res)) = Some (JArr entries)
       /\ In (JObj [ ("field", JStr "phone");
                     ("message", JStr "Please provide a valid phone number");
                     ("value", JStr "(555) 123-4567") ]) entries.
Proof.
  intros env typed req res.
  split; [reflexivity|]. split; [reflexivity|].
  destruct (contact_route_refuses_the_number_its_form_formats env req
              Sample.empty_world typed eq_refl eq_refl) as [H400 [_ Hentries]].
  split; [exact H400 | exact Hentries].
Defined.

(** X22.  Every number the routes accept passes the check of the forms,
    [utils.isValidPhone]; the forms accept more. *)
Theorem accepted_numbers_pass_the_form_check :
  forall phone,
    Patterns.phone phone = true -> Frontend.isValidPhone phone = true.
Proof.
  intros phone H. destruct (phone_shape _ H) as [c [digits [Hs [Hc [Hd [_ Hl]]]]]].
  unfold Frontend.isValidPhone, Frontend.digits_of.
  assert (E : filter Js.is_digit (Js.chars phone) = c :: digits).
  { destruct Hs as [-> | ->]; cbn [filter];
      change (Js.is_digit "+") with false; cbv iota;
      rewrite (leading_digit _ Hc); now rewrite (filter_all _ _ Hd). }
  rewrite E, Hc. apply Nat.leb_le. lia.
Qed.

Lemma accepted_numbers_pass_the_form_check_witness :
  Patterns.phone "+971501234567" = true
  /\ Frontend.isValidPhone "+971501234567" = true.
Proof.
  split; [reflexivity|].
  exact (accepted_numbers_pass_the_form_check "+971501234567" eq_refl).
Defined.

Example the_form_check_accepts_more :
  Frontend.isValidPhone "5" = true /\ Patterns.phone "5" = false
  /\ Frontend.isValidPhone "call 1" = true /\ Patterns.phone "call 1" = false.
Proof. repeat split. Qed.

(** ** The uptime of the health route *)

Lemma read_digits_from d : forall t acc,
  fold_left read_step (Js.chars (NilEmpty.string_of_uint d)) (t, Z.pos acc)
  = (t, Z.pos (Pos.of_uint_acc d acc)).
Proof.
  induction d; intros t acc; cbn [NilEmpty.string_of_uint Pos.of_uint_acc];
    try reflexivity;
    unfold Js.chars in *; cbn [list_ascii_of_string fold_left];
    unfold read_step at 2;
    match goal with
    | |- context [Js.is_digit ?c] => change (Js.is_digit c) with true
    end; cbv iota;
    match goal with
    | |- context [Js.code ?c - 48] =>
        let v := eval vm_compute in (Js.code c - 48) in
        change (Js.code c - 48) with v
    end;
    rewrite <- IHd; f_equal; f_equal; lia.
Qed.

Lemma read_digits d : forall t,
  fold_left read_step (Js.chars (NilEmpty.string_of_uint d)) (t, 0)
  = (t, Z.of_N (Pos.of_uint d)).
Proof.
  induction d; intros t; cbn [NilEmpty.string_of_uint Pos.of_uint];
    try reflexivity;
    unfold Js.chars in *; cbn [list_ascii_of_string fold_left];
    unfold read_step at 2;
    match goal with
    | |- context [Js.is_digit ?c] => change (Js.is_digit c) with true
    end; cbv iota;
    match goal with
    | |- context [Js.code ?c - 48] =>
        let v := eval vm_compute in (Js.code c - 48) in
        change (Js.code c - 48) with v
    end;
    [ apply IHd | .. ];
    (match goal with
     | |- fold_left _ _ (_, ?z) = _ =>
         let p := eval vm_compute in (Z.to_pos z) in
         change z with (Z.pos p)
     end;
     fold (Js.chars (NilEmpty.string_of_uint d));
     rewrite read_digits_from; reflexivity).
Qed.

Lemma read_number k t :
  0 <= k ->
  fold_left read_step (Js.chars (Js.number_toString k)) (t, 0) = (t, k).
Proof.
  intros Hk. unfold Js.number_toString.
  destruct k as [|p|p]; [reflexivity | | lia].
  cbn [Z.to_int NilZero.string_of_int]. unfold NilZero.string_of_uint.
  pose proof (DecimalPos.Unsigned.to_uint_nonnil p) as Hn.
  pose proof (DecimalPos.Unsigned.of_to p) as Hp.
  destruct (Pos.to_uint p) eqn:E; [contradiction | ..];
    rewrite read_digits, Hp; reflexivity.
Qed.

Lemma read_unit t k :
  fold_left read_step (Js.chars "d") (t, k) = (t + 86400 * k, 0)
  /\ fold_left read_step (Js.chars "h") (t, k) = (t + 3600 * k, 0)
  /\ fold_left read_step (Js.chars "m") (t, k) = (t + 60 * k, 0)
  /\ fold_left read_step (Js.chars "s") (t, k) = (t + k, 0)
  /\ fold_left read_step (Js.chars " ") (t, k) = (t, k).
Proof. repeat split. Qed.

Lemma number_not_empty k : Js.number_toString k <> "".
Proof.
  unfold Js.number_toString. destruct k as [|p|p]; simpl; try discriminate.
  unfold NilZero.string_of_uint.
  pose proof (DecimalPos.Unsigned.to_uint_nonnil p) as Hn.
  destruct (Pos.to_uint p); [contradiction | ..]; discriminate.
Qed.

Lemma part_truthy k rest : Js.truthy (Js.number_toString k ++ rest) = true.
Proof.
  unfold Js.truthy. apply negb_true_iff, String.eqb_neq.
  pose proof (number_not_empty k) as H.
  destruct (Js.number_toString k); [contradiction | discriminate].
Qed.

Lemma append_assoc (a b c : string) : ((a ++ b) ++ c = a ++ b ++ c)%string.
Proof. induction a as [|x a IH]; simpl; [reflexivity | now rewrite IH]. Qed.

(** X23.  [formatUptime] loses nothing of a whole number of seconds: the
    days, hours, minutes and seconds it writes, read back with their units,
    add up to the uptime it was given, zero (written [0s]) included. *)
Theorem formatUptime_reads_back n :
  0 <= n -> read_uptime (Health.formatUptime n) = n.
Proof.
  intros Hn. unfold Health.formatUptime, read_uptime.
  rewrite !Z.rem_mod_nonneg by lia.
  set (d := n / 86400). set (h := n mod 86400 / 3600).
  set (m := n mod 3600 / 60). set (s := n mod 60).
  assert (Hd : 0 <= d) by (subst d; apply Z.div_pos; lia).
  assert (Hh : 0 <= h) by (subst h; apply Z.div_pos; [apply Z.mod_pos_bound|]; lia).
  assert (Hm : 0 <= m) by (subst m; apply Z.div_pos; [apply Z.mod_pos_bound|]; lia).
  assert (Hs : 0 <= s) by (subst s; apply Z.mod_pos_bound; lia).
  assert (Hsum : n = 86400 * d + 3600 * h + 60 * m + s).
  { subst d h m s.
    pose proof (Z.div_mod n 86400 ltac:(lia)).
    pose proof (Z.div_mod (n mod 86400) 3600 ltac:(lia)).
    pose proof (Z.div_mod n 3600 ltac:(lia)).
    pose proof (Z.div_mod (n mod 3600) 60 ltac:(lia)).
    pose proof (Z.div_mod n 60 ltac:(lia)).
    pose proof (Z.mod_pos_bound n 86400 ltac:(lia)).
    pose proof (Z.mod_pos_bound n 3600 ltac:(lia)).
    pose proof (Z.mod_pos_bound n 60 ltac:(lia)).
    pose proof (Z.mod_pos_bound (n mod 86400) 3600 ltac:(lia)).
    pose proof (Z.mod_pos_bound (n mod 3600) 60 ltac:(lia)).
    assert (E1 : (n mod 86400) mod 3600 = n mod 3600).
    { apply Z.mod_mod_divide. exists 24. reflexivity. }
    assert (E2 : (n mod 3600) mod 60 = n mod 60).
    { apply Z.mod_mod_divide. exists 60. reflexivity. }
    lia. }
  clearbody d h m s.
  assert (Zero : forall x, 0 <= x -> (0 <? x) = false -> x = 0)
    by (intros x Hx E; apply Z.ltb_ge in E; lia).
  destruct (read_unit 0 0) as [_ [_ [_ [_ Rsp]]]].
  destruct (0 <? d) eqn:Ed; destruct (0 <? h) eqn:Eh;
    destruct (0 <? m) eqn:Em; destruct (0 <? s) eqn:Es;
    try apply Zero in Ed; try apply Zero in Eh;
    try apply Zero in Em; try apply Zero in Es; try assumption;
    cbn [app Js.join String.concat];
    rewrite ?append_assoc, ?part_truthy;
    rewrite ?chars_app, ?fold_left_app;
    repeat ((rewrite read_number by assumption)
            || rewrite (proj1 (read_unit _ _))
            || rewrite (proj1 (proj2 (read_unit _ _)))
            || rewrite (proj1 (proj2 (proj2 (read_unit _ _))))
            || rewrite (proj1 (proj2 (proj2 (proj2 (read_unit _ _)))))
            || rewrite (proj2 (proj2 (proj2 (proj2 (read_unit _ _))))));
    cbn [fst]; try lia.
  subst. reflexivity.
Qed.

Lemma formatUptime_reads_back_witness :
  0 <= 90061
  /\ Health.formatUptime 90061 = "1d 1h 1m 1s"
  /\ read_uptime (Health.formatUptime 90061) = 90061.
Proof.
  split; [lia | split; [reflexivity |]].
  apply (formatUptime_reads_back 90061); lia.
Defined.

(** ** Notification failures, reported *)

Lemma stops_one env m : stops (sendEmail env m).
Proof. intros w. reflexivity. Qed.

Lemma stops_first env m (k : M unit) : stops (sendEmail env m ;; k).
Proof. intros w. reflexivity. Qed.

Lemma write_then_logged {A : Type} env st (mails : M unit) s (resp : A) w :
  stops mails ->
  (Database.runQuery env st ;;
   try_catch mails (fun _ => console_error s) ;;
   ret resp) w
  = match Sql.exec (CURRENT_TIMESTAMP env) st (store w) with
    | Sql.Done (_, d') =>
        (Return resp,
         World d' (console w ++ ["Email sending failed:"; s]) (error_log w)
           (outbox w) (attempts w) (transport w))
    | Sql.Failed c m => (Throw (SqliteError c m), w)
    end.
Proof.
  intros Hm. unfold bind at 1. unfold Database.runQuery.
  destruct (Sql.exec (CURRENT_TIMESTAMP env) st (store w)) as [[rr d']|c m];
    [|reflexivity].
  unfold bind, try_catch. rewrite Hm. unfold console_error, ret.
  cbn [store console error_log outbox attempts transport].
  rewrite <- app_assoc. reflexivity.
Qed.

Lemma settled_unchanged op w res : store (snd res) = store w -> settled op w res.
Proof.
  intros H. left. destruct op; apply Exists_cons_hd; now rewrite H.
Qed.

Lemma settled_rejected op env chains handler req w :
  fst (Validator.run_chains env chains (body req)) <> [] ->
  settled op w (route env chains handler req w).
Proof.
  intros H. apply settled_unchanged. now rewrite (route_rejection _ _ _ _ _ H).
Qed.

Lemma settled_thrown op env e w :
  settled op w (ErrorHandler.errorHandler env e w).
Proof. apply settled_unchanged, errorHandler_store. Qed.

Lemma settled_message env req w :
  settled SubmitMessage w (Contact.post_message env req w).
Proof.
  unfold Contact.post_message.
  destruct (Validator.run_chains env Contact.contactValidationRules (body req))
    as [errors b] eqn:Hvalid.
  destruct errors as [|e errors].
  2:{ apply settled_rejected. rewrite Hvalid. discriminate. }
  rewrite (route_accepted _ _ _ _ _ _ Hvalid).
  unfold ErrorHandler.catchAsync, Contact.submit_message.
  rewrite write_then_logged by apply stops_first.
  destruct (Sql.exec _ _ _) as [[rr d']|c m]; [|apply settled_thrown].
  right. split; [split; [right; reflexivity | reflexivity]|].
  split; [eexists; reflexivity | repeat split; reflexivity].
Qed.

Lemma settled_feedback env req w :
  settled SubmitFeedback w (Feedback.post_feedback env req w).
Proof.
  unfold Feedback.post_feedback.
  destruct (Validator.run_chains env Feedback.feedbackValidationRules (body req))
    as [errors b] eqn:Hvalid.
  destruct errors as [|e errors].
  2:{ apply settled_rejected. rewrite Hvalid. discriminate. }
  rewrite (route_accepted _ _ _ _ _ _ Hvalid).
  unfold ErrorHandler.catchAsync, Feedback.submit_feedback.
  rewrite write_then_logged by apply stops_first.
  destruct (Sql.exec _ _ _) as [[rr d']|c m]; [|apply settled_thrown].
  right. split; [split; [right; reflexivity | reflexivity]|].
  split; [eexists; reflexivity | repeat split; reflexivity].
Qed.

Lemma two_writes_then_logged {A : Type} env st1 st2 (mails : M unit) s (resp : A) w :
  stops mails ->
  (Database.runQuery env st1 ;;
   Database.runQuery env st2 ;;
   try_catch mails (fun _ => console_error s) ;;
   ret resp) w
  = match Sql.exec (CURRENT_TIMESTAMP env) st1 (store w) with
    | Sql.Done (_, d1) =>
        match Sql.exec (CURRENT_TIMESTAMP env) st2 d1 with
        | Sql.Done (_, d2) =>
            (Return resp,
             World d2 (console w ++ ["Email sending failed:"; s]) (error_log w)
               (outbox w) (attempts w) (transport w))
        | Sql.Failed c m =>
            (Throw (SqliteError c m),
             World d1 (console w) (error_log w) (outbox w) (attempts w) (transport w))
        end
    | Sql.Failed c m => (Throw (SqliteError c m), w)
    end.
Proof.
  intros Hm.
  set (rest := (Database.runQuery env st2 ;;
                try_catch mails (fun _ => console_error s) ;;
                ret resp)).
  unfold bind at 1. unfold Database.runQuery at 1.
  destruct (Sql.exec (CURRENT_TIMESTAMP env) st1 (store w)) as [[r1 d1]|c m];
    [|reflexivity].
  subst rest. rewrite (write_then_logged env st2 mails s resp _ Hm).
  cbn [store console error_log outbox attempts transport].
  destruct (Sql.exec (CURRENT_TIMESTAMP env) st2 d1) as [[r2 d2]|c m]; reflexivity.
Qed.

Lemma settled_application env req w :
  settled SubmitApplication w (Visa.post_application env req w).
Proof.
  unfold Visa.post_application.
  destruct (Validator.run_chains env Visa.visaValidationRules (body req))
    as [errors b] eqn:Hvalid.
  destruct errors as [|e errors].
  2:{ apply settled_rejected. rewrite Hvalid. discriminate. }
  rewrite (route_accepted _ _ _ _ _ _ Hvalid).
  unfold ErrorHandler.catchAsync, Visa.submit_application, Visa.first_file.
  change (files (with_body req b)) with (files req).
  destruct (assoc "passport_copy" (files req)) as [[|f1 l1]|];
    destruct (assoc "photo" (files req)) as [[|f2 l2]|];
    try apply settled_thrown;
    rewrite ?bind_ret, ?bind_throw; try apply settled_thrown.
  destruct (assoc "cv" (files req)) as [[|f3 l3]|];
    rewrite ?bind_ret, ?bind_throw; try apply settled_thrown.
  all: rewrite two_writes_then_logged by apply stops_first.
  all: cbn [Sql.exec].
  all: destruct (Sql.exec_insert _ Sql.visa_applications _ _) as [[r1 d1]|c m] eqn:E1;
    [|apply settled_thrown].
  all: destruct (Sql.exec_insert _ Sql.application_status_log _ _) as [[r2 d2]|c m];
    [ right; split; [split; [right; reflexivity | reflexivity]|];
      split; [eexists; reflexivity | repeat split; reflexivity]
    | left; apply Exists_cons_tl, Exists_cons_hd;
      rewrite errorHandler_store; cbn [store];
      apply (exec_insert_frame _ _ _ _ _ _ _ E1); discriminate ].
Qed.

Lemma settled_subscription env req w :
  settled Subscribe w (Newsletter.post_subscribe env req w).
Proof.
  unfold Newsletter.post_subscribe.
  destruct (Validator.run_chains env Newsletter.subscriptionValidationRules (body req))
    as [errors b] eqn:Hvalid.
  destruct errors as [|e errors].
  2:{ apply settled_rejected. rewrite Hvalid. discriminate. }
  rewrite (route_accepted _ _ _ _ _ _ Hvalid).
  unfold ErrorHandler.catchAsync, Newsletter.subscribe.
  unfold bind at 1. rewrite getRow_star by reflexivity.
  destruct (find _ _) as [existing|].
  - destruct (Newsletter.truthy_value (Sql.get "is_active" existing)).
    + apply settled_unchanged. reflexivity.
    + rewrite write_then_logged by apply stops_one.
      destruct (Sql.exec _ _ _) as [[rr d']|c m]; [|apply settled_thrown].
      right. split; [split; [left; reflexivity | reflexivity]|].
      split; [eexists; reflexivity | repeat split; reflexivity].
  - rewrite write_then_logged by apply stops_first.
    destruct (Sql.exec _ _ _) as [[rr d']|c m]; [|apply settled_thrown].
    right. split; [split; [right; reflexivity | reflexivity]|].
    split; [eexists; reflexivity | repeat split; reflexivity].
Qed.

Lemma settled_otherwise op env req w :
  settled op w (perform op env req w).
Proof.
  destruct op; cbn [perform].
  - apply settled_application.
  - apply settled_message.
  - apply settled_feedback.
  - apply settled_subscription.
  - unfold Newsletter.post_unsubscribe. apply settled_unchanged.
    destruct (fst (Validator.run_chains env Newsletter.unsubscribeValidationRules
                     (body req))) as [|e errors] eqn:Hvalid.
    + apply (unsubscribe_always_fails env req w Hvalid).
    + rewrite route_rejection by (rewrite Hvalid; discriminate). reflexivity.
  - unfold Contact.patch_status. apply settled_unchanged.
    destruct (fst (Validator.run_chains env Contact.statusValidationRules
                     (body req))) as [|e errors] eqn:Hvalid.
    + apply (contact_status_update_always_fails env req w Hvalid).
    + rewrite route_rejection by (rewrite Hvalid; discriminate). reflexivity.
  - unfold Feedback.patch_status. apply settled_unchanged.
    destruct (fst (Validator.run_chains env Feedback.statusValidationRules
                     (body req))) as [|e errors] eqn:Hvalid.
    + destruct (feedback_of (assoc "feedbackId" (params req)) w) as [r|] eqn:Hfind.
      * apply (feedback_status_update_fails env req w r Hvalid Hfind).
      * apply (feedback_status_update_unknown env req w Hvalid Hfind).
    + rewrite route_rejection by (rewrite Hvalid; discriminate). reflexivity.
Qed.

(** C9. For every submission and every status update whose durable write
    succeeded (every table the operation writes to has changed), the failure
    of the notification changes nothing of the answer: the operation reports
    success (200 or 201 with [status: success]); the failure is logged, on
    the console, by [sendEmail] and by the handler's [catch]; it reaches
    neither the caller nor the error middleware; nothing was sent.  And the
    answer is the same whatever the mail transport would do.  (A notification
    always fails here, in [createTransporter]; the three operations other
    than the submissions never write, so this holds of them for want of a
    case.) *)
Theorem notification_failure_never_changes_response :
  forall (op : operation) (env : environment) (req : request) (w : world),
    let res := perform op env req w in
    write_succeeded op w (snd res) ->
    reports_success (fst res)
    /\ failure_logged w (snd res)
    /\ forall t, fst (perform op env req (with_transport w t)) = fst res.
Proof.
  intros op env req w res Hwritten.
  assert (Hgood : reports_success (fst res) /\ failure_logged w (snd res)).
  { destruct (settled_otherwise op env req w) as [Hsame|Hgood]; [|exact Hgood].
    exfalso. fold res in Hsame. unfold write_succeeded in Hwritten.
    apply Exists_exists in Hsame. destruct Hsame as [t [Ht Hsame]].
    rewrite Forall_forall in Hwritten. exact (Hwritten t Ht Hsame). }
  destruct Hgood as [Hsuccess Hlogged].
  split; [exact Hsuccess|]. split; [exact Hlogged|].
  intros t. subst res.
  assert (H : agree (with_transport w t) w) by (split; reflexivity).
  destruct op; apply route_independent; try exact H; intros r.
  - apply independent_submit_application.
  - apply independent_submit_message.
  - apply independent_submit_feedback.
  - apply independent_subscribe.
  - apply independent_unsubscribe.
  - apply independent_contact_update.
  - apply independent_feedback_update.
Qed.

Lemma notification_failure_never_changes_response_witness :
  let env := Sample.environment in
  let req := Scenario.post Scenario.contact_body in
  let w := with_transport Sample.empty_world Sample.delivers in
  let res := perform SubmitMessage env req w in
  write_succeeded SubmitMessage w (snd res)
  /\ reports_success (fst res)
  /\ failure_logged w (snd res)
  /\ statusCode (fst res) = 201
  /\ console (snd res) = ["Email sending failed:"; "Email sending failed:"]
  /\ outbox (snd res) = [].
Proof.
  intros env req w res.
  assert (Hwritten : write_succeeded SubmitMessage w (snd res))
    by (constructor; [discriminate | constructor]).
  destruct (notification_failure_never_changes_response SubmitMessage env req w Hwritten)
    as [Hsuccess [Hlogged _]].
  split; [exact Hwritten|]. split; [exact Hsuccess|]. split; [exact Hlogged|].
  repeat split; reflexivity.
Defined.

(** ** Newsletter subscriptions: when the write is accepted *)

Lemma filter_none {A : Type} (p : A -> bool) l :
  (forall x, In x l -> p x = false) -> filter p l = [].
Proof.
  induction l as [|x l IH]; intros H; [reflexivity|]. cbn [filter].
  rewrite (H x (or_introl eq_refl)). apply IH. intros y Hy. apply H. now right.
Qed.

Lemma one_row_of_an_address rows e :
  NoDup (emails rows) ->
  (List.length (filter (fun x => Sql.eq_value (Sql.get "email" x) e) rows) <= 1)%nat.
Proof.
  induction rows as [|x l IH]; intros Hnd; [simpl; lia|].
  unfold emails in Hnd. cbn [map] in Hnd. inversion Hnd as [|a l' Hnotin Hnd']. subst.
  cbn [filter]. destruct (Sql.eq_value (Sql.get "email" x) e) eqn:Hx.
  - apply eq_value_true in Hx. destruct Hx as [Hx _].
    rewrite filter_none; [simpl; lia|].
    intros y Hy. destruct (Sql.eq_value (Sql.get "email" y) e) eqn:Hyv; [|reflexivity].
    apply eq_value_true in Hyv. destruct Hyv as [Hyv _].
    exfalso. apply Hnotin. rewrite Hx, <- Hyv. now apply in_map.
  - apply IH. exact Hnd'.
Qed.

Lemma first_some_none {A B : Type} (f : A -> option B) l :
  (forall x, In x l -> f x = None) -> Sql.first_some f l = None.
Proof.
  induction l as [|x l IH]; intros H; [reflexivity|]. cbn [Sql.first_some].
  rewrite (H x (or_introl eq_refl)). apply IH. intros y Hy. apply H. now right.
Qed.

Lemma token_after_reactivation name token now x :
  Sql.get "unsubscribe_token"
    (Sql.apply_set Sql.newsletter_subscriptions
       [ ("is_active", Sql.VInt 1); ("full_name", name);
         ("unsubscribe_token", Sql.VText token); ("updated_at", now) ] x)
  = Sql.VText token.
Proof.
  assert (E : forall c1 v1 c2 v2 rest,
             Sql.apply_set Sql.newsletter_subscriptions
               ((c1, v1) :: (c2, v2) :: rest) x
             = Sql.apply_set Sql.newsletter_subscriptions rest
                 (Sql.apply_set Sql.newsletter_subscriptions [(c1, v1); (c2, v2)] x))
    by reflexivity.
  rewrite E.
  rewrite (get_apply_set_first _ _ _ _ _ (Sql.unique "unsubscribe_token" Sql.TEXT));
    [reflexivity | reflexivity |].
  simpl. intros [H|[]]; discriminate.
Qed.

(** The UPDATE of a reactivation is accepted when the address has one row
    and no row of another address holds the new token. *)
Lemma reactivation_accepted env v name d :
  let t := Sql.newsletter_subscriptions in
  let rows := Sql.table_rows t d in
  let token := Sql.VText (Newsletter.generateUnsubscribeToken env) in
  NoDup (emails rows) ->
  (forall x, In x rows -> Sql.get "unsubscribe_token" x = token ->
             Sql.get "email" x = bound v) ->
  exists r d',
    Sql.exec_update t
      [ ("is_active", Sql.VInt 1);
        ("full_name", name);
        ("unsubscribe_token", token);
        ("updated_at", Sql.VText (CURRENT_TIMESTAMP env)) ]
      [ ("email", bound v) ] d
    = Sql.Done (r, d').
Proof.
  intros t rows token Hnd Htoken.
  unfold Sql.exec_update.
  change (Sql.unknown_column _ _) with (@None string). cbv iota.
  fold t. change (Sql.rows (Sql.select_table t d)) with rows.
  set (set := [ ("is_active", Sql.VInt 1); ("full_name", name);
                ("unsubscribe_token", token);
                ("updated_at", Sql.VText (CURRENT_TIMESTAMP env)) ]).
  set (conds := [ ("email", bound v) ]).
  assert (Hholds : forall x, Sql.holds t conds x
                             = Sql.eq_value (Sql.get "email" x) (bound v))
    by (intros; apply holds_email).
  destruct (map (Sql.apply_set t set) (filter (Sql.holds t conds) rows))
    as [|first others] eqn:Hupdated; [eexists _, _; reflexivity|].
  assert (Hin : forall u, In u (first :: others) ->
                  exists x, In x rows /\ Sql.holds t conds x = true
                            /\ u = Sql.apply_set t set x).
  { intros u Hu. rewrite <- Hupdated in Hu. apply in_map_iff in Hu.
    destruct Hu as [x [<- Hx]]. apply filter_In in Hx. destruct Hx as [Hx Hh].
    exists x. auto. }
  assert (Hemail : forall x, Sql.get "email" (Sql.apply_set t set x) = Sql.get "email" x).
  { intros x. apply get_apply_set. simpl. intros [H|[H|[H|[H|[]]]]]; discriminate. }
  assert (Htok : forall x, Sql.get "unsubscribe_token" (Sql.apply_set t set x) = token)
    by (intros x; apply token_after_reactivation).
  rewrite first_some_none.
  2:{ intros u Hu. destruct (Hin u Hu) as [x [Hx [Hh ->]]].
      rewrite Hholds in Hh. apply eq_value_true in Hh. destruct Hh as [He Hnn].
      unfold Sql.null_violation. cbn [Sql.schema t find].
      cbn [Sql.col_not_null Sql.col_name Sql.primary_key Sql.unique_not_null
           Sql.nullable Sql.with_default Sql.unique andb].
      rewrite Hemail, He.
      destruct (bound v); [ | reflexivity | reflexivity]. now elim Hnn. }
  replace (forallb (Sql.check_holds t) (first :: others)) with true
    by (symmetry; apply forallb_forall; intros; reflexivity).
  cbv iota. cbn [negb].
  assert (Hocc : (Sql.occurrences "unsubscribe_token"
                    (Sql.get "unsubscribe_token" first)
                    (map (fun r => if Sql.holds t conds r then Sql.apply_set t set r
                                   else r) rows) <= 1)%nat).
  { destruct (Hin first (or_introl eq_refl)) as [x0 [_ [Hh0 ->]]]. rewrite Htok.
    rewrite Hholds in Hh0. apply eq_value_true in Hh0. destruct Hh0 as [He0 Hnn].
    rewrite He0 in Hnn.
    unfold Sql.occurrences.
    eapply Nat.le_trans; [|apply (one_row_of_an_address rows (bound v) Hnd)].
    clear -Hholds Htok Htoken Hemail Hnn.
    induction rows as [|x l IH]; [simpl; lia|].
    cbn [map filter]. rewrite Hholds.
    destruct (Sql.eq_value (Sql.get "email" x) (bound v)) eqn:Hx.
    - rewrite Htok. unfold token at 1 2. unfold Sql.eq_value at 1.
      rewrite String.eqb_refl. cbn [List.length].
      apply le_n_S, IH. intros y Hy. apply Htoken. now right.
    - destruct (Sql.eq_value (Sql.get "unsubscribe_token" x) token) eqn:Ht.
      + exfalso. apply eq_value_true in Ht. destruct Ht as [Ht _].
        pose proof (Htoken x (or_introl eq_refl) Ht) as He.
        rewrite He, eq_value_refl in Hx by exact Hnn. discriminate.
      + apply IH. intros y Hy. apply Htoken. now right. }
  apply Nat.ltb_ge in Hocc.
  match goal with
  | |- context [find ?p (Sql.schema t)] =>
      assert (Hfind : find p (Sql.schema t) = None)
  end.
  { change (Sql.schema t) with (Sql.schema Sql.newsletter_subscriptions).
    cbn [Sql.schema find].
    cbn [Sql.col_unique Sql.col_name Sql.primary_key Sql.unique_not_null
         Sql.nullable Sql.with_default Sql.unique andb].
    change (Js.includes "unsubscribe_token" (map fst set)) with true.
    cbn [andb]. rewrite Hocc. reflexivity. }
  rewrite Hfind. eexists _, _. reflexivity.
Qed.

(** C4. For a subscribe request that passes validation, with [email] the
    normalised address the handler looks up and [token] the token drawn for
    it:
    - a store with at most one row per e-mail address is left with at most
      one row per address;
    - when the address has an active row, the answer is 200 with
      [data.status = "already_subscribed"] and the store is unchanged;
    - when the address has an inactive row, no row is added: either the
      answer is 200 with [data.status = "reactivated"] and the rows of that
      address were rewritten in place (same id, same address, active, the
      new token), or the store refused the UPDATE, the answer is 500 and
      the rows are as before.  The UPDATE is accepted, and the answer is
      200, whenever the address has one row and no row of another address
      holds the token;
    - when the address has no row, either the answer is 201 and exactly one
      row, active and carrying that address, was appended, or the store
      refused the INSERT, the answer is 500 and the rows are as before.
      The INSERT is accepted, and the answer is 201, whenever no row holds
      the token or the next row id.
    So a row is inserted only for an address that had none. *)
Theorem subscribe_keeps_one_row_per_email :
  forall env req w b,
    Validator.run_chains env Newsletter.subscriptionValidationRules (body req)
    = ([], b) ->
    let email := bound (assoc "email" b) in
    let token := Sql.VText (Newsletter.generateUnsubscribeToken env) in
    let res := Newsletter.post_subscribe env req w in
    let before := subscriptions w in
    let after := subscriptions (snd res) in
    (NoDup (emails before) -> NoDup (emails after))
    /\ match subscription_of email w with
       | Some r =>
           if Newsletter.truthy_value (Sql.get "is_active" r) then
             statusCode (fst res) = 200
             /\ data_status (fst res) = Some (JStr "already_subscribed")
             /\ store (snd res) = store w
           else
             List.length after = List.length before
             /\ ((statusCode (fst res) = 200
                  /\ data_status (fst res) = Some (JStr "reactivated")
                  /\ exists update : Sql.row -> Sql.row,
                       after = map (fun x =>
                                      if Sql.eq_value (Sql.get "email" x) email
                                      then update x else x) before
                       /\ forall x,
                            Sql.get "is_active" (update x) = Sql.VInt 1
                            /\ Sql.get "unsubscribe_token" (update x) = token
                            /\ Sql.get "email" (update x) = Sql.get "email" x
                            /\ Sql.get "id" (update x) = Sql.get "id" x)
                 \/ (statusCode (fst res) = 500 /\ after = before))
             /\ (NoDup (emails before) ->
                 (forall x, In x before ->
                    Sql.get "unsubscribe_token" x = token ->
                    Sql.get "email" x = email) ->
                 statusCode (fst res) = 200)
       | None =>
           ((statusCode (fst res) = 201
             /\ data_status (fst res) = Some (JStr "subscribed")
             /\ exists r,
                  after = (before ++ [r])%list
                  /\ Sql.get "email" r = email
                  /\ Sql.get "is_active" r = Sql.VInt 1)
            \/ (statusCode (fst res) = 500 /\ after = before))
           /\ ((forall x, In x before ->
                  Sql.get "unsubscribe_token" x <> token
                  /\ Sql.get "id" x
                     <> Sql.VInt
                          (Sql.last_rowid (Sql.newsletter_subscriptions_table (store w))
                           + 1)) ->
               statusCode (fst res) = 201)
       end.
Proof.
  intros env req w b Hvalid email token res before after.
  assert (Hres : res = Newsletter.post_subscribe env req w) by reflexivity.
  clearbody res.
  unfold Newsletter.post_subscribe in Hres.
  rewrite (route_accepted _ _ _ _ _ _ Hvalid) in Hres.
  unfold ErrorHandler.catchAsync, Newsletter.subscribe in Hres.
  change (field_of (with_body req b)) with (fun n => assoc n b) in Hres.
  cbv beta in Hres. fold email in Hres.
  unfold bind at 1 in Hres.
  rewrite getRow_star in Hres by reflexivity.
  rewrite (find_ext _ (fun r => Sql.eq_value (Sql.get "email" r) email)) in Hres
    by (intros; apply holds_email).
  fold (subscriptions w) in Hres. fold (subscription_of email w) in Hres.
  destruct (subscription_of email w) as [r|] eqn:Hfind.
  - destruct (Newsletter.truthy_value (Sql.get "is_active" r)) eqn:Hact.
    + (* active: answered at once *)
      unfold ret in Hres. subst res after. cbn [fst snd]. fold before.
      split; [tauto|]. split; [reflexivity|]. split; [|reflexivity].
      unfold data_status. destruct (assoc "email" b); reflexivity.
    + (* inactive: UPDATE *)
      rewrite write_then_logged in Hres by apply stops_one.
      cbn [Sql.exec] in Hres.
      destruct (Sql.exec_update _ _ _ _) as [[rr d']|c m] eqn:Hexec.
      * pose proof (exec_update_done _ _ _ _ _ _ Hexec) as Hrows.
        subst res after. cbn [fst snd store]. unfold subscriptions at 1 2 3.
        cbn [store]. rewrite Hrows. fold (subscriptions w). fold before.
        match goal with |- context [map ?F before] => set (F' := F) end.
        assert (Hemails : emails (map F' before) = emails before).
        { unfold emails. rewrite map_map. apply map_ext. intros x.
          subst F'. cbv beta.
          destruct (Sql.holds _ _ x); [|reflexivity].
          apply get_apply_set. simpl. intros [H|[H|[H|[H|[]]]]]; discriminate. }
        split; [now rewrite Hemails|]. split; [apply length_map|].
        split; [|intros _ _; reflexivity].
        left. split; [reflexivity|]. split.
        { unfold data_status. destruct (assoc "email" b); reflexivity. }
        eexists. split.
        { apply map_ext. intros x. subst F'. cbv beta. unfold email.
          rewrite holds_email. reflexivity. }
        intros x. split; [|split; [|split]].
        { rewrite (get_apply_set_first _ _ _ _ _
                     (Sql.with_default "is_active" Sql.BOOLEAN (Sql.DefaultBool true)));
            [reflexivity | reflexivity |].
          simpl. intros [H|[H|[H|[]]]]; discriminate. }
        { apply token_after_reactivation. }
        { apply get_apply_set. simpl. intros [H|[H|[H|[H|[]]]]]; discriminate. }
        { apply get_apply_set. simpl. intros [H|[H|[H|[H|[]]]]]; discriminate. }
      * destruct (errorHandler_sqlite env c m w) as [Hc Hs].
        assert (Hafter : after = before)
          by (subst res after before; unfold subscriptions; now rewrite Hs).
        rewrite Hafter. subst res. clear Hafter after.
        split; [tauto|]. split; [reflexivity|].
        split; [right; split; [exact Hc | reflexivity]|].
        intros Hnd Htoken. exfalso.
        destruct (reactivation_accepted env (assoc "email" b)
                    (bound_or_null (assoc "name" b)) (store w) Hnd Htoken)
          as [rr [d' Hok]].
        discriminate (eq_trans (eq_sym Hok) Hexec).
  - (* no row: INSERT *)
    rewrite write_then_logged in Hres by apply stops_first.
    cbn [Sql.exec] in Hres.
    assert (Hnone : forall x, In x before ->
                      Sql.eq_value (Sql.get "email" x) email = false).
    { intros x Hx. apply (find_none _ _ Hfind x Hx). }
    set (new := Sql.new_row (CURRENT_TIMESTAMP env)
                  (Sql.last_rowid (Sql.select_table Sql.newsletter_subscriptions (store w)))
                  Sql.newsletter_subscriptions
                  [ ("email", email);
                    ("full_name", bound_or_null (assoc "name" b));
                    ("unsubscribe_token", token);
                    ("is_active", Sql.VInt 1);
                    ("created_at", Sql.VText (CURRENT_TIMESTAMP env));
                    ("updated_at", Sql.VText (CURRENT_TIMESTAMP env)) ]).
    assert (Hnew : Sql.get "email" new = email).
    { subst new. unfold email, bound.
      destruct (text_of (assoc "email" b)); reflexivity. }
    destruct (Sql.exec_insert _ _ _ _) as [[rr d']|c m] eqn:Hexec.
    + pose proof (exec_insert_done _ _ _ _ _ _ Hexec) as Hdone. cbv zeta in Hdone.
      destruct Hdone as [Hrows [Hnull _]].
      fold email token in Hrows, Hnull. fold new in Hrows, Hnull.
      assert (Hnn : email <> Sql.VNull).
      { unfold Sql.null_violation in Hnull.
        pose proof (find_none _ _ Hnull (Sql.unique_not_null "email" Sql.TEXT)) as H.
        cbv beta in H.
        change (Sql.col_name (Sql.unique_not_null "email" Sql.TEXT))
          with "email" in H.
        rewrite Hnew in H. intros E. rewrite E in H.
        assert (Hin : In (Sql.unique_not_null "email" Sql.TEXT)
                         (Sql.schema Sql.newsletter_subscriptions))
          by (simpl; tauto).
        specialize (H Hin). discriminate. }
      subst res after. cbn [fst snd store]. unfold subscriptions at 1 2 3.
      cbn [store]. rewrite Hrows. fold (subscriptions w). fold before.
      split; [|split; [|intros _; reflexivity]].
      * unfold emails. rewrite map_app. simpl map. rewrite Hnew. intros Hnd.
        apply NoDup_app; [exact Hnd | repeat constructor; intros [] | ].
        intros a Ha [Hb|[]]. subst a.
        apply in_map_iff in Ha. destruct Ha as [x [Hx Hin]].
        specialize (Hnone x Hin). rewrite Hx in Hnone.
        rewrite eq_value_refl in Hnone by assumption. discriminate.
      * left. split; [reflexivity|]. split.
        { unfold data_status. destruct (assoc "email" b); reflexivity. }
        exists new. split; [reflexivity | split; [exact Hnew | reflexivity]].
    + destruct (errorHandler_sqlite env c m w) as [Hc Hs].
      assert (Hafter : after = before)
        by (subst res after before; unfold subscriptions; now rewrite Hs).
      rewrite Hafter. subst res. clear Hafter after.
      split; [tauto|].
      split; [right; split; [exact Hc | reflexivity]|].
      intros Hfresh. exfalso.
      assert (Hdefined : exists t, email = Sql.VText t).
      { unfold email. apply bound_defined.
        pose proof (run_chains_define env Newsletter.subscriptionValidationRules
                      (body req) "email" eq_refl) as H.
        now rewrite Hvalid in H. }
      destruct Hdefined as [te Hte].
      destruct (exec_insert_succeeds (CURRENT_TIMESTAMP env) Sql.newsletter_subscriptions
                  [ ("email", email);
                    ("full_name", bound_or_null (assoc "name" b));
                    ("unsubscribe_token", token);
                    ("is_active", Sql.VInt 1);
                    ("created_at", Sql.VText (CURRENT_TIMESTAMP env));
                    ("updated_at", Sql.VText (CURRENT_TIMESTAMP env)) ] (store w))
        as [rr [d' Hok]].
      * reflexivity.
      * fold new. unfold Sql.null_violation.
        cbn [Sql.schema find Sql.col_not_null Sql.col_name Sql.primary_key
             Sql.nullable Sql.not_null Sql.unique_not_null Sql.unique
             Sql.with_default andb].
        rewrite Hnew, Hte. reflexivity.
      * reflexivity.
      * fold new. unfold Sql.unique_violation.
        cbn [Sql.schema find Sql.col_unique Sql.col_name Sql.primary_key Sql.nullable
             Sql.not_null Sql.unique_not_null Sql.unique Sql.with_default andb].
        rewrite Hnew.
        change (Sql.get "id" new)
          with (Sql.VInt (Sql.last_rowid
                            (Sql.select_table Sql.newsletter_subscriptions (store w)) + 1)).
        change (Sql.get "unsubscribe_token" new) with token.
        change (Sql.rows (Sql.select_table Sql.newsletter_subscriptions (store w)))
          with before.
        rewrite (occurrences_none "id") by (intros x Hx; now apply Hfresh).
        rewrite (occurrences_none "unsubscribe_token")
          by (intros x Hx; now apply Hfresh).
        assert (Hocc : Sql.occurrences "email" email before = 0%nat).
        { unfold Sql.occurrences. rewrite filter_none; [reflexivity | exact Hnone]. }
        rewrite Hocc. reflexivity.
      * discriminate (eq_trans (eq_sym Hok) Hexec).
Qed.

Lemma subscribe_keeps_one_row_per_email_witness :
  let env := Sample.environment in
  let req := Scenario.post Scenario.subscription_body in
  let new := Newsletter.post_subscribe env req Sample.empty_world in
  let active := Newsletter.post_subscribe env req Scenario.after_subscription in
  let inactive := Newsletter.post_subscribe env req Scenario.inactive_subscription in
  Validator.run_chains env Newsletter.subscriptionValidationRules (body req)
  = ([], Scenario.subscription_body)
  /\ (subscriptions Sample.empty_world = []
      /\ statusCode (fst new) = 201
      /\ List.length (subscriptions (snd new)) = 1%nat)
  /\ (column "is_active" (subscriptions Scenario.after_subscription) = [Sql.VInt 1]
      /\ statusCode (fst active) = 200
      /\ data_status (fst active) = Some (JStr "already_subscribed")
      /\ store (snd active) = store Scenario.after_subscription)
  /\ (column "is_active" (subscriptions Scenario.inactive_subscription) = [Sql.VInt 0]
      /\ statusCode (fst inactive) = 200
      /\ column "is_active" (subscriptions (snd inactive)) = [Sql.VInt 1]
      /\ List.length (subscriptions (snd inactive)) = 1%nat).
Proof.
  intros env req new active inactive.
  assert (Hvalid : Validator.run_chains env Newsletter.subscriptionValidationRules
                     (body req) = ([], Scenario.subscription_body))
    by reflexivity.
  split; [exact Hvalid|]. split; [|split].
  - pose proof (subscribe_keeps_one_row_per_email env req Sample.empty_world _ Hvalid)
      as H.
    cbv zeta in H. destruct H as [_ H].
    change (subscription_of _ Sample.empty_world) with (@None Sql.row) in H.
    cbv iota in H. destruct H as [_ H].
    split; [reflexivity|]. split; [|reflexivity].
    apply H. intros x [].
  - pose proof (subscribe_keeps_one_row_per_email env req Scenario.after_subscription
                  _ Hvalid) as H.
    cbv zeta in H. destruct H as [_ H].
    split; [reflexivity|]. vm_compute in H. vm_compute. exact H.
  - pose proof (subscribe_keeps_one_row_per_email env req
                  Scenario.inactive_subscription _ Hvalid) as H.
    cbv zeta in H. destruct H as [_ H].
    change (subscription_of _ Scenario.inactive_subscription)
      with (hd_error (subscriptions Scenario.inactive_subscription)) in H.
    cbn [hd_error] in H.
    change (subscriptions Scenario.inactive_subscription)
      with [ [ ("id", Sql.VInt 1); ("email", Sql.VText "a@b.com");
               ("full_name", Sql.VNull);
               ("subscription_date", Sql.VText "2025-05-01 00:00:00");
               ("is_active", Sql.VInt 0);
               ("unsubscribe_token", Sql.VText "0123456789abcdef");
               ("created_at", Sql.VText "2025-05-01 00:00:00");
               ("updated_at", Sql.VText "2025-05-20 00:00:00") ] ] in H.
    cbn [hd_error] in H.
    change (Newsletter.truthy_value _) with false in H. cbv iota in H.
    destruct H as [_ [_ H]].
    split; [reflexivity|]. split; [|split; reflexivity].
    apply H.
    + repeat constructor. intros [].
    + intros x [<-|[]] _. reflexivity.
Defined.

(** ** A status that is an array *)

(** C5. A status outside the enumeration is not always rejected.  [isIn]
    is applied to each element of an array, and the empty array has none:
    a PATCH whose body is [{"status": []}] passes validation and reaches the
    handler.  What answers then is the handler or the error middleware, with
    404 or 500, never 400; the store is unchanged all the same.  A status
    that is a string outside the enumeration is rejected with 400
    ([status_outside_enumeration_rejected]). *)
Theorem empty_array_status_is_not_rejected :
  forall (k : kind) (env : environment) (req : request) (w : world),
    body req = [("status", Arr [])] ->
    let res := patch_status k env req w in
    ~ In "" (allowed_statuses k)
    /\ (statusCode (fst res) = 404 \/ statusCode (fst res) = 500)
    /\ store (snd res) = store w.
Proof.
  intros k env req w Hbody res. subst res. split.
  { destruct k; simpl; intuition discriminate. }
  destruct k; unfold patch_status.
  - assert (Hvalid : fst (Validator.run_chains env Contact.statusValidationRules
                            (body req)) = [])
      by (rewrite Hbody; reflexivity).
    destruct (contact_status_update_always_fails env req w Hvalid) as [Hc Hs].
    split; [right; exact Hc | exact Hs].
  - assert (Hvalid : fst (Validator.run_chains env Feedback.statusValidationRules
                            (body req)) = [])
      by (rewrite Hbody; reflexivity).
    destruct (feedback_of (assoc "feedbackId" (params req)) w) as [r|] eqn:Hfind.
    + destruct (feedback_status_update_fails env req w r Hvalid Hfind) as [Hc Hs].
      split; [right; exact Hc | exact Hs].
    + destruct (feedback_status_update_unknown env req w Hvalid Hfind) as [Hc Hs].
      split; [left; exact Hc | exact Hs].
Qed.

Lemma empty_array_status_is_not_rejected_witness :
  let req := Request [("feedbackId", Scenario.feedback_identifier)] []
               [("status", Arr [])] [] in
  let res := patch_status FeedbackEntry Sample.environment req Scenario.after_feedback in
  body req = [("status", Arr [])]
  /\ column "status" (feedback_rows Scenario.after_feedback) = [Sql.VText "pending"]
  /\ statusCode (fst res) = 500
  /\ column "status" (feedback_rows (snd res)) = [Sql.VText "pending"].
Proof.
  intros req res.
  destruct (empty_array_status_is_not_rejected FeedbackEntry Sample.environment req
              Scenario.after_feedback eq_refl) as [_ [_ Hstore]].
  split; [reflexivity|]. split; [reflexivity|]. split; [reflexivity|].
  unfold feedback_rows. fold res in Hstore. rewrite Hstore. reflexivity.
Defined.
